(** * Ethernet device driver of Basilisk II on iOS (ether_ios.cpp)

    A shallow embedding of the driver logic of
    [src/BasiliskII/src/iOS/BasiliskII/ether_ios.cpp] in the configuration the
    file is built in for Basilisk II: [SHEEPSHAVER] undefined, [HAVE_SLIRP]
    defined (the [else] of [ether_init] does not parse otherwise) and
    [USE_POLL] set to 1.

    The globals of the file become one record that every operation takes and
    returns; calls into the guest CPU ([Execute68k]) and warnings to the user
    ([WarningAlert]) become events of a trace; system calls and the slirp
    library take their results from an explicit model of the host. *)

From Stdlib Require Import ZArith List String Ascii Bool Lia.
From stdpp Require Import base option list gmap.
Import ListNotations.

Local Open Scope Z_scope.

(** ** Integer types of the source *)

Definition uint32 (z : Z) : Z := z mod 4294967296.
(** Conversion of a [long] to [int] as the target compilers do it: modulo
    2^32, read as a signed value. *)
Definition int32 (z : Z) : Z := (z + 2147483648) mod 4294967296 - 2147483648.

(** ** MacOS result codes (the values of the enum at lines 350-355) *)

Definition noErr : Z := 0.
Definition eMultiErr : Z := -91.
Definition eLenErr : Z := -92.
Definition lapProtErr : Z := -94.
Definition excessCollsns : Z := -95.

(** ** Ethernet device types (enum at lines 72-77) *)

Definition NET_IF_SHEEPNET : Z := 0.
Definition NET_IF_ETHERTAP : Z := 1.
Definition NET_IF_TUNTAP : Z := 2.
Definition NET_IF_SLIRP : Z := 3.

(** ** Global variables (lines 80-99) *)

Record ether_globals : Type := {
  fd : Z;                          (* fd of sheep_net device *)
  thread_active : bool;            (* packet reception thread installed *)
  udp_tunnel : bool;               (* UDP tunnelling active *)
  net_if_type : Z;                 (* Ethernet device type *)
  slirp_thread_active : bool;      (* slirp reception thread installed *)
  slirp_output_fd : Z;             (* fd of slirp output pipe *)
  slirp_input_fds : Z * Z;         (* fds of slirp input pipe *)
  ether_addr : list Byte.byte;     (* our Ethernet address *)
  net_protocols : gmap Z Z         (* protocol type -> MacOS handler address *)
}.

Definition set_net_protocols (g : ether_globals) (m : gmap Z Z) : ether_globals :=
  {| fd := fd g; thread_active := thread_active g; udp_tunnel := udp_tunnel g;
     net_if_type := net_if_type g; slirp_thread_active := slirp_thread_active g;
     slirp_output_fd := slirp_output_fd g; slirp_input_fds := slirp_input_fds g;
     ether_addr := ether_addr g; net_protocols := m |}.

(** Flag: is the MacOS driver opened?  (line 95) *)
Definition ether_driver_opened : bool := true.

(** State of the file right after static initialisation. *)
Definition initial_globals : ether_globals :=
  {| fd := -1; thread_active := false; udp_tunnel := false; net_if_type := -1;
     slirp_thread_active := false; slirp_output_fd := -1;
     slirp_input_fds := (-1, -1); ether_addr := []; net_protocols := ∅ |}.

(** ** Protocol handler table (lines 515-587) *)

(** [ether_reset]: [net_protocols.clear()]. *)
Definition ether_reset (g : ether_globals) : ether_globals :=
  set_net_protocols g ∅.

(** [ether_attach_ph]: the result code and the globals after the call. *)
Definition ether_attach_ph (type handler : Z) (g : ether_globals) : Z * ether_globals :=
  match net_protocols g !! type with
  | Some _ => (lapProtErr, g)
  | None => (noErr, set_net_protocols g (<[type := handler]> (net_protocols g)))
  end.

(** [ether_detach_ph]: [erase] returns the number of entries removed. *)
Definition ether_detach_ph (type : Z) (g : ether_globals) : Z * ether_globals :=
  match net_protocols g !! type with
  | None => (lapProtErr, g)
  | Some _ => (noErr, set_net_protocols g (delete type (net_protocols g)))
  end.

(** ** Guest memory holding one received packet

    The packet buffer ([EthernetPacket], Mac address [packet]) is modelled by
    the bytes a [read] stored in it, addressed by their offset from
    [packet]. *)

Definition frame : Type := list Byte.byte.

Definition ReadMacInt8 (buf : frame) (off : nat) : Z :=
  Z.of_N (Byte.to_N (nth off buf Byte.x00)).

(** Big-endian 16-bit read, as on the 68k. *)
Definition ReadMacInt16 (buf : frame) (off : nat) : Z :=
  Z.lor (Z.shiftl (ReadMacInt8 buf off) 8) (ReadMacInt8 buf (S off)).

(** The registers [ether_dispatch_packet] sets before calling the handler. *)
Record M68kRegisters : Type := {
  r_d0 : Z; r_d1 : Z; r_a0 : Z; r_a3 : Z; r_a4 : Z
}.

(** What the driver does to the guest and to the host. *)
Inductive event : Type :=
| Execute68k (handler : Z) (r : M68kRegisters) (rha : list Byte.byte)
    (* a protocol handler is called; [rha] is the header copied to the RHA *)
| ether_udp_read (data : frame)
    (* a tunnelled packet is handed to the UDP ingestion path *)
| WarningAlert (text : string).
    (* a warning shown to the user *)

Section Dispatch.

(** Addresses that come from headers outside this file. *)
Variable packet : Z.          (* [ether_packet.addr()] *)
Variable ether_data : Z.
Variable ed_RHA : Z.
Variable ed_ReadPacket : Z.

(** The key looked up in [net_protocols] (line 474). *)
Definition search_type (type : Z) : Z :=
  if type <=? 1500 then 0 else type.

(** [ether_dispatch_packet(p, length)] (lines 468-496), [buf] being the
    contents of guest memory at [p]. *)
Definition ether_dispatch_packet (g : ether_globals) (buf : frame) (p length : Z)
  : list event :=
  let type := ReadMacInt16 buf 12 in
  match net_protocols g !! search_type type with
  | None => []
  | Some handler =>
      if handler =? 0 then []
      else
        let r := {| r_d0 := type;
                    r_d1 := uint32 (length - 14);
                    r_a0 := uint32 (p + 14);
                    r_a3 := uint32 (ether_data + ed_RHA + 14);
                    r_a4 := uint32 (ether_data + ed_ReadPacket) |} in
        [Execute68k handler r (firstn 14 buf)]
  end.

(** ** The host side of the descriptor [fd]

    The descriptor is non-blocking.  Its pending input is a queue of frames;
    [read(fd, buf, count)] and [recvfrom] take the first one, cut to [count]
    bytes, and return -1 when nothing is pending. *)

Definition sys_read (pending : list frame) (count : nat) : Z * frame * list frame :=
  match pending with
  | [] => (-1, [], [])
  | f :: rest => (Z.of_nat (length (firstn count f)), firstn count f, rest)
  end.

(** [ether_do_interrupt] (lines 770-812): the events of the call and the
    input left pending.  The loop runs until a read returns fewer than 14
    bytes, each turn being one [sys_read] of at most 1514 bytes (lemma
    [ether_do_interrupt_unfold]); the recursion is on the pending input.
    The protocol handlers called are taken not to change [net_protocols]. *)
Fixpoint ether_do_interrupt (g : ether_globals) (pending : list frame)
  : list event * list frame :=
  match pending with
  | [] => ([], [])
  | f :: rest =>
      let buf := firstn 1514 f in
      let length := Z.of_nat (length buf) in
      if length <? 14 then ([], rest)
      else
        let evs := if udp_tunnel g then [ether_udp_read buf]
                   else ether_dispatch_packet g buf packet length in
        let '(evs', rest') := ether_do_interrupt g rest in
        (evs ++ evs', rest')
  end.

End Dispatch.

(** ** Packet reception thread and interrupt acknowledge
    ([receive_func], lines 726-763; [EtherInterrupt], lines 499-507)

    [receive_func] and the guest run concurrently; the model interleaves
    their steps.  A state holds the globals, the input pending on [fd], the
    place [receive_func] is at, the interrupt flag, whether the guest is
    inside [EtherInterrupt], and the value of the semaphore [int_ack]. *)

Inductive recv_pc : Type :=
| AtPoll      (* about to call [poll] *)
| AtWait      (* inside [dispatch_semaphore_wait(int_ack, FOREVER)] *)
| Exited.     (* left the loop, or cancelled by [stop_thread] *)

Record system : Type := {
  sys_globals : ether_globals;
  sys_pending : list frame;
  sys_pc : recv_pc;
  sys_intflag : bool;
  sys_in_irq : bool;
  sys_int_ack : nat
}.

Inductive label : Type :=
| L_arrive (f : frame)          (* the host makes a frame readable on [fd] *)
| L_trigger                     (* [poll] > 0; interrupt flag set and triggered *)
| L_delay                       (* [Delay_usec(20000)], driver not opened *)
| L_poll_fail                   (* [poll] <= 0: [break] *)
| L_wait                        (* [dispatch_semaphore_wait] returns *)
| L_cancel                      (* [pthread_cancel] from [stop_thread] *)
| L_irq_enter                   (* the guest enters [EtherInterrupt] *)
| L_irq_done (evs : list event) (* [ether_do_interrupt] done, [int_ack] signalled *)
| L_attach (type handler : Z)   (* the guest driver calls [ether_attach_ph] *)
| L_detach (type : Z)           (* the guest driver calls [ether_detach_ph] *)
| L_reset                       (* the guest driver calls [ether_reset] *).

Definition with_globals (s : system) (g : ether_globals) : system :=
  {| sys_globals := g; sys_pending := sys_pending s; sys_pc := sys_pc s;
     sys_intflag := sys_intflag s; sys_in_irq := sys_in_irq s;
     sys_int_ack := sys_int_ack s |}.

(** Modelled from the spec: the interrupt dispatch of the emulator, which is
    not in this file (4.4, Interrupt Bridge: the guest's interrupt service
    runs for a raised interrupt and its completion is the acknowledgement).
    The guest enters [EtherInterrupt] when the flag set by
    [SetInterruptFlag(INTFLAG_ETHER)] is pending and it is not in the handler
    already; the flag is cleared. *)
Definition guest_enters_interrupt (s : system) : option system :=
  if sys_intflag s && negb (sys_in_irq s) then
    Some {| sys_globals := sys_globals s; sys_pending := sys_pending s;
            sys_pc := sys_pc s; sys_intflag := false;
            sys_in_irq := true; sys_int_ack := sys_int_ack s |}
  else None.

Section Reception.

Variable packet : Z.
Variable ether_data : Z.
Variable ed_RHA : Z.
Variable ed_ReadPacket : Z.

(** [start_thread]: [int_ack] is created with value 0 and [receive_func]
    starts at the top of its loop. *)
Definition start_thread (g : ether_globals) (pending : list frame) : system :=
  {| sys_globals := g; sys_pending := pending; sys_pc := AtPoll;
     sys_intflag := false; sys_in_irq := false; sys_int_ack := 0 |}.

(** One step of the system.

    The steps of [receive_func] follow its loop body; [EtherInterrupt] is
    entered as [guest_enters_interrupt] says and completes in one step, in
    which [ether_do_interrupt] runs and [int_ack] is signalled (protocol
    handlers are taken not to change [net_protocols] while they run); the
    guest driver may attach, detach and reset at any time; the host may make
    a frame readable at any time. *)
Inductive step : system -> label -> system -> Prop :=
| step_arrive s f :
    step s (L_arrive f)
      {| sys_globals := sys_globals s; sys_pending := sys_pending s ++ [f];
         sys_pc := sys_pc s; sys_intflag := sys_intflag s;
         sys_in_irq := sys_in_irq s; sys_int_ack := sys_int_ack s |}
| step_trigger s :
    sys_pc s = AtPoll -> sys_pending s <> [] -> ether_driver_opened = true ->
    step s L_trigger
      {| sys_globals := sys_globals s; sys_pending := sys_pending s;
         sys_pc := AtWait; sys_intflag := true;
         sys_in_irq := sys_in_irq s; sys_int_ack := sys_int_ack s |}
| step_delay s :
    sys_pc s = AtPoll -> sys_pending s <> [] -> ether_driver_opened = false ->
    step s L_delay s
| step_poll_fail s :
    sys_pc s = AtPoll ->
    step s L_poll_fail
      {| sys_globals := sys_globals s; sys_pending := sys_pending s;
         sys_pc := Exited; sys_intflag := sys_intflag s;
         sys_in_irq := sys_in_irq s; sys_int_ack := sys_int_ack s |}
| step_wait s n :
    sys_pc s = AtWait -> sys_int_ack s = S n ->
    step s L_wait
      {| sys_globals := sys_globals s; sys_pending := sys_pending s;
         sys_pc := AtPoll; sys_intflag := sys_intflag s;
         sys_in_irq := sys_in_irq s; sys_int_ack := n |}
| step_cancel s :
    step s L_cancel
      {| sys_globals := sys_globals s; sys_pending := sys_pending s;
         sys_pc := Exited; sys_intflag := sys_intflag s;
         sys_in_irq := sys_in_irq s; sys_int_ack := sys_int_ack s |}
| step_irq_enter s s' :
    guest_enters_interrupt s = Some s' ->
    step s L_irq_enter s'
| step_irq_done s evs rest :
    sys_in_irq s = true ->
    ether_do_interrupt packet ether_data ed_RHA ed_ReadPacket
      (sys_globals s) (sys_pending s) = (evs, rest) ->
    step s (L_irq_done evs)
      {| sys_globals := sys_globals s; sys_pending := rest;
         sys_pc := sys_pc s; sys_intflag := sys_intflag s;
         sys_in_irq := false; sys_int_ack := S (sys_int_ack s) |}
| step_attach s type handler :
    step s (L_attach type handler)
      (with_globals s (snd (ether_attach_ph type handler (sys_globals s))))
| step_detach s type :
    step s (L_detach type)
      (with_globals s (snd (ether_detach_ph type (sys_globals s))))
| step_reset s :
    step s L_reset (with_globals s (ether_reset (sys_globals s))).

(** Runs of the system from [start_thread], with the labels of their steps
    in order. *)
Inductive exec (g : ether_globals) (pending : list frame)
  : list label -> system -> Prop :=
| exec_start : exec g pending [] (start_thread g pending)
| exec_step tr s l s' :
    exec g pending tr s -> step s l s' -> exec g pending (tr ++ [l]) s'.

End Reception.

Definition is_trigger (l : label) : bool :=
  match l with L_trigger => true | _ => false end.
Definition is_ack (l : label) : bool :=
  match l with L_irq_done _ => true | _ => false end.
Definition is_wait (l : label) : bool :=
  match l with L_wait => true | _ => false end.

(** Number of labels of a trace that satisfy [p]. *)
Definition count (p : label -> bool) (tr : list label) : nat :=
  length (filter (fun l => p l = true) tr).

(** Number of protocol handler calls among events. *)
Definition is_Execute68k (e : event) : bool :=
  match e with Execute68k _ _ _ => true | _ => false end.
Definition dispatched (evs : list event) : nat :=
  length (filter (fun e => is_Execute68k e = true) evs).
Definition interrupts_raised (tr : list label) : nat := count is_trigger tr.

(** ** Transmit raw ethernet packet ([ether_do_write], lines 594-623) *)

Section Transmit.

(** The host's [write(fd, buf, len)]: the result for a descriptor and the
    bytes written, negative on failure. *)
Variable sys_write : Z -> list Byte.byte -> Z.

(** [len] as the four bytes [write(slirp_input_fd, &len, sizeof(len))]
    sends (host byte order, little-endian on the targets). *)
Definition int_bytes (len : Z) : list Byte.byte :=
  map (fun i => default Byte.x00
                  (Byte.of_N (Z.to_N ((uint32 len / 2 ^ (8 * i)) mod 256))))
      [0; 1; 2; 3].

(** [packet] is what [ether_arg_to_buffer] copied from the guest, [len] the
    length it returned.  The result is the value [ether_do_write] returns. *)
Definition ether_do_write (g : ether_globals) (packet : list Byte.byte) : Z :=
  let len := Z.of_nat (length packet) in
  if net_if_type g =? NET_IF_SLIRP then
    let slirp_input_fd := snd (slirp_input_fds g) in
    let _ := sys_write slirp_input_fd (int_bytes len) in
    let _ := sys_write slirp_input_fd packet in
    noErr
  else if sys_write (fd g) packet <? 0 then excessCollsns
  else noErr.

(** [ether_write] (line 456). *)
Definition ether_write (g : ether_globals) (packet : list Byte.byte) : Z :=
  ether_do_write g packet.

(** The writes [ether_do_write] issues, in order, as (descriptor, bytes). *)
Definition ether_do_write_calls (g : ether_globals) (packet : list Byte.byte)
  : list (Z * list Byte.byte) :=
  let len := Z.of_nat (length packet) in
  if net_if_type g =? NET_IF_SLIRP then
    [(snd (slirp_input_fds g), int_bytes len); (snd (slirp_input_fds g), packet)]
  else [(fd g, packet)].

End Transmit.

(** ** Port forwarding rules for slirp (lines 814-904)

    C strings are modelled by [string]: the characters before the
    terminating NUL.  A rule is a string of the preferences and can have any
    length; the two buffers of [slirp_add_redir] hold 256 bytes each:
    [get_str_sep] cuts what it copies into [buf], [sprintf] does not cut
    what it writes into [str]. *)

Local Open Scope string_scope.

(** The text before the first [sep] of [s] and the text after it
    ([strchr] and the pointer arithmetic of [get_str_sep]). *)
Fixpoint strchr_split (s : string) (sep : ascii) : option (string * string) :=
  match s with
  | EmptyString => None
  | String c s' =>
      if Ascii.eqb c sep then Some (EmptyString, s')
      else match strchr_split s' sep with
           | Some (before, after) => Some (String c before, after)
           | None => None
           end
  end.

(** [get_str_sep(buf, buf_size, &p, sep)]: the result, the buffer and [p]
    after the call. *)
Definition get_str_sep (buf : string) (buf_size : nat) (p : string) (sep : ascii)
  : Z * string * string :=
  match strchr_split p sep with
  | None => (-1, buf, p)
  | Some (before, after) =>
      let len := String.length before in
      let buf' :=
        if (0 <? buf_size)%nat then
          let len := if (buf_size - 1 <? len)%nat then (buf_size - 1)%nat else len in
          substring 0 len before
        else buf in
      (0, buf', after)
  end%Z.

(** *** [strtol] of the C library with base 0

    White space is skipped, a sign is optional, a leading [0x] (before a
    hexadecimal digit) selects base 16, a leading [0] base 8, anything else
    base 10; the longest run of digits is converted and the result is
    clamped to the range of [long] (64 bits); with no digit the result is 0
    and the end pointer is the start of the string. *)

Definition isspace (c : ascii) : bool :=
  let n := nat_of_ascii c in
  ((n =? 32) || ((9 <=? n) && (n <=? 13)))%nat.

Definition digit_value (c : ascii) : option Z :=
  let n := Z.of_nat (nat_of_ascii c) in
  (if (48 <=? n) && (n <=? 57) then Some (n - 48)
   else if (97 <=? n) && (n <=? 122) then Some (n - 97 + 10)
   else if (65 <=? n) && (n <=? 90) then Some (n - 65 + 10)
   else None)%Z.

Definition is_digit_in (base : Z) (c : ascii) : bool :=
  match digit_value c with
  | Some d => (d <? base)%Z
  | None => false
  end.

Fixpoint skip_space (s : string) : string :=
  match s with
  | String c s' => if isspace c then skip_space s' else s
  | EmptyString => s
  end.

(** The digits of [s] in [base]: the value so far, whether a digit was seen,
    and the text after the digits. *)
Fixpoint strtol_digits (base acc : Z) (any : bool) (s : string) : Z * bool * string :=
  match s with
  | EmptyString => (acc, any, s)
  | String c s' =>
      match digit_value c with
      | Some d =>
          if (d <? base)%Z then strtol_digits base (acc * base + d)%Z true s'
          else (acc, any, s)
      | None => (acc, any, s)
      end
  end.

Definition LONG_MAX : Z := 9223372036854775807.
Definition LONG_MIN : Z := -9223372036854775808.

(** [strtol(nptr, &end, 0)]: the result and the text at [end]. *)
Definition strtol (nptr : string) : Z * string :=
  let s := skip_space nptr in
  let '(neg, s) :=
    match s with
    | String "-" s' => (true, s')
    | String "+" s' => (false, s')
    | _ => (false, s)
    end in
  let '(base, s) :=
    match s with
    | String "0" (String x (String h s'')) =>
        if (Ascii.eqb x "x" || Ascii.eqb x "X") && is_digit_in 16 h
        then (16, String h s'')
        else (8, s)
    | String "0" _ => (8, s)
    | _ => (10, s)
    end%Z in
  let '(acc, any, rest) := strtol_digits base 0 false s in
  if any then
    let v := if neg then (- acc)%Z else acc in
    (Z.max LONG_MIN (Z.min LONG_MAX v), rest)
  else (0%Z, nptr).

(** A rule as [slirp_redir] receives it. *)
Record redir_rule : Type := {
  is_udp : Z; host_port : Z; guest_addr : Z; guest_port : Z
}.

Section Redir.

(** From the slirp library, which is outside this file: the address text of
    the macro [CTL_LOCAL], [inet_aton] of the C library ([None] for its
    result 0), the state of the library and [slirp_redir] on it. *)
Variable CTL_LOCAL : string.
Variable inet_aton : string -> option Z.
Variable slirp_state : Type.
Variable slirp_redir : slirp_state -> Z -> Z -> Z -> Z -> Z * slirp_state.

(** The syntax part of [slirp_add_redir] (lines 857-891): [None] stands for
    [goto fail_syntax]. *)
Definition redir_parse (redir_str : string) : option redir_rule :=
  let p := redir_str in
  let '(r, buf, p) := get_str_sep EmptyString 256 p ":" in
  if (r <? 0)%Z then None else
  match (if String.eqb buf "tcp" || String.eqb buf ""
         then Some 0%Z
         else if String.eqb buf "udp" then Some 1%Z else None) with
  | None => None
  | Some is_udp =>
  let '(r, buf, p) := get_str_sep buf 256 p ":" in
  if (r <? 0)%Z then None else
  let '(v, e) := strtol buf in
  let host_port := int32 v in
  if negb (String.eqb e "") || (host_port <? 1)%Z || (host_port >? 65535)%Z
  then None else
  let '(r, buf, p) := get_str_sep buf 256 p ":" in
  if (r <? 0)%Z then None else
  match (if String.eqb buf "" then inet_aton CTL_LOCAL else inet_aton buf) with
  | None => None
  | Some guest_addr =>
  let '(v, e) := strtol p in
  let guest_port := int32 v in
  if negb (String.eqb e "") || (guest_port <? 1)%Z || (guest_port >? 65535)%Z
  then None else
  Some {| is_udp := is_udp; host_port := host_port;
          guest_addr := guest_addr; guest_port := guest_port |}
  end end.

(** [sprintf(str, format, arg)] for a buffer [char str[size]] and a format
    that is the text [before], a [%s] and the text [after]: the text stored
    in [str].  [sprintf] does not know the size of the buffer; when the text
    and its terminating NUL do not fit, it writes past the end of [str] and
    the behaviour of the program is undefined from there on, which is
    [None]. *)
Definition sprintf (size : nat) (before arg after : string) : option string :=
  let text := before ++ arg ++ after in
  if (String.length text <? size)%nat then Some text else None.

(** [slirp_add_redir] (lines 846-904): the result, the warnings, and the
    state of the slirp library after the call; [None] when a warning does
    not fit [char str[256]]. *)
Definition slirp_add_redir (redir_str : string) (sl : slirp_state)
  : option (Z * list event * slirp_state) :=
  match redir_parse redir_str with
  | Some r =>
      let '(res, sl') :=
        slirp_redir sl (is_udp r) (host_port r) (guest_addr r) (guest_port r) in
      if (res <? 0)%Z then
        match sprintf 256 "could not set up host forwarding rule '" redir_str "'" with
        | Some str => Some (-1, [WarningAlert str], sl')%Z
        | None => None
        end
      else Some (0%Z, [], sl')
  | None =>
      match sprintf 256 "invalid host forwarding rule '" redir_str "'" with
      | Some str => Some (-1, [WarningAlert str], sl)%Z
      | None => None
      end
  end.

(** [slirp_add_redirs] (lines 836-843), [redirs] being the strings
    [PrefsFindString("redir", index)] gives for index 0, 1, ... before it
    gives NULL: the warnings and the state of the slirp library after the
    loop. *)
Fixpoint slirp_add_redirs (redirs : list string) (sl : slirp_state)
  : option (list event * slirp_state) :=
  match redirs with
  | [] => Some ([], sl)
  | str :: rest =>
      match slirp_add_redir str sl with
      | Some (_, evs, sl') =>
          match slirp_add_redirs rest sl' with
          | Some (evs', sl'') => Some ((evs ++ evs')%list, sl'')
          | None => None
          end
      | None => None
      end
  end.

(** The warning of [fail_syntax] for a rule. *)
Definition invalid_rule_warning (redir_str : string) : event :=
  WarningAlert ("invalid host forwarding rule '" ++ redir_str ++ "'").

(** The slirp library after it was handed a parsed rule. *)
Definition install (sl : slirp_state) (r : redir_rule) : slirp_state :=
  snd (slirp_redir sl (is_udp r) (host_port r) (guest_addr r) (guest_port r)).

End Redir.

Local Close Scope string_scope.

(** ** Concrete inputs used to run the model *)

Definition byte_of_Z (z : Z) : Byte.byte :=
  default Byte.x00 (Byte.of_N (Z.to_N (z mod 256))).

(** A frame with zero addresses, the given type field at offset 12 and
    [n] zero bytes of payload. *)
Definition frame_of_type (type : Z) (n : nat) : frame :=
  repeat Byte.x00 12 ++ [byte_of_Z (type / 256); byte_of_Z type] ++ repeat Byte.x00 n.

(** Ten bytes: shorter than an Ethernet header. *)
Definition short_frame : frame := repeat Byte.xff 10.

(** Globals of a running raw device with handlers attached for the
    catch-all key 0, for IP (0x0800) and for the literal key 1500. *)
Definition globals_with_handlers : ether_globals :=
  {| fd := 5; thread_active := true; udp_tunnel := false;
     net_if_type := NET_IF_SHEEPNET; slirp_thread_active := false;
     slirp_output_fd := -1; slirp_input_fds := (-1, -1);
     ether_addr := map byte_of_Z [2; 0; 0; 0; 0; 1];
     net_protocols := {[ 0 := 4096; 2048 := 8192; 1500 := 12288 ]} |}.

(** Globals of a running slirp device. *)
Definition globals_slirp : ether_globals :=
  {| fd := 5; thread_active := true; udp_tunnel := false;
     net_if_type := NET_IF_SLIRP; slirp_thread_active := true;
     slirp_output_fd := 6; slirp_input_fds := (7, 8);
     ether_addr := map byte_of_Z [82; 84; 0; 18; 52; 86];
     net_protocols := ∅ |}.

(** A host on which every [write] fails. *)
Definition failing_write (fd : Z) (data : list Byte.byte) : Z := -1.

(** A dotted-quad reading of addresses, enough to run the rule parser:
    four decimal numbers up to 255 separated by dots. *)
Definition dotted_part (s : string) : option Z :=
  match strtol_digits 10 0 false s with
  | (v, true, EmptyString) => if v <=? 255 then Some v else None
  | _ => None
  end.

Definition inet_aton_dotted (s : string) : option Z :=
  match strchr_split s "."%char with
  | Some (a, s1) =>
    match strchr_split s1 "."%char with
    | Some (b, s2) =>
      match strchr_split s2 "."%char with
      | Some (c, d) =>
        match dotted_part a, dotted_part b, dotted_part c, dotted_part d with
        | Some a, Some b, Some c, Some d =>
            Some (((a * 256 + b) * 256 + c) * 256 + d)
        | _, _, _, _ => None
        end
      | None => None
      end
    | None => None
    end
  | None => None
  end.

(** A slirp library that records the rules it is given and accepts them
    all. *)
Definition recording_redir (sl : list redir_rule) (u hp ga gp : Z)
  : Z * list redir_rule :=
  (0, sl ++ [{| is_udp := u; host_port := hp; guest_addr := ga; guest_port := gp |}]).

(** A rule of [n] letters: it has no colon, so it is malformed. *)
Definition letters_rule (n : nat) : string :=
  string_of_list_ascii (repeat "x"%char n).


(** ** Multicast addresses (lines 444-453 and 525-562) *)

Inductive ioctl_request : Type := SIOCADDMULTI | SIOCDELMULTI | SIOCGIFADDR.

Section Multicast.

(** The host's [ioctl(fd, request, addr)], negative on failure. *)
Variable sys_ioctl : Z -> ioctl_request -> list Byte.byte -> Z.

(** [ether_do_add_multicast] (lines 525-542). *)
Definition ether_do_add_multicast (g : ether_globals) (addr : list Byte.byte) : Z :=
  if (net_if_type g =? NET_IF_ETHERTAP) || (net_if_type g =? NET_IF_SHEEPNET) then
    if sys_ioctl (fd g) SIOCADDMULTI addr <? 0 then
      if net_if_type g =? NET_IF_ETHERTAP then noErr else eMultiErr
    else noErr
  else noErr.

(** [ether_do_del_multicast] (lines 549-562). *)
Definition ether_do_del_multicast (g : ether_globals) (addr : list Byte.byte) : Z :=
  if (net_if_type g =? NET_IF_ETHERTAP) || (net_if_type g =? NET_IF_SHEEPNET) then
    if sys_ioctl (fd g) SIOCDELMULTI addr <? 0 then eMultiErr else noErr
  else noErr.

(** [ether_add_multicast] and [ether_del_multicast] (lines 444-453), [addr]
    being the six bytes of guest memory at [pb + eMultiAddr]. *)
Definition ether_add_multicast (g : ether_globals) (addr : list Byte.byte) : Z :=
  ether_do_add_multicast g addr.
Definition ether_del_multicast (g : ether_globals) (addr : list Byte.byte) : Z :=
  ether_do_del_multicast g addr.

End Multicast.

(** ** The pipes of the slirp device (lines 594-623 and 654-709)

    A pipe is the list of the bytes written to it and not read yet.  A
    [write] appends its bytes; a [read] of [count] bytes takes the first
    [count] bytes, or fewer when fewer are there. *)

Definition pipe_write (pipe data : list Byte.byte) : list Byte.byte := pipe ++ data.

Definition pipe_read (pipe : list Byte.byte) (count : nat)
  : list Byte.byte * list Byte.byte :=
  (firstn count pipe, skipn count pipe).

(** The pipe behind descriptor [wfd] after the writes [calls] (the writes to
    other descriptors do not touch it). *)
Definition pipe_after_writes (wfd : Z) (calls : list (Z * list Byte.byte))
    (pipe : list Byte.byte) : list Byte.byte :=
  fold_left (fun p c => if fst c =? wfd then pipe_write p (snd c) else p) calls pipe.

(** An [int] read back from its bytes in host order (little-endian). *)
Definition int_of_bytes (bs : list Byte.byte) : Z :=
  int32 (fold_right (fun b acc => Z.of_N (Byte.to_N b) + 256 * acc) 0 bs).

(** What the first part of one turn of [slirp_receive_func] (lines 674-686)
    does with the slirp input pipe. *)
Inductive slirp_input_step : Type :=
| slirp_idle                   (* [select] reports nothing to read *)
| slirp_assert_fails (len : Z) (* [assert(len <= sizeof(packet))] fails *)
| slirp_read_blocks            (* the pipe is empty after the length *)
| slirp_input (packet rest : list Byte.byte).
    (* [slirp_input(packet, len)] is called; [rest] stays in the pipe *)

(** [len0] and [stack] are the bytes the variables [len] (4 bytes) and
    [packet] hold before they are read into.  The comparison of the assertion is between
    [int] and [size_t], so a negative [len] fails it. *)
Definition slirp_receive_input (len0 stack pipe : list Byte.byte) : slirp_input_step :=
  match pipe with
  | [] => slirp_idle
  | _ :: _ =>
      let '(got, pipe1) := pipe_read pipe 4 in
      let len := int_of_bytes (firstn 4 (got ++ skipn (length got) len0)) in
      if (0 <=? len) && (len <=? 1516) then
        match pipe1 with
        | [] => if len =? 0 then slirp_input [] [] else slirp_read_blocks
        | _ :: _ =>
            let '(data, pipe2) := pipe_read pipe1 (Z.to_nat len) in
            let packet := data ++ skipn (length data) stack in
            slirp_input (firstn (Z.to_nat len) packet) pipe2
        end
      else slirp_assert_fails len
  end.

(** [n] turns of [slirp_receive_func]: the packets handed to [slirp_input],
    in order, and the pipe afterwards.  A turn that finds nothing, blocks or
    fails the assertion ends the list. *)
Fixpoint slirp_receive_inputs (n : nat) (len0 stack pipe : list Byte.byte)
  : list (list Byte.byte) * list Byte.byte :=
  match n with
  | O => ([], pipe)
  | S n' =>
      match slirp_receive_input len0 stack pipe with
      | slirp_input packet rest =>
          let '(ps, pipe') := slirp_receive_inputs n' len0 stack rest in
          (packet :: ps, pipe')
      | _ => ([], pipe)
      end
  end.

(** [slirp_can_output] and [slirp_output] (lines 654-662):
    [write(slirp_output_fd, packet, len)] on the slirp output pipe. *)
Definition slirp_can_output : Z := 1.
Definition slirp_output (pipe packet : list Byte.byte) : list Byte.byte :=
  pipe_write pipe packet.

(** What successive [read(fd, buf, count)] calls return on a pipe until it
    is empty; [n] bounds their number. *)
Fixpoint pipe_reads (n count : nat) (pipe : list Byte.byte) : list frame :=
  match n with
  | O => []
  | S n' =>
      match pipe with
      | [] => []
      | _ :: _ =>
          let '(data, pipe') := pipe_read pipe count in
          data :: pipe_reads n' count pipe'
      end
  end.

(** The input pending on [fd] when [fd] is the read end of the slirp output
    pipe: what the reads of [ether_do_interrupt] return. *)
Definition slirp_pending (pipe : list Byte.byte) : list frame :=
  pipe_reads (length pipe) 1514 pipe.

(** ** Writing port forwarding rules *)

Definition decimal_digit (d : Z) : ascii := ascii_of_nat (48 + Z.to_nat d).

Fixpoint decimal_digits (fuel : nat) (n : Z) (acc : string) : string :=
  match fuel with
  | O => acc
  | S fuel' =>
      let acc' := String (decimal_digit (n mod 10)) acc in
      if n / 10 =? 0 then acc' else decimal_digits fuel' (n / 10) acc'
  end.

(** The decimal text of a natural number below 10^20, without leading
    zeros. *)
Definition decimal (n : Z) : string := decimal_digits 20 n EmptyString.

(** The text [<proto>:<host_port>:<guest_address>:<guest_port>]. *)
Definition redir_text (proto : string) (hp : Z) (addr : string) (gp : Z) : string :=
  (proto ++ ":" ++ decimal hp ++ ":" ++ addr ++ ":" ++ decimal gp)%string.

(** [c] does not occur in [s]. *)
Definition no_char (c : ascii) (s : string) : bool :=
  match strchr_split s c with None => true | Some _ => false end.

(** ** Threads, initialization and deinitialization (lines 116-341 and
    630-646)

    The functions change the globals and call the host; a call whose result
    the code looks at takes it from a record of the host's answers.  The
    result of each function is its return value (when it has one), the
    globals afterwards and the calls made, in order.  Messages printed with
    [printf] and [perror], the thread attributes and the handling of
    [SIGPIPE] are left out.  The warnings of [ether_init] itself are
    formatted from texts of the string table of the program, a device name
    of this file and [strerror]; the host gives them as formatted, and they
    are taken to fit [char str[256]]. *)

Module Lifecycle.

Inductive thread_id : Type := ether_thread | slirp_thread.

Inductive host_call : Type :=
| dispatch_semaphore_create
| dispatch_release
| pthread_create (t : thread_id)
| pthread_join (t : thread_id)   (* after [pthread_cancel] where there is one *)
| sys_pipe
| sys_open (dev_name : string)
| sys_close (fd : Z)
| alert (text : string).         (* [WarningAlert] *)

Record host : Type := {
  pref_ether : option string;       (* [PrefsFindString("ether")] *)
  pref_redir : list string;         (* [PrefsFindString("redir", i)], i = 0, 1, ... *)
  slirp_init : Z;                   (* result of [slirp_init()] *)
  pipe_output : option (Z * Z);     (* first [pipe]: read and write end *)
  pipe_input : option (Z * Z);      (* second [pipe] *)
  open_result : Z;                  (* result of [open(dev_name, O_RDWR)] *)
  nonblocking_set : bool;           (* non-blocking mode could be set on [fd] *)
  if_addr : option (list Byte.byte);
                                    (* what [ioctl(fd, SIOCGIFADDR)] stores *)
  semaphore_created : bool;         (* [dispatch_semaphore_create] gave one *)
  ether_thread_created : bool;      (* first [pthread_create] returned 0 *)
  slirp_thread_created : bool;      (* second [pthread_create] returned 0 *)
  slirp_no_dns_text : string;       (* [GetString(STR_SLIRP_NO_DNS_FOUND_WARN)] *)
  no_driver_text : string -> string;(* the text formatted for a device name *)
  blocking_text : string            (* the text formatted for the socket mode *)
}.

Definition set_threads (g : ether_globals) (ether slirp : bool) : ether_globals :=
  {| fd := fd g; thread_active := ether; udp_tunnel := udp_tunnel g;
     net_if_type := net_if_type g; slirp_thread_active := slirp;
     slirp_output_fd := slirp_output_fd g; slirp_input_fds := slirp_input_fds g;
     ether_addr := ether_addr g; net_protocols := net_protocols g |}.

Definition set_fds (g : ether_globals) (fd' out : Z) (inp : Z * Z) : ether_globals :=
  {| fd := fd'; thread_active := thread_active g; udp_tunnel := udp_tunnel g;
     net_if_type := net_if_type g; slirp_thread_active := slirp_thread_active g;
     slirp_output_fd := out; slirp_input_fds := inp;
     ether_addr := ether_addr g; net_protocols := net_protocols g |}.

Definition set_device (g : ether_globals) (type : Z) (udp : bool)
    (addr : list Byte.byte) : ether_globals :=
  {| fd := fd g; thread_active := thread_active g; udp_tunnel := udp;
     net_if_type := type; slirp_thread_active := slirp_thread_active g;
     slirp_output_fd := slirp_output_fd g; slirp_input_fds := slirp_input_fds g;
     ether_addr := addr; net_protocols := net_protocols g |}.

(** [start_thread] (lines 116-141). *)
Definition start_thread (h : host) (g : ether_globals)
  : bool * ether_globals * list host_call :=
  if negb (semaphore_created h) then (false, g, [dispatch_semaphore_create])
  else
    let g1 := set_threads g (ether_thread_created h) (slirp_thread_active g) in
    if negb (thread_active g1) then
      (false, g1, [dispatch_semaphore_create; pthread_create ether_thread])
    else if net_if_type g1 =? NET_IF_SLIRP then
      let g2 := set_threads g1 (thread_active g1) (slirp_thread_created h) in
      (slirp_thread_active g2, g2,
       [dispatch_semaphore_create; pthread_create ether_thread;
        pthread_create slirp_thread])
    else (true, g1, [dispatch_semaphore_create; pthread_create ether_thread]).

(** [stop_thread] (lines 148-167). *)
Definition stop_thread (g : ether_globals) : ether_globals * list host_call :=
  let calls1 := if slirp_thread_active g then [pthread_join slirp_thread] else [] in
  let g1 := if slirp_thread_active g
            then set_threads g (thread_active g) false else g in
  let calls2 := if thread_active g1
                then [pthread_join ether_thread; dispatch_release] else [] in
  let g2 := if thread_active g1
            then set_threads g1 false (slirp_thread_active g1) else g1 in
  (g2, calls1 ++ calls2).

(** The part of [ether_init] after the label [open_error] (lines 286-305). *)
Definition open_error (g : ether_globals) : ether_globals * list host_call :=
  let '(g1, calls) := stop_thread g in
  let c_fd := if 0 <? fd g1 then [sys_close (fd g1)] else [] in
  let fd' := if 0 <? fd g1 then -1 else fd g1 in
  let c_in0 := if 0 <=? fst (slirp_input_fds g1)
               then [sys_close (fst (slirp_input_fds g1))] else [] in
  let in0 := if 0 <=? fst (slirp_input_fds g1) then -1 else fst (slirp_input_fds g1) in
  let c_in1 := if 0 <=? snd (slirp_input_fds g1)
               then [sys_close (snd (slirp_input_fds g1))] else [] in
  let in1 := if 0 <=? snd (slirp_input_fds g1) then -1 else snd (slirp_input_fds g1) in
  let c_out := if 0 <=? slirp_output_fd g1
               then [sys_close (slirp_output_fd g1)] else [] in
  let out := if 0 <=? slirp_output_fd g1 then -1 else slirp_output_fd g1 in
  (set_fds g1 fd' out (in0, in1), calls ++ c_fd ++ c_in0 ++ c_in1 ++ c_out).

(** [ether_exit] (lines 313-341, [STATISTICS] being 0). *)
Definition ether_exit (g : ether_globals) : ether_globals * list host_call :=
  let '(g1, calls) := stop_thread g in
  let c_in0 := if 0 <=? fst (slirp_input_fds g1)
               then [sys_close (fst (slirp_input_fds g1))] else [] in
  let c_in1 := if 0 <=? snd (slirp_input_fds g1)
               then [sys_close (snd (slirp_input_fds g1))] else [] in
  let c_out := if 0 <? slirp_output_fd g1
               then [sys_close (slirp_output_fd g1)] else [] in
  (g1, calls ++ c_in0 ++ c_in1 ++ c_out).

(** [ether_start_udp_thread] and [ether_stop_udp_thread] (lines 630-646). *)
Definition ether_start_udp_thread (h : host) (socket_fd : Z) (g : ether_globals)
  : bool * ether_globals * list host_call :=
  start_thread h
    (set_device (set_fds g socket_fd (slirp_output_fd g) (slirp_input_fds g))
       (net_if_type g) true (ether_addr g)).

Definition ether_stop_udp_thread (g : ether_globals) : ether_globals * list host_call :=
  let '(g1, calls) := stop_thread g in
  (set_fds g1 (-1) (slirp_output_fd g1) (slirp_input_fds g1), calls).

(** The device name chosen by the [switch] of [ether_init] (lines 227-238);
    for the slirp device the buffer is not written and not used. *)
Definition dev_name (type : Z) (name : string) : string :=
  if type =? NET_IF_ETHERTAP then ("/dev/" ++ name)%string
  else if type =? NET_IF_TUNTAP then "/dev/net/tun"%string
  else if type =? NET_IF_SHEEPNET then "/dev/sheep_net"%string
  else EmptyString.

(** The Ethernet address of the slirp device (lines 268-273). *)
Definition slirp_ether_addr : list Byte.byte :=
  [Byte.x52; Byte.x54; Byte.x00; Byte.x12; Byte.x34; Byte.x56].

(** The descriptors closed by a sequence of calls, in order. *)
Definition closed_fds (calls : list host_call) : list Z :=
  omap (fun c => match c with sys_close fd => Some fd | _ => None end) calls.

(** The threads joined by a sequence of calls, in order. *)
Definition joined_threads (calls : list host_call) : list thread_id :=
  omap (fun c => match c with pthread_join t => Some t | _ => None end) calls.

Definition alert_of_event (e : event) : option host_call :=
  match e with
  | WarningAlert text => Some (alert text)
  | _ => None
  end.

Section Init.

Variable CTL_LOCAL : string.
Variable inet_aton : string -> option Z.
Variable slirp_state : Type.
Variable slirp_redir : slirp_state -> Z -> Z -> Z -> Z -> Z * slirp_state.

(** [ether_init] from the opening of the device on (lines 226-305); [calls]
    are the calls made so far. *)
Definition ether_init_device (h : host) (name : string) (g : ether_globals)
    (calls : list host_call) : bool * ether_globals * list host_call :=
  let dev := dev_name (net_if_type g) name in
  let fail (g : ether_globals) (calls : list host_call) :=
    let '(g', cs) := open_error g in (false, g', calls ++ cs) in
  let '(g, calls, opened) :=
    if negb (net_if_type g =? NET_IF_SLIRP) then
      let g := set_fds g (open_result h) (slirp_output_fd g) (slirp_input_fds g) in
      if fd g <? 0
      then (g, calls ++ [sys_open dev; alert (no_driver_text h dev)], false)
      else (g, calls ++ [sys_open dev], true)
    else (g, calls, true) in
  if negb opened then fail g calls
  else if negb (nonblocking_set h) then fail g (calls ++ [alert (blocking_text h)])
  else
    let addr := if net_if_type g =? NET_IF_SLIRP then slirp_ether_addr
                else default (ether_addr g) (if_addr h) in
    let g := set_device g (net_if_type g) (udp_tunnel g) addr in
    let '(ok, g, cs) := start_thread h g in
    if ok then (true, g, calls ++ cs) else fail g (calls ++ cs).

(** [ether_init] (lines 173-306): the result, the globals, the calls made
    and the slirp library afterwards; [None] when [slirp_add_redirs] has no
    defined behaviour. *)
Definition ether_init (h : host) (sl : slirp_state) (g : ether_globals)
  : option (bool * ether_globals * list host_call * slirp_state) :=
  match pref_ether h with
  | None => Some (false, g, [], sl)
  | Some name =>
      let type := if String.eqb name "slirp" then NET_IF_SLIRP else NET_IF_SHEEPNET in
      let g := set_device g type (udp_tunnel g) (ether_addr g) in
      if net_if_type g =? NET_IF_SLIRP then
        if slirp_init h <? 0 then Some (false, g, [alert (slirp_no_dns_text h)], sl)
        else
          match pipe_output h with
          | None => Some (false, g, [sys_pipe], sl)
          | Some (r, w) =>
              let g := set_fds g r w (slirp_input_fds g) in
              match pipe_input h with
              | None => Some (false, g, [sys_pipe; sys_pipe], sl)
              | Some inp =>
                  let g := set_fds g (fd g) (slirp_output_fd g) inp in
                  match slirp_add_redirs CTL_LOCAL inet_aton slirp_state slirp_redir
                          (pref_redir h) sl with
                  | Some (evs, sl') =>
                      Some (ether_init_device h name g
                              ([sys_pipe; sys_pipe] ++ omap alert_of_event evs), sl')
                  | None => None
                  end
              end
          end
      else Some (ether_init_device h name g [], sl)
  end.

End Init.

End Lifecycle.

(** ** Hosts used to run initialization *)

(** A host configured for a device name, on which every call succeeds
    except as the flags say: whether the second [pipe] works, whether the
    device can be opened, and whether the slirp thread can be created. *)
Definition example_host (name : string) (pipe2 device slirp_thread : bool)
  : Lifecycle.host :=
  {| Lifecycle.pref_ether := Some name;
     Lifecycle.pref_redir := ["tcp:8080::80"%string; "bogus"%string];
     Lifecycle.slirp_init := 0;
     Lifecycle.pipe_output := Some (4, 5);
     Lifecycle.pipe_input := if pipe2 then Some (6, 7) else None;
     Lifecycle.open_result := if device then 4 else -1;
     Lifecycle.nonblocking_set := true;
     Lifecycle.if_addr := Some (map byte_of_Z [2; 0; 0; 0; 0; 1]);
     Lifecycle.semaphore_created := true;
     Lifecycle.ether_thread_created := true;
     Lifecycle.slirp_thread_created := slirp_thread;
     Lifecycle.slirp_no_dns_text := "no DNS"%string;
     Lifecycle.no_driver_text := fun dev => ("cannot open " ++ dev)%string;
     Lifecycle.blocking_text := "cannot set non-blocking"%string |}.

(** The host on which the slirp device starts, with the given forwarding
    rules configured. *)
Definition slirp_host (redirs : list string) : Lifecycle.host :=
  let h := example_host "slirp" true true true in
  {| Lifecycle.pref_ether := Lifecycle.pref_ether h;
     Lifecycle.pref_redir := redirs;
     Lifecycle.slirp_init := Lifecycle.slirp_init h;
     Lifecycle.pipe_output := Lifecycle.pipe_output h;
     Lifecycle.pipe_input := Lifecycle.pipe_input h;
     Lifecycle.open_result := Lifecycle.open_result h;
     Lifecycle.nonblocking_set := Lifecycle.nonblocking_set h;
     Lifecycle.if_addr := Lifecycle.if_addr h;
     Lifecycle.semaphore_created := Lifecycle.semaphore_created h;
     Lifecycle.ether_thread_created := Lifecycle.ether_thread_created h;
     Lifecycle.slirp_thread_created := Lifecycle.slirp_thread_created h;
     Lifecycle.slirp_no_dns_text := Lifecycle.slirp_no_dns_text h;
     Lifecycle.no_driver_text := Lifecycle.no_driver_text h;
     Lifecycle.blocking_text := Lifecycle.blocking_text h |}.

(** The slirp descriptors that are not negative, in the order in which the
    part of [ether_init] after [open_error] closes them. *)
Definition slirp_fds_in_use (g : ether_globals) : list Z :=
  (if 0 <=? fst (slirp_input_fds g) then [fst (slirp_input_fds g)] else [])
  ++ (if 0 <=? snd (slirp_input_fds g) then [snd (slirp_input_fds g)] else [])
  ++ (if 0 <=? slirp_output_fd g then [slirp_output_fd g] else []).

(** ** Notions used to state the properties *)

(** What one frame read by [ether_do_interrupt] causes: [buf] is what the
    read stored. *)
Definition frame_events (packet ether_data ed_RHA ed_ReadPacket : Z)
    (g : ether_globals) (buf : frame) : list event :=
  if udp_tunnel g then [ether_udp_read buf]
  else ether_dispatch_packet ether_data ed_RHA ed_ReadPacket g buf packet
         (Z.of_nat (length buf)).

(** The pending frames before the first one shorter than 14 bytes. *)
Fixpoint deliverable_prefix (pending : list frame) : list frame :=
  match pending with
  | [] => []
  | f :: rest =>
      if (14 <=? length f)%nat then f :: deliverable_prefix rest else []
  end.

(** The pending frames after the first one shorter than 14 bytes. *)
Fixpoint after_short_read (pending : list frame) : list frame :=
  match pending with
  | [] => []
  | f :: rest => if (14 <=? length f)%nat then after_short_read rest else rest
  end.

Definition b2n (b : bool) : nat := if b then 1 else 0.

(** What holds of every run of the reception thread and the guest: the
    semaphore counts the acknowledgements not yet waited for; the interrupts
    raised are the acknowledged ones and the one in flight; at most one of
    flag, handler and semaphore is up; at the top of the loop none is. *)
Definition bridge_invariant (tr : list label) (s : system) : Prop :=
  (count is_ack tr = count is_wait tr + sys_int_ack s)%nat /\
  (count is_trigger tr
   = count is_ack tr + b2n (sys_intflag s) + b2n (sys_in_irq s))%nat /\
  (b2n (sys_intflag s) + b2n (sys_in_irq s) + sys_int_ack s <= 1)%nat /\
  (sys_pc s = AtPoll ->
   sys_intflag s = false /\ sys_in_irq s = false /\ sys_int_ack s = 0%nat).

(** While the thread waits, it has raised one interrupt more than it has
    waited for. *)
Definition waiting_invariant (tr : list label) (s : system) : Prop :=
  sys_pc s = AtWait -> count is_trigger tr = (count is_wait tr + 1)%nat.

(** The labels with which [receive_func] ends. *)
Definition is_exit (l : label) : bool :=
  match l with L_poll_fail | L_cancel => true | _ => false end.

(** The labels of the guest handling an interrupt and of the wait
    returning. *)
Definition is_resume (l : label) : bool :=
  match l with L_irq_enter | L_irq_done _ | L_wait => true | _ => false end.

(** * Properties *)

(** ** Protocol handler table *)

Lemma net_protocols_set g m : net_protocols (set_net_protocols g m) = m.
Proof. reflexivity. Qed.

Lemma attach_fresh t h g :
  net_protocols g !! t = None ->
  ether_attach_ph t h g = (noErr, set_net_protocols g (<[t := h]> (net_protocols g))).
Proof. intros H. unfold ether_attach_ph. now rewrite H. Qed.

Lemma attach_present t h h0 g :
  net_protocols g !! t = Some h0 -> ether_attach_ph t h g = (lapProtErr, g).
Proof. intros H. unfold ether_attach_ph. now rewrite H. Qed.

Lemma detach_present t h0 g :
  net_protocols g !! t = Some h0 ->
  ether_detach_ph t g = (noErr, set_net_protocols g (delete t (net_protocols g))).
Proof. intros H. unfold ether_detach_ph. now rewrite H. Qed.

Lemma detach_absent t g :
  net_protocols g !! t = None -> ether_detach_ph t g = (lapProtErr, g).
Proof. intros H. unfold ether_detach_ph. now rewrite H. Qed.

(** C5: attach on a table with no entry for [t] succeeds and inserts [h]
    (leaving the other entries as they were); a second attach for [t] fails
    with [lapProtErr] and leaves the globals unchanged; detach then removes
    the entry and a further attach succeeds; detach on a table with no entry
    for [t] fails with [lapProtErr]. *)
Theorem attach_detach_protocol (t h h2 : Z) (g : ether_globals) :
  net_protocols g !! t = None ->
  let g1 := snd (ether_attach_ph t h g) in
  let g2 := snd (ether_detach_ph t g1) in
  let g3 := snd (ether_attach_ph t h2 g2) in
  fst (ether_attach_ph t h g) = noErr /\
  net_protocols g1 !! t = Some h /\
  (forall t', t' <> t -> net_protocols g1 !! t' = net_protocols g !! t') /\
  ether_attach_ph t h2 g1 = (lapProtErr, g1) /\
  fst (ether_detach_ph t g1) = noErr /\
  net_protocols g2 !! t = None /\
  fst (ether_attach_ph t h2 g2) = noErr /\
  net_protocols g3 !! t = Some h2 /\
  ether_detach_ph t g = (lapProtErr, g) /\
  lapProtErr <> noErr.
Proof.
  intros Hfresh g1 g2 g3.
  assert (E1 : ether_attach_ph t h g
               = (noErr, set_net_protocols g (<[t := h]> (net_protocols g))))
    by now apply attach_fresh.
  assert (L1 : net_protocols g1 !! t = Some h).
  { subst g1. rewrite E1. cbn. apply lookup_insert_eq. }
  assert (E2 : ether_detach_ph t g1
               = (noErr, set_net_protocols g1 (delete t (net_protocols g1))))
    by now apply detach_present with h.
  assert (L2 : net_protocols g2 !! t = None).
  { subst g2. rewrite E2. cbn. apply lookup_delete_eq. }
  assert (E3 : ether_attach_ph t h2 g2
               = (noErr, set_net_protocols g2 (<[t := h2]> (net_protocols g2))))
    by now apply attach_fresh.
  repeat split.
  - now rewrite E1.
  - exact L1.
  - intros t' Hne. subst g1. rewrite E1. cbn. now apply lookup_insert_ne.
  - now apply attach_present with h.
  - now rewrite E2.
  - exact L2.
  - now rewrite E3.
  - subst g3. rewrite E3. cbn. apply lookup_insert_eq.
  - now apply detach_absent.
  - discriminate.
Qed.

Lemma attach_detach_protocol_witness :
  let g := initial_globals in
  let g1 := snd (ether_attach_ph 2048 8192 g) in
  let g2 := snd (ether_detach_ph 2048 g1) in
  let g3 := snd (ether_attach_ph 2048 12288 g2) in
  fst (ether_attach_ph 2048 8192 g) = noErr /\
  net_protocols g1 !! 2048 = Some 8192 /\
  (forall t', t' <> 2048 -> net_protocols g1 !! t' = net_protocols g !! t') /\
  ether_attach_ph 2048 12288 g1 = (lapProtErr, g1) /\
  fst (ether_detach_ph 2048 g1) = noErr /\
  net_protocols g2 !! 2048 = None /\
  fst (ether_attach_ph 2048 12288 g2) = noErr /\
  net_protocols g3 !! 2048 = Some 12288 /\
  ether_detach_ph 2048 g = (lapProtErr, g) /\
  lapProtErr <> noErr.
Proof. apply (attach_detach_protocol 2048 8192 12288 initial_globals). reflexivity. Defined.

(** C9: [ether_reset] empties the protocol table, whatever it held, and
    leaves every other global as it was. *)
Theorem ether_reset_clears_only_protocols (g : ether_globals) :
  (forall t, net_protocols (ether_reset g) !! t = None) /\
  net_protocols (ether_reset g) = ∅ /\
  fd (ether_reset g) = fd g /\
  thread_active (ether_reset g) = thread_active g /\
  slirp_thread_active (ether_reset g) = slirp_thread_active g /\
  udp_tunnel (ether_reset g) = udp_tunnel g /\
  net_if_type (ether_reset g) = net_if_type g /\
  slirp_output_fd (ether_reset g) = slirp_output_fd g /\
  slirp_input_fds (ether_reset g) = slirp_input_fds g /\
  ether_addr (ether_reset g) = ether_addr g.
Proof.
  split; [intros t; cbn; apply lookup_empty |].
  repeat split.
Qed.

(** ** Dispatch of a received packet *)

Lemma search_type_le type : type <= 1500 -> search_type type = 0.
Proof. intros H. unfold search_type. destruct (Z.leb_spec type 1500); [reflexivity | lia]. Qed.

Lemma search_type_gt type : 1500 < type -> search_type type = type.
Proof. intros H. unfold search_type. destruct (Z.leb_spec type 1500); [lia | reflexivity]. Qed.

Lemma ReadMacInt8_firstn (buf : frame) (n off : nat) :
  (off < n)%nat -> ReadMacInt8 (firstn n buf) off = ReadMacInt8 buf off.
Proof.
  intros H. unfold ReadMacInt8. f_equal. f_equal.
  revert n off H. induction buf as [|b buf IH]; intros n off H.
  - now rewrite firstn_nil.
  - destruct n as [|n]; [lia |]. destruct off as [|off]; [reflexivity |].
    cbn. apply IH. lia.
Qed.

Lemma ReadMacInt16_firstn (buf : frame) (n off : nat) :
  (S off < n)%nat -> ReadMacInt16 (firstn n buf) off = ReadMacInt16 buf off.
Proof.
  intros H. unfold ReadMacInt16.
  rewrite !ReadMacInt8_firstn by lia. reflexivity.
Qed.

(** One turn of the loop of [ether_do_interrupt], in terms of [sys_read]. *)
Lemma ether_do_interrupt_unfold packet ether_data ed_RHA ed_ReadPacket g pending :
  ether_do_interrupt packet ether_data ed_RHA ed_ReadPacket g pending =
  let '(length, buf, rest) := sys_read pending 1514 in
  if length <? 14 then ([], rest)
  else
    let evs := if udp_tunnel g then [ether_udp_read buf]
               else ether_dispatch_packet ether_data ed_RHA ed_ReadPacket
                      g buf packet length in
    let '(evs', rest') :=
      ether_do_interrupt packet ether_data ed_RHA ed_ReadPacket g rest in
    (evs ++ evs', rest').
Proof. destruct pending as [|f rest]; reflexivity. Qed.

(** C3: a frame of at least 14 bytes read on a device that is not a UDP
    tunnel is looked up in [net_protocols] under key 0 when its type field
    (16 bits at offset 12) is at most 1500 and under the type itself when it
    is larger: the handler stored under that key, and no other entry, decides
    what the frame causes.  Type 1500 gives key 0 and type 1501 key 1501. *)
Theorem dispatch_key_of_frame
    (packet ether_data ed_RHA ed_ReadPacket : Z)
    (g : ether_globals) (f : frame) (rest : list frame) :
  udp_tunnel g = false -> (14 <= length f)%nat ->
  let type := ReadMacInt16 f 12 in
  let key := if type <=? 1500 then 0 else type in
  let len := Z.of_nat (length (firstn 1514 f)) in
  fst (ether_do_interrupt packet ether_data ed_RHA ed_ReadPacket g (f :: rest)) =
    match net_protocols g !! key with
    | Some handler =>
        if handler =? 0 then []
        else [Execute68k handler
                {| r_d0 := type; r_d1 := uint32 (len - 14);
                   r_a0 := uint32 (packet + 14);
                   r_a3 := uint32 (ether_data + ed_RHA + 14);
                   r_a4 := uint32 (ether_data + ed_ReadPacket) |}
                (firstn 14 f)]
    | None => []
    end
    ++ fst (ether_do_interrupt packet ether_data ed_RHA ed_ReadPacket g rest)
  /\ search_type type = key
  /\ (type <= 1500 -> key = 0)
  /\ (1500 < type -> key = type)
  /\ search_type 1500 = 0 /\ search_type 1501 = 1501.
Proof.
  intros Hudp Hlen type key len.
  split; [| repeat split].
  - cbn [ether_do_interrupt]. rewrite Hudp.
    assert (Hl : (14 <= length (firstn 1514 f))%nat).
    { rewrite length_firstn. lia. }
    destruct (Z.ltb_spec (Z.of_nat (length (firstn 1514 f))) 14) as [Hlt|_]; [lia |].
    destruct (ether_do_interrupt packet ether_data ed_RHA ed_ReadPacket g rest)
      as [evs' rest'] eqn:E.
    cbn [fst]. f_equal.
    unfold ether_dispatch_packet.
    rewrite ReadMacInt16_firstn by lia.
    fold type. unfold search_type. fold key.
    destruct (net_protocols g !! key) as [handler|]; [| reflexivity].
    destruct (handler =? 0); [reflexivity |].
    rewrite firstn_firstn. reflexivity.
  - intros H. subst key. destruct (Z.leb_spec type 1500); [reflexivity | lia].
  - intros H. subst key. destruct (Z.leb_spec type 1500); [lia | reflexivity].
Qed.

Lemma dispatch_key_of_frame_witness :
  fst (ether_do_interrupt 65536 131072 256 512 globals_with_handlers
         [frame_of_type 1500 46; frame_of_type 1501 46]) =
    [Execute68k 4096
       {| r_d0 := 1500; r_d1 := 46; r_a0 := 65550; r_a3 := 131342; r_a4 := 131584 |}
       (firstn 14 (frame_of_type 1500 46))].
Proof.
  pose proof (dispatch_key_of_frame 65536 131072 256 512 globals_with_handlers
                (frame_of_type 1500 46) [frame_of_type 1501 46]
                eq_refl ltac:(vm_compute; lia)) as [H _].
  rewrite H. vm_compute. reflexivity.
Defined.

(** C10: attaching the null handler 0 for a type with no entry succeeds and
    stores 0; from then on a frame whose key is that type causes no handler
    call, in [ether_dispatch_packet] and so in [ether_do_interrupt]; an
    attach of a real handler fails with [lapProtErr] and changes nothing,
    until a detach, after which it succeeds. *)
Theorem attach_null_handler
    (packet ether_data ed_RHA ed_ReadPacket : Z) (type : Z) (g : ether_globals) :
  net_protocols g !! type = None ->
  let g1 := snd (ether_attach_ph type 0 g) in
  let g2 := snd (ether_detach_ph type g1) in
  fst (ether_attach_ph type 0 g) = noErr /\
  net_protocols g1 !! type = Some 0 /\
  (forall (buf : frame) (p length : Z),
      search_type (ReadMacInt16 buf 12) = type ->
      ether_dispatch_packet ether_data ed_RHA ed_ReadPacket g1 buf p length = []) /\
  (forall (f : frame) (rest : list frame),
      udp_tunnel g = false -> (14 <= length f)%nat ->
      search_type (ReadMacInt16 f 12) = type ->
      fst (ether_do_interrupt packet ether_data ed_RHA ed_ReadPacket g1 (f :: rest))
      = fst (ether_do_interrupt packet ether_data ed_RHA ed_ReadPacket g1 rest)) /\
  (forall h, ether_attach_ph type h g1 = (lapProtErr, g1)) /\
  fst (ether_detach_ph type g1) = noErr /\
  (forall h, fst (ether_attach_ph type h g2) = noErr /\
             net_protocols (snd (ether_attach_ph type h g2)) !! type = Some h).
Proof.
  intros Hfresh g1 g2.
  assert (E1 : ether_attach_ph type 0 g
               = (noErr, set_net_protocols g (<[type := 0]> (net_protocols g))))
    by now apply attach_fresh.
  assert (L1 : net_protocols g1 !! type = Some 0).
  { subst g1. rewrite E1. cbn. apply lookup_insert_eq. }
  assert (D : forall (buf : frame) (p length : Z),
      search_type (ReadMacInt16 buf 12) = type ->
      ether_dispatch_packet ether_data ed_RHA ed_ReadPacket g1 buf p length = []).
  { intros buf p length Hk. unfold ether_dispatch_packet. rewrite Hk, L1. reflexivity. }
  assert (E2 : ether_detach_ph type g1
               = (noErr, set_net_protocols g1 (delete type (net_protocols g1))))
    by now apply detach_present with 0.
  assert (L2 : net_protocols g2 !! type = None).
  { subst g2. rewrite E2. cbn. apply lookup_delete_eq. }
  split; [now rewrite E1 |].
  split; [exact L1 |].
  split; [exact D |].
  split.
  { intros f rest Hudp Hlen Hk.
    assert (Hudp1 : udp_tunnel g1 = false) by (subst g1; rewrite E1; exact Hudp).
    cbn [ether_do_interrupt]. rewrite Hudp1.
    destruct (Z.ltb_spec (Z.of_nat (length (firstn 1514 f))) 14) as [Hlt|Hge].
    - rewrite length_firstn in Hlt. lia.
    - rewrite D.
      + destruct (ether_do_interrupt packet ether_data ed_RHA ed_ReadPacket g1 rest).
        reflexivity.
      + rewrite ReadMacInt16_firstn; [exact Hk | lia]. }
  split; [intros h; now apply attach_present with 0 |].
  split; [now rewrite E2 |].
  intros h.
  assert (E3 : ether_attach_ph type h g2
               = (noErr, set_net_protocols g2 (<[type := h]> (net_protocols g2))))
    by now apply attach_fresh.
  rewrite E3. split; [reflexivity |]. cbn. apply lookup_insert_eq.
Qed.

Lemma attach_null_handler_witness :
  let g1 := snd (ether_attach_ph 2054 0 globals_with_handlers) in
  fst (ether_attach_ph 2054 0 globals_with_handlers) = noErr /\
  ether_dispatch_packet 131072 256 512 g1 (frame_of_type 2054 46) 65536 60 = [] /\
  ether_attach_ph 2054 16384 g1 = (lapProtErr, g1).
Proof.
  destruct (attach_null_handler 65536 131072 256 512 2054 globals_with_handlers
              eq_refl) as (H1 & _ & H3 & _ & H5 & _).
  split; [exact H1 |].
  split; [apply H3; reflexivity | apply H5].
Defined.

(** ** Transmit path *)

(** On a device other than slirp the result follows the one [write]:
    [excessCollsns] exactly when it fails, [noErr] otherwise. *)
Lemma ether_do_write_raw sys_write g pkt :
  net_if_type g <> NET_IF_SLIRP ->
  (ether_do_write sys_write g pkt = excessCollsns <-> sys_write (fd g) pkt < 0) /\
  (ether_do_write sys_write g pkt = noErr <-> 0 <= sys_write (fd g) pkt) /\
  ether_do_write_calls g pkt = [(fd g, pkt)].
Proof.
  intros Hif. unfold ether_do_write, ether_do_write_calls.
  destruct (Z.eqb_spec (net_if_type g) NET_IF_SLIRP) as [E|_]; [contradiction |].
  destruct (Z.ltb_spec (sys_write (fd g) pkt) 0) as [Hlt|Hge];
    unfold excessCollsns, noErr; repeat split; intros; try lia; try discriminate.
Qed.

(** On the slirp device the result is [noErr] whatever the two writes to the
    slirp input pipe return. *)
Lemma ether_do_write_slirp sys_write g pkt :
  net_if_type g = NET_IF_SLIRP -> ether_do_write sys_write g pkt = noErr.
Proof.
  intros Hif. unfold ether_do_write. rewrite Hif. reflexivity.
Qed.

(** C6 at the failing input: on the slirp device, with a host on which every
    [write] fails, both writes of [ether_do_write] fail and the result is
    [noErr], not [excessCollsns]; on the raw device the same host gives
    [excessCollsns]. *)
Theorem ether_do_write_slirp_write_failure_unreported :
  let pkt := frame_of_type 2048 46 in
  Forall (fun c => failing_write (fst c) (snd c) < 0)
         (ether_do_write_calls globals_slirp pkt) /\
  ether_do_write_calls globals_slirp pkt <> [] /\
  ether_write failing_write globals_slirp pkt = noErr /\
  ether_write failing_write globals_slirp pkt <> excessCollsns /\
  ether_write failing_write globals_with_handlers pkt = excessCollsns.
Proof.
  cbv zeta. repeat split.
  - unfold ether_do_write_calls. cbn. repeat constructor.
  - discriminate.
  - discriminate.
Qed.

(** ** Port forwarding rules *)

Section RedirProperties.

Local Open Scope string_scope.

Variable CTL_LOCAL : string.
Variable inet_aton : string -> option Z.
Variable slirp_state : Type.
Variable slirp_redir : slirp_state -> Z -> Z -> Z -> Z -> Z * slirp_state.

Local Abbreviation parse := (redir_parse CTL_LOCAL inet_aton).
Local Abbreviation add_redir :=
  (slirp_add_redir CTL_LOCAL inet_aton slirp_state slirp_redir).
Local Abbreviation add_redirs :=
  (slirp_add_redirs CTL_LOCAL inet_aton slirp_state slirp_redir).
Local Abbreviation install_rule := (install slirp_state slirp_redir).

Lemma length_append (a b : string) :
  String.length (a ++ b) = (String.length a + String.length b)%nat.
Proof.
  induction a as [|c a IH]; [reflexivity |].
  change (String c a ++ b) with (String c (a ++ b)).
  cbn [String.length]. now rewrite IH.
Qed.

(** The warning of [fail_syntax] fits the buffer for rules of up to 224
    characters, the warning for a rule that [slirp_redir] refuses for rules
    of up to 215. *)
Lemma sprintf_invalid_rule (str : string) :
  sprintf 256 "invalid host forwarding rule '" str "'"
  = if (String.length str <? 225)%nat
    then Some ("invalid host forwarding rule '" ++ str ++ "'") else None.
Proof.
  unfold sprintf. rewrite !length_append. cbn [String.length].
  destruct (Nat.ltb_spec (30 + (String.length str + 1)) 256),
    (Nat.ltb_spec (String.length str) 225); try reflexivity; lia.
Qed.

Lemma sprintf_could_not_set_up (str : string) :
  sprintf 256 "could not set up host forwarding rule '" str "'"
  = if (String.length str <? 216)%nat
    then Some ("could not set up host forwarding rule '" ++ str ++ "'") else None.
Proof.
  unfold sprintf. rewrite !length_append. cbn [String.length].
  destruct (Nat.ltb_spec (39 + (String.length str + 1)) 256),
    (Nat.ltb_spec (String.length str) 216); try reflexivity; lia.
Qed.

Lemma slirp_add_redir_malformed str sl :
  parse str = None -> (String.length str < 225)%nat ->
  add_redir str sl = Some (-1, [invalid_rule_warning str], sl).
Proof.
  intros H Hl. unfold slirp_add_redir. rewrite H, sprintf_invalid_rule.
  destruct (Nat.ltb_spec (String.length str) 225); [reflexivity | lia].
Qed.

Lemma slirp_add_redir_overrun str sl :
  parse str = None -> (225 <= String.length str)%nat -> add_redir str sl = None.
Proof.
  intros H Hl. unfold slirp_add_redir. rewrite H, sprintf_invalid_rule.
  destruct (Nat.ltb_spec (String.length str) 225); [lia | reflexivity].
Qed.

Lemma slirp_add_redir_parsed str r sl res evs sl' :
  parse str = Some r -> add_redir str sl = Some (res, evs, sl') ->
  sl' = install_rule sl r.
Proof.
  intros H. unfold slirp_add_redir, install. rewrite H.
  destruct (slirp_redir sl (is_udp r) (host_port r) (guest_addr r) (guest_port r))
    as [res0 sl0].
  destruct (res0 <? 0)%Z; [| now intros [= _ _ <-]].
  destruct (sprintf 256 _ str _); [now intros [= _ _ <-] | discriminate].
Qed.

Lemma slirp_add_redir_unparsed str sl res evs sl' :
  parse str = None -> add_redir str sl = Some (res, evs, sl') -> sl' = sl.
Proof.
  intros H. unfold slirp_add_redir. rewrite H.
  destruct (sprintf 256 _ str _); [now intros [= _ _ <-] | discriminate].
Qed.

Lemma slirp_add_redirs_cons str rest sl :
  add_redirs (str :: rest) sl =
  match add_redir str sl with
  | Some (_, evs, sl') =>
      match add_redirs rest sl' with
      | Some (evs', sl'') => Some ((evs ++ evs')%list, sl'')
      | None => None
      end
  | None => None
  end.
Proof. reflexivity. Qed.

Lemma slirp_add_redirs_app l1 l2 sl :
  add_redirs (l1 ++ l2) sl =
  match add_redirs l1 sl with
  | Some (evs1, sl1) =>
      match add_redirs l2 sl1 with
      | Some (evs2, sl2) => Some ((evs1 ++ evs2)%list, sl2)
      | None => None
      end
  | None => None
  end.
Proof.
  revert sl. induction l1 as [|str l1 IH]; intros sl.
  - cbn. now destruct (add_redirs l2 sl) as [[evs2 sl2]|].
  - rewrite <- app_comm_cons. rewrite !slirp_add_redirs_cons.
    destruct (add_redir str sl) as [[[res evs] sl']|]; [| reflexivity].
    rewrite IH.
    destruct (add_redirs l1 sl') as [[evs1 sl1]|]; [| reflexivity].
    destruct (add_redirs l2 sl1) as [[evs2 sl2]|]; [| reflexivity].
    now rewrite app_assoc.
Qed.

Lemma slirp_add_redirs_state redirs sl evs sl' :
  add_redirs redirs sl = Some (evs, sl') ->
  sl' = fold_left install_rule (omap parse redirs) sl.
Proof.
  revert sl evs. induction redirs as [|str rest IH]; intros sl evs.
  - now intros [= _ <-].
  - rewrite slirp_add_redirs_cons.
    destruct (add_redir str sl) as [[[res evs1] sl1]|] eqn:E1; [| discriminate].
    destruct (add_redirs rest sl1) as [[evs2 sl2]|] eqn:E2; [| discriminate].
    intros [= _ <-]. rewrite (IH _ _ E2).
    change (omap parse (str :: rest))
      with (match parse str with
            | Some r => r :: omap parse rest
            | None => omap parse rest
            end).
    destruct (parse str) as [r|] eqn:E.
    + cbn [fold_left]. now rewrite (slirp_add_redir_parsed _ _ _ _ _ _ E E1).
    + now rewrite (slirp_add_redir_unparsed _ _ _ _ _ E E1).
Qed.

(** A malformed rule of 225 characters or more leaves the loop without a
    defined result, wherever it stands in the list. *)
Lemma slirp_add_redirs_overrun l1 l2 bad sl :
  parse bad = None -> (225 <= String.length bad)%nat ->
  add_redirs (l1 ++ bad :: l2)%list sl = None.
Proof.
  intros H Hl. rewrite slirp_add_redirs_app.
  destruct (add_redirs l1 sl) as [[evs1 sl1]|]; [| reflexivity].
  rewrite slirp_add_redirs_cons.
  now rewrite (slirp_add_redir_overrun bad sl1 H Hl).
Qed.

(** C7: ["tcp:8080::80"] parses to tcp, host port 8080, the address of
    [CTL_LOCAL], guest port 80; ["udp:1:2.3.4.5:99999"] is rejected, and the
    guest port is the reason (with 9999 the rule is accepted when the address
    is); ["bogus"] is rejected, and so is a rule with [bogus] in the protocol
    field, while an empty protocol field is read as tcp.  A rejected rule
    gives the result -1 and the warning of [fail_syntax], and the slirp
    library is not called. *)
Theorem redir_parse_examples (a : Z) :
  inet_aton CTL_LOCAL = Some a ->
  let parse_rule := redir_parse CTL_LOCAL inet_aton in
  let add_rule := slirp_add_redir CTL_LOCAL inet_aton slirp_state slirp_redir in
  parse_rule "tcp:8080::80"
    = Some {| is_udp := 0; host_port := 8080; guest_addr := a; guest_port := 80 |} /\
  parse_rule "udp:1:2.3.4.5:99999" = None /\
  (forall b, inet_aton "2.3.4.5" = Some b ->
     parse_rule "udp:1:2.3.4.5:9999"
       = Some {| is_udp := 1; host_port := 1; guest_addr := b; guest_port := 9999 |}) /\
  parse_rule "bogus" = None /\
  parse_rule "bogus:8080::80" = None /\
  parse_rule ":8080::80"
    = Some {| is_udp := 0; host_port := 8080; guest_addr := a; guest_port := 80 |} /\
  (forall sl, add_rule "udp:1:2.3.4.5:99999" sl
     = Some (-1, [WarningAlert "invalid host forwarding rule 'udp:1:2.3.4.5:99999'"],
             sl)) /\
  (forall sl, add_rule "bogus" sl
     = Some (-1, [WarningAlert "invalid host forwarding rule 'bogus'"], sl)) /\
  (forall sl, snd <$> add_rule "tcp:8080::80" sl
     = Some (snd (slirp_redir sl 0 8080 a 80))).
Proof.
  intros Ha parse_rule add_rule. subst parse_rule add_rule.
  assert (P1 : parse "tcp:8080::80"
    = Some {| is_udp := 0; host_port := 8080; guest_addr := a; guest_port := 80 |}).
  { unfold redir_parse. cbn. rewrite Ha. reflexivity. }
  assert (P2 : parse "udp:1:2.3.4.5:99999" = None).
  { unfold redir_parse. cbn. destruct (inet_aton "2.3.4.5"); reflexivity. }
  assert (P3 : parse "bogus" = None) by reflexivity.
  split; [exact P1 |].
  split; [exact P2 |].
  split; [intros b Hb; unfold redir_parse; cbn; rewrite Hb; reflexivity |].
  split; [exact P3 |].
  split; [reflexivity |].
  split; [unfold redir_parse; cbn; rewrite Ha; reflexivity |].
  split; [intros sl; rewrite (slirp_add_redir_malformed _ sl P2) by (cbn; lia);
          reflexivity |].
  split; [intros sl; rewrite (slirp_add_redir_malformed _ sl P3) by (cbn; lia);
          reflexivity |].
  intros sl. unfold slirp_add_redir. rewrite P1.
  cbn [is_udp host_port guest_addr guest_port].
  destruct (slirp_redir sl 0 8080 a 80) as [res sl'].
  destruct (res <? 0)%Z; reflexivity.
Qed.

End RedirProperties.

Lemma redir_parse_examples_witness :
  inet_aton_dotted "10.0.2.15" = Some 167772687 /\
  redir_parse "10.0.2.15" inet_aton_dotted "tcp:8080::80"
    = Some {| is_udp := 0; host_port := 8080; guest_addr := 167772687;
              guest_port := 80 |}.
Proof.
  split; [reflexivity |].
  apply (redir_parse_examples "10.0.2.15" inet_aton_dotted (list redir_rule)
           recording_redir 167772687 eq_refl).
Defined.

(** C8 at the failing input: a malformed rule of 225 characters between two
    well-formed rules.  The warning for it takes 257 bytes with its NUL,
    [sprintf] writes past the end of [char str[256]], and neither
    [slirp_add_redir] nor [slirp_add_redirs] nor [ether_init] has a defined
    result: the rule is not reported and skipped, and the rule after it is
    not reached.  With one character less the rule is reported and skipped
    and both other rules are installed. *)
Theorem slirp_add_redirs_long_rule_overruns :
  let add_rule :=
    slirp_add_redir "10.0.2.15" inet_aton_dotted (list redir_rule) recording_redir in
  let run :=
    slirp_add_redirs "10.0.2.15" inet_aton_dotted (list redir_rule) recording_redir in
  let init :=
    Lifecycle.ether_init "10.0.2.15" inet_aton_dotted (list redir_rule)
      recording_redir in
  let tcp := "tcp:8080::80"%string in
  let udp := "udp:5353:10.0.2.3:53"%string in
  let tcp_rule := {| is_udp := 0; host_port := 8080; guest_addr := 167772687;
                     guest_port := 80 |} in
  let udp_rule := {| is_udp := 1; host_port := 5353; guest_addr := 167772675;
                     guest_port := 53 |} in
  String.length (letters_rule 225) = 225%nat /\
  redir_parse "10.0.2.15" inet_aton_dotted (letters_rule 225) = None /\
  sprintf 256 "invalid host forwarding rule '" (letters_rule 225) "'" = None /\
  add_rule (letters_rule 225) [] = None /\
  run [tcp; letters_rule 225; udp] [] = None /\
  init (slirp_host [tcp; letters_rule 225; udp]) [] initial_globals = None /\
  run [tcp; letters_rule 224; udp] []
    = Some ([invalid_rule_warning (letters_rule 224)], [tcp_rule; udp_rule]) /\
  run [tcp; udp] [] = Some ([], [tcp_rule; udp_rule]) /\
  (exists out, init (slirp_host [tcp; letters_rule 224; udp]) [] initial_globals
               = Some out /\ fst (fst (fst out)) = true).
Proof.
  cbv zeta. repeat split; try (vm_compute; reflexivity).
  eexists. split; vm_compute; reflexivity.
Qed.

(** ** The read loop of the interrupt handler *)

Section InterruptProperties.

Variable packet : Z.
Variable ether_data : Z.
Variable ed_RHA : Z.
Variable ed_ReadPacket : Z.

Local Abbreviation do_interrupt :=
  (ether_do_interrupt packet ether_data ed_RHA ed_ReadPacket).
Local Abbreviation events_of :=
  (frame_events packet ether_data ed_RHA ed_ReadPacket).

Lemma length_firstn_ge14 (f : frame) :
  (Z.of_nat (length (firstn 1514 f)) <? 14) = negb (14 <=? length f)%nat.
Proof.
  rewrite length_firstn.
  destruct (Z.ltb_spec (Z.of_nat (Nat.min 1514 (length f))) 14);
    destruct (Nat.leb_spec 14 (length f)); cbn; try reflexivity; lia.
Qed.

Lemma do_interrupt_short g (f : frame) rest :
  (length f < 14)%nat -> do_interrupt g (f :: rest) = ([], rest).
Proof.
  intros H. cbn [ether_do_interrupt]. rewrite length_firstn_ge14.
  destruct (Nat.leb_spec 14 (length f)); [lia | reflexivity].
Qed.

Lemma do_interrupt_long g (f : frame) rest :
  (14 <= length f)%nat ->
  do_interrupt g (f :: rest) =
  (events_of g (firstn 1514 f) ++ fst (do_interrupt g rest),
   snd (do_interrupt g rest)).
Proof.
  intros H. cbn [ether_do_interrupt]. rewrite length_firstn_ge14.
  destruct (Nat.leb_spec 14 (length f)); [| lia]. cbn [negb].
  destruct (do_interrupt g rest) as [evs' rest']. reflexivity.
Qed.

Lemma do_interrupt_events g pending :
  do_interrupt g pending =
  (flat_map (fun f => events_of g (firstn 1514 f)) (deliverable_prefix pending),
   after_short_read pending).
Proof.
  induction pending as [|f rest IH]; [reflexivity |].
  cbn [deliverable_prefix after_short_read].
  destruct (Nat.leb_spec 14 (length f)) as [Hge|Hlt].
  - rewrite do_interrupt_long by exact Hge. rewrite IH. reflexivity.
  - now apply do_interrupt_short.
Qed.

Lemma dispatched_app evs1 evs2 :
  dispatched (evs1 ++ evs2) = (dispatched evs1 + dispatched evs2)%nat.
Proof. unfold dispatched. now rewrite filter_app, length_app. Qed.

Lemma dispatched_frame_events g buf : (dispatched (events_of g buf) <= 1)%nat.
Proof.
  unfold frame_events, ether_dispatch_packet.
  destruct (udp_tunnel g); [vm_compute; lia |].
  destruct (net_protocols g !! _) as [h|]; [| vm_compute; lia].
  destruct (h =? 0); vm_compute; lia.
Qed.

Lemma dispatched_do_interrupt_le g pending :
  (dispatched (fst (do_interrupt g pending)) <= length (deliverable_prefix pending))%nat.
Proof.
  rewrite do_interrupt_events. cbn [fst].
  induction (deliverable_prefix pending) as [|f l IH]; [cbn; lia |].
  cbn [flat_map length]. rewrite dispatched_app.
  pose proof (dispatched_frame_events g (firstn 1514 f)). lia.
Qed.

End InterruptProperties.

(** ** Reception thread and interrupt acknowledge *)

Lemma count_app p (t1 t2 : list label) :
  count p (t1 ++ t2) = (count p t1 + count p t2)%nat.
Proof. unfold count. now rewrite filter_app, length_app. Qed.

Lemma count_cons p (l : label) (t : list label) :
  count p (l :: t) = (b2n (p l) + count p t)%nat.
Proof.
  unfold count. rewrite filter_cons.
  destruct (decide (p l = true)) as [E|E].
  - rewrite E. reflexivity.
  - destruct (p l); [congruence | reflexivity].
Qed.

Lemma count_nil p : count p [] = 0%nat.
Proof. reflexivity. Qed.

(** A trace with a label satisfying [p] splits at the first such label. *)
Lemma count_pos_split p (tr : list label) :
  (0 < count p tr)%nat ->
  exists v l u, tr = v ++ l :: u /\ p l = true /\ count p v = 0%nat.
Proof.
  induction tr as [|l tr IH]; intros H.
  - rewrite count_nil in H. lia.
  - destruct (p l) eqn:E.
    + exists [], l, tr. repeat split; assumption.
    + rewrite count_cons, E in H. cbn in H.
      destruct (IH H) as (v & l' & u & -> & Hp & Hv).
      exists (l :: v), l', u. repeat split; [assumption |].
      rewrite count_cons, E. exact Hv.
Qed.

Section ReceptionProperties.

Variable packet : Z.
Variable ether_data : Z.
Variable ed_RHA : Z.
Variable ed_ReadPacket : Z.

Local Abbreviation step := (step packet ether_data ed_RHA ed_ReadPacket).
Local Abbreviation exec := (exec packet ether_data ed_RHA ed_ReadPacket).

Ltac count_simpl :=
  repeat (rewrite ?count_app, ?count_cons, ?count_nil in *; cbn [is_trigger is_ack is_wait b2n] in *).

Lemma guest_enters_interrupt_Some s s' :
  guest_enters_interrupt s = Some s' ->
  sys_intflag s = true /\ sys_in_irq s = false /\
  s' = {| sys_globals := sys_globals s; sys_pending := sys_pending s;
          sys_pc := sys_pc s; sys_intflag := false;
          sys_in_irq := true; sys_int_ack := sys_int_ack s |}.
Proof.
  unfold guest_enters_interrupt.
  destruct (sys_intflag s), (sys_in_irq s); cbn; intros H;
    try discriminate. inversion H. repeat split.
Qed.

Lemma step_preserves_invariant tr s l s' :
  bridge_invariant tr s -> step s l s' -> bridge_invariant (tr ++ [l]) s'.
Proof.
  intros (Hsem & Hraised & Hone & Hpoll) Hstep.
  unfold bridge_invariant.
  inversion Hstep; subst;
    cbn [sys_pc sys_intflag sys_in_irq sys_int_ack with_globals] in *;
    count_simpl.
  - (* arrive *) do 3 (split; [lia |]). exact Hpoll.
  - (* trigger *)
    destruct (Hpoll H) as (Hf & Hi & Ha). rewrite Hf, Hi, Ha in *. cbn in *.
    do 3 (split; [lia |]). discriminate.
  - (* delay *) do 3 (split; [lia |]). exact Hpoll.
  - (* poll fails *) do 3 (split; [lia |]). discriminate.
  - (* wait *)
    rewrite H0 in *.
    destruct (sys_intflag s), (sys_in_irq s); cbn in *; lia.
  - (* cancel *) do 3 (split; [lia |]). discriminate.
  - (* irq enter *)
    apply guest_enters_interrupt_Some in H as (Hf & Hi & ->).
    rewrite Hf, Hi in *. cbn in *.
    do 3 (split; [lia |]).
    intros Hpc. destruct (Hpoll Hpc) as (Hf' & _). discriminate.
  - (* irq done *)
    rewrite H in *. cbn in *.
    do 3 (split; [lia |]).
    intros Hpc. destruct (Hpoll Hpc) as (_ & Hi & _). discriminate.
  - (* attach *) do 3 (split; [lia |]). exact Hpoll.
  - (* detach *) do 3 (split; [lia |]). exact Hpoll.
  - (* reset *) do 3 (split; [lia |]). exact Hpoll.
Qed.

Lemma exec_invariant g pending tr s :
  exec g pending tr s -> bridge_invariant tr s.
Proof.
  induction 1 as [|tr s l s' Hexec IH Hstep].
  - unfold bridge_invariant. cbn. repeat split; lia.
  - eapply step_preserves_invariant; eassumption.
Qed.

(** Every prefix of a run is a run, and the next label is a step from where
    the prefix ends. *)
Lemma exec_prefix g pending t l t' s :
  exec g pending (t ++ l :: t') s ->
  exists s1 s2, exec g pending t s1 /\ step s1 l s2.
Proof.
  remember (t ++ l :: t') as tr eqn:Etr. intros Hexec.
  revert t l t' Etr.
  induction Hexec as [|tr s l0 s' Hexec IH Hstep]; intros t l t' Etr.
  - destruct t; discriminate.
  - revert Etr. destruct t' as [|x t'' _] using rev_ind; intros Etr.
    + apply app_inj_tail in Etr as [-> ->]. exists s, s'. split; assumption.
    + change (t ++ l :: t'' ++ [x]) with (t ++ (l :: t'') ++ [x]) in Etr.
      rewrite app_assoc in Etr.
      apply app_inj_tail in Etr as [-> ->].
      eapply IH; reflexivity.
Qed.

Lemma step_trigger_at_poll s s' : step s L_trigger s' -> sys_pc s = AtPoll.
Proof. inversion 1; assumption. Qed.

Lemma step_wait_semaphore s s' :
  step s L_wait s' -> sys_pc s = AtWait /\ (0 < sys_int_ack s)%nat.
Proof. inversion 1; subst. split; [assumption | lia]. Qed.

Lemma is_ack_true l : is_ack l = true -> exists evs, l = L_irq_done evs.
Proof. destruct l; try discriminate. eauto. Qed.

Lemma is_wait_true l : is_wait l = true -> l = L_wait.
Proof. destruct l; try discriminate. reflexivity. Qed.

(** Between two interrupts raised in a run, the guest completes
    [EtherInterrupt] and then the wait on [int_ack] returns. *)
Lemma ack_and_wait_between_triggers g pending t1 t2 t3 s :
  exec g pending (t1 ++ L_trigger :: t2 ++ L_trigger :: t3) s ->
  exists u1 evs u2 u3, t2 = u1 ++ L_irq_done evs :: u2 ++ L_wait :: u3.
Proof.
  intros Hexec.
  destruct (exec_prefix _ _ _ _ _ _ Hexec) as (s1 & s1' & Hex1 & Hst1).
  pose proof (exec_invariant _ _ _ _ Hex1) as (Hsem1 & Hr1 & _ & Hp1).
  destruct (Hp1 (step_trigger_at_poll _ _ Hst1)) as (Hf1 & Hi1 & Ha1).
  rewrite Hf1, Hi1, Ha1 in *. cbn in Hr1.
  assert (Hexec' : exec g pending ((t1 ++ L_trigger :: t2) ++ L_trigger :: t3) s).
  { rewrite <- app_assoc. exact Hexec. }
  destruct (exec_prefix _ _ _ _ _ _ Hexec') as (s2 & s2' & Hex2 & Hst2).
  pose proof (exec_invariant _ _ _ _ Hex2) as (Hsem2 & Hr2 & _ & Hp2).
  destruct (Hp2 (step_trigger_at_poll _ _ Hst2)) as (Hf2 & Hi2 & Ha2).
  rewrite Hf2, Hi2, Ha2 in *. cbn in Hr2. count_simpl.
  destruct (count_pos_split is_wait t2) as (v & l & u3 & -> & Hl & Hv); [lia |].
  apply is_wait_true in Hl. subst l.
  assert (Hexec3 : exec g pending
            ((t1 ++ L_trigger :: v) ++ L_wait :: u3 ++ L_trigger :: t3) s).
  { rewrite <- app_assoc. cbn [app]. rewrite <- app_assoc in Hexec.
    exact Hexec. }
  destruct (exec_prefix _ _ _ _ _ _ Hexec3) as (s3 & s3' & Hex3 & Hst3).
  pose proof (exec_invariant _ _ _ _ Hex3) as (Hsem3 & _).
  destruct (step_wait_semaphore _ _ Hst3) as (_ & Hpos).
  count_simpl.
  destruct (count_pos_split is_ack v) as (u1 & l & u2 & -> & Hl & _); [lia |].
  apply is_ack_true in Hl as (evs & ->).
  exists u1, evs, u2, u3. rewrite <- app_assoc. reflexivity.
Qed.

(** C1: in every run of the reception thread with the guest, at most one
    raised interrupt is unacknowledged; an interrupt is raised only when
    every earlier one is acknowledged, and the thread then waits on [int_ack]
    with the semaphore at 0; between two interrupts raised, [EtherInterrupt]
    completes and then the wait returns; only the completion of
    [EtherInterrupt] raises the semaphore; and a thread waiting on [int_ack]
    leaves the wait only when the semaphore is positive (or when it is
    cancelled). *)
Theorem receive_func_one_interrupt_at_a_time g pending tr s :
  exec g pending tr s ->
  (interrupts_raised tr <= count is_ack tr + 1)%nat /\
  (forall s', step s L_trigger s' ->
     interrupts_raised tr = count is_ack tr /\
     sys_pc s' = AtWait /\ sys_int_ack s' = 0%nat) /\
  (forall t1 t2 t3, tr = t1 ++ L_trigger :: t2 ++ L_trigger :: t3 ->
     exists u1 evs u2 u3, t2 = u1 ++ L_irq_done evs :: u2 ++ L_wait :: u3) /\
  (forall l s', step s l s' -> (sys_int_ack s < sys_int_ack s')%nat ->
     exists evs, l = L_irq_done evs) /\
  (sys_pc s = AtWait -> forall l s', step s l s' -> sys_pc s' <> AtWait ->
     (l = L_wait /\ (0 < sys_int_ack s)%nat) \/ l = L_cancel).
Proof.
  intros Hexec.
  pose proof (exec_invariant _ _ _ _ Hexec) as (Hsem & Hraised & Hone & Hpoll).
  unfold interrupts_raised.
  split; [destruct (sys_intflag s), (sys_in_irq s); cbn in *; lia |].
  split.
  { intros s' Hst. pose proof (step_trigger_at_poll _ _ Hst) as Hpc.
    destruct (Hpoll Hpc) as (Hf & Hi & Ha). rewrite Hf, Hi in Hraised.
    cbn in Hraised. inversion Hst; subst; cbn. repeat split; [lia | assumption]. }
  split.
  { intros t1 t2 t3 ->. eapply ack_and_wait_between_triggers; eassumption. }
  split.
  { intros l s' Hst Hlt.
    inversion Hst; subst;
      try match goal with
          | H : guest_enters_interrupt _ = Some _ |- _ =>
              apply guest_enters_interrupt_Some in H as (_ & _ & ->)
          end;
      cbn [sys_int_ack with_globals] in Hlt; try lia.
    eexists; reflexivity. }
  intros Hpc l s' Hst Hne.
  inversion Hst; subst;
    try match goal with
        | H : guest_enters_interrupt _ = Some _ |- _ =>
            apply guest_enters_interrupt_Some in H as (_ & _ & ->)
        end;
    cbn [sys_pc with_globals] in *; try congruence.
  - left. split; [reflexivity | lia].
  - right. reflexivity.
Qed.

Lemma do_interrupt_event_origin g pending e :
  In e (fst (ether_do_interrupt packet ether_data ed_RHA ed_ReadPacket g pending)) ->
  exists f : frame,
    In f pending /\ (14 <= length f)%nat /\
    In e (frame_events packet ether_data ed_RHA ed_ReadPacket g (firstn 1514 f)).
Proof.
  induction pending as [|f rest IH]; intros Hin; [destruct Hin |].
  destruct (Nat.leb_spec 14 (length f)) as [Hge|Hlt].
  - rewrite do_interrupt_long in Hin by exact Hge. cbn [fst] in Hin.
    apply in_app_or in Hin as [Hin|Hin].
    + exists f. repeat split; [left; reflexivity | exact Hge | exact Hin].
    + destruct (IH Hin) as (f' & Hf' & Hlen & He).
      exists f'. repeat split; [right; exact Hf' | exact Hlen | exact He].
  - rewrite do_interrupt_short in Hin by exact Hlt. destruct Hin.
Qed.

(** C2, as the code has it: the handling of one interrupt reads frames until
    a read returns fewer than 14 bytes and dispatches every frame read before
    that, in order; the handler calls of one interrupt are at most as many as
    those frames, so they may be none or several; the input after the short
    read stays pending. *)
Theorem ether_do_interrupt_drains_pending (g : ether_globals) (pending : list frame) :
  ether_do_interrupt packet ether_data ed_RHA ed_ReadPacket g pending =
    (flat_map (fun f => frame_events packet ether_data ed_RHA ed_ReadPacket g
                          (firstn 1514 f))
              (deliverable_prefix pending),
     after_short_read pending) /\
  (dispatched (fst (ether_do_interrupt packet ether_data ed_RHA ed_ReadPacket
                      g pending))
   <= length (deliverable_prefix pending))%nat /\
  (forall s evs s',
     step s (L_irq_done evs) s' ->
     evs = flat_map (fun f => frame_events packet ether_data ed_RHA ed_ReadPacket
                                (sys_globals s) (firstn 1514 f))
                    (deliverable_prefix (sys_pending s)) /\
     sys_pending s' = after_short_read (sys_pending s)) /\
  (forall n,
     dispatched (fst (ether_do_interrupt packet ether_data ed_RHA ed_ReadPacket
                        globals_with_handlers (repeat (frame_of_type 2048 46) n)))
     = n).
Proof.
  split; [apply do_interrupt_events |].
  split; [apply dispatched_do_interrupt_le |].
  split.
  - intros s evs s' Hst. inversion Hst; subst. cbn [sys_pending].
    match goal with
    | H : ether_do_interrupt _ _ _ _ _ _ = _ |- _ =>
        rewrite do_interrupt_events in H; now inversion H
    end.
  - induction n as [|n IH]; [reflexivity |].
    cbn [repeat]. rewrite do_interrupt_long by (vm_compute; lia).
    cbn [fst]. rewrite dispatched_app, IH. reflexivity.
Qed.

(** C4, as the code has it: a frame shorter than 14 bytes is dropped by the
    read loop of the interrupt handler, which stops at it: it causes no
    handler call and no event at all, and no event of any interrupt comes
    from a frame shorter than 14 bytes.  The reception thread does not read
    the frame: it raises the interrupt as soon as [fd] is readable, with such
    a frame pending as with any other. *)
Theorem short_frame_dropped (g : ether_globals) (f : frame) (rest : list frame) :
  (length f < 14)%nat ->
  ether_do_interrupt packet ether_data ed_RHA ed_ReadPacket g (f :: rest)
    = ([], rest) /\
  (forall s evs s',
     sys_pending s = f :: rest -> step s (L_irq_done evs) s' ->
     evs = [] /\ sys_pending s' = rest) /\
  (forall pending e,
     In e (fst (ether_do_interrupt packet ether_data ed_RHA ed_ReadPacket g pending)) ->
     exists f' : frame,
       In f' pending /\ (14 <= length f')%nat /\
       In e (frame_events packet ether_data ed_RHA ed_ReadPacket g (firstn 1514 f'))) /\
  (forall s,
     sys_pc s = AtPoll -> sys_pending s = f :: rest ->
     exists s', step s L_trigger s' /\ sys_pending s' = f :: rest /\
                sys_intflag s' = true).
Proof.
  intros Hlen.
  split; [now apply do_interrupt_short |].
  split.
  { intros s evs s' Hp Hst. inversion Hst; subst. cbn [sys_pending].
    match goal with
    | H : ether_do_interrupt _ _ _ _ _ _ = _ |- _ =>
        rewrite Hp, do_interrupt_short in H by exact Hlen; now inversion H
    end. }
  split; [intros pending e; apply do_interrupt_event_origin |].
  intros s Hpc Hp. eexists. split; [| split].
  - apply step_trigger; [exact Hpc | rewrite Hp; discriminate | reflexivity].
  - exact Hp.
  - reflexivity.
Qed.

End ReceptionProperties.

(** ** Concrete runs *)

(** Builds a run with a given trace, one step after the other. *)
Ltac run_trace :=
  lazymatch goal with
  | |- exec _ _ _ _ _ _ [] _ => apply exec_start
  | |- exec _ _ _ _ _ _ ?tr _ =>
      let tr' := eval cbv in (List.removelast tr) in
      let l := eval cbv in (List.last tr L_cancel) in
      eapply (exec_step _ _ _ _ _ _ tr' _ l);
      [run_trace | econstructor; first [reflexivity | discriminate]]
  end.

Lemma receive_func_one_interrupt_at_a_time_witness :
  let f := frame_of_type 2048 46 in
  let evs := fst (ether_do_interrupt 65536 131072 256 512 globals_with_handlers [f]) in
  let tr := [L_trigger; L_irq_enter; L_irq_done evs; L_wait; L_arrive f; L_trigger] in
  exists s,
    exec 65536 131072 256 512 globals_with_handlers [f] tr s /\
    (interrupts_raised tr <= count is_ack tr + 1)%nat /\
    (forall t1 t2 t3, tr = t1 ++ L_trigger :: t2 ++ L_trigger :: t3 ->
       exists u1 evs' u2 u3, t2 = u1 ++ L_irq_done evs' :: u2 ++ L_wait :: u3).
Proof.
  intros f evs tr.
  assert (Hexec : exists s, exec 65536 131072 256 512 globals_with_handlers [f] tr s).
  { eexists. subst tr evs f. run_trace. }
  destruct Hexec as [s Hexec]. exists s.
  split; [exact Hexec |].
  destruct (receive_func_one_interrupt_at_a_time 65536 131072 256 512
              globals_with_handlers [f] tr s Hexec) as (H1 & _ & H3 & _).
  split; [exact H1 | exact H3].
Defined.

(** C2 refuted: with two IP frames pending, one interrupt is raised and its
    handling calls the IP handler twice. *)
Lemma one_interrupt_two_frames_dispatched :
  let f := frame_of_type 2048 46 in
  let evs := fst (ether_do_interrupt 65536 131072 256 512 globals_with_handlers [f; f]) in
  let tr := [L_trigger; L_irq_enter; L_irq_done evs] in
  (exists s, exec 65536 131072 256 512 globals_with_handlers [f; f] tr s /\
             sys_pending s = []) /\
  interrupts_raised tr = 1%nat /\
  dispatched evs = 2%nat /\
  dispatched evs <> 1%nat.
Proof.
  intros f evs tr. split; [| split; [| split]].
  - eexists. split; [subst tr evs f; run_trace | reflexivity].
  - reflexivity.
  - reflexivity.
  - discriminate.
Qed.

(** C4 refuted: with a 10-byte frame as the only input ever pending, the
    reception thread raises an interrupt; its handling drops the frame. *)
Lemma interrupt_raised_for_short_frame :
  let tr := [L_trigger; L_irq_enter; L_irq_done []] in
  (length short_frame < 14)%nat /\
  (exists s, exec 65536 131072 256 512 globals_with_handlers [short_frame] tr s /\
             sys_pending s = []) /\
  interrupts_raised tr = 1%nat /\
  interrupts_raised tr <> 0%nat.
Proof.
  intros tr. split; [| split; [| split]].
  - vm_compute. lia.
  - eexists. split; [subst tr; run_trace | reflexivity].
  - reflexivity.
  - discriminate.
Qed.

Lemma short_frame_dropped_witness :
  (length short_frame < 14)%nat /\
  ether_do_interrupt 65536 131072 256 512 globals_with_handlers
    [short_frame; frame_of_type 2048 46]
  = ([], [frame_of_type 2048 46]).
Proof.
  assert (H : (length short_frame < 14)%nat) by (vm_compute; lia).
  split; [exact H |].
  apply (short_frame_dropped 65536 131072 256 512 globals_with_handlers
           short_frame [frame_of_type 2048 46] H).
Defined.

(** * Further properties of the driver *)

(** ** Protocol handler table *)

Lemma set_net_protocols_id g : set_net_protocols g (net_protocols g) = g.
Proof. destruct g; reflexivity. Qed.

Lemma set_net_protocols_twice g m1 m2 :
  set_net_protocols (set_net_protocols g m1) m2 = set_net_protocols g m2.
Proof. reflexivity. Qed.

(** The result of an attach or a detach tells whether the type had a handler:
    attach succeeds exactly on a type without one, detach exactly on a type
    with one, the only other result being [lapProtErr]; a call that fails
    leaves all globals as they were, so a handler in place is never
    overwritten. *)
Theorem attach_detach_results (t h : Z) (g : ether_globals) :
  (fst (ether_attach_ph t h g) = noErr <-> net_protocols g !! t = None) /\
  (fst (ether_attach_ph t h g) = lapProtErr <-> is_Some (net_protocols g !! t)) /\
  (fst (ether_detach_ph t g) = noErr <-> is_Some (net_protocols g !! t)) /\
  (fst (ether_detach_ph t g) = lapProtErr <-> net_protocols g !! t = None) /\
  (fst (ether_attach_ph t h g) = lapProtErr -> snd (ether_attach_ph t h g) = g) /\
  (fst (ether_detach_ph t g) = lapProtErr -> snd (ether_detach_ph t g) = g).
Proof.
  unfold ether_attach_ph, ether_detach_ph, noErr, lapProtErr.
  destruct (net_protocols g !! t) as [h0|] eqn:E; cbn [fst snd];
    repeat split; intros; try discriminate; try reflexivity; eauto;
    match goal with H : is_Some None |- _ => destruct H; discriminate end.
Qed.

(** Attach and then detach of a type without a handler gives back the
    globals as they were, and so does detach and then attach of the handler
    that was in place. *)
Theorem attach_detach_round_trip (t h : Z) (g : ether_globals) :
  (net_protocols g !! t = None ->
   snd (ether_detach_ph t (snd (ether_attach_ph t h g))) = g) /\
  (net_protocols g !! t = Some h ->
   snd (ether_attach_ph t h (snd (ether_detach_ph t g))) = g).
Proof.
  split; intros H.
  - rewrite (attach_fresh t h g H). cbn [snd].
    rewrite (detach_present t h (set_net_protocols g (<[t := h]> (net_protocols g))))
      by (cbn; apply lookup_insert_eq).
    cbn [snd]. rewrite set_net_protocols_twice, net_protocols_set.
    rewrite delete_insert_id by exact H. apply set_net_protocols_id.
  - rewrite (detach_present t h g H). cbn [snd].
    rewrite (attach_fresh t h (set_net_protocols g (delete t (net_protocols g))))
      by (cbn; apply lookup_delete_eq).
    cbn [snd]. rewrite set_net_protocols_twice, net_protocols_set.
    rewrite insert_delete_id by exact H. apply set_net_protocols_id.
Qed.

(** An attach or a detach of one type changes nothing but the entry of that
    type: the entries of other types, and so the results of later attach and
    detach calls for them, and all other globals stay.  Two calls for two
    different types, each an attach or a detach, can be made in either
    order: each call has the same result in both orders and the globals
    after both calls are the same. *)
Theorem attach_detach_other_types (t t' h h' : Z) (g : ether_globals) :
  t <> t' ->
  net_protocols (snd (ether_attach_ph t h g)) !! t' = net_protocols g !! t' /\
  net_protocols (snd (ether_detach_ph t g)) !! t' = net_protocols g !! t' /\
  fst (ether_attach_ph t' h' (snd (ether_attach_ph t h g)))
    = fst (ether_attach_ph t' h' g) /\
  fst (ether_attach_ph t' h' (snd (ether_detach_ph t g)))
    = fst (ether_attach_ph t' h' g) /\
  fst (ether_detach_ph t' (snd (ether_attach_ph t h g)))
    = fst (ether_detach_ph t' g) /\
  fst (ether_detach_ph t' (snd (ether_detach_ph t g))) = fst (ether_detach_ph t' g) /\
  snd (ether_attach_ph t' h' (snd (ether_attach_ph t h g)))
    = snd (ether_attach_ph t h (snd (ether_attach_ph t' h' g))) /\
  snd (ether_detach_ph t' (snd (ether_attach_ph t h g)))
    = snd (ether_attach_ph t h (snd (ether_detach_ph t' g))) /\
  snd (ether_detach_ph t' (snd (ether_detach_ph t g)))
    = snd (ether_detach_ph t (snd (ether_detach_ph t' g))) /\
  set_net_protocols (snd (ether_attach_ph t h g)) (net_protocols g) = g /\
  set_net_protocols (snd (ether_detach_ph t g)) (net_protocols g) = g.
Proof.
  intros Hne.
  assert (A : forall x, net_protocols (snd (ether_attach_ph t x g)) !! t'
                        = net_protocols g !! t').
  { intros x. unfold ether_attach_ph. destruct (net_protocols g !! t); cbn;
      [reflexivity | now apply lookup_insert_ne]. }
  assert (D : net_protocols (snd (ether_detach_ph t g)) !! t'
              = net_protocols g !! t').
  { unfold ether_detach_ph. destruct (net_protocols g !! t); cbn;
      [now apply lookup_delete_ne | reflexivity]. }
  assert (RA : forall x g0, fst (ether_attach_ph t' x g0)
                 = match net_protocols g0 !! t' with
                   | Some _ => lapProtErr | None => noErr end).
  { intros x g0. unfold ether_attach_ph. now destruct (net_protocols g0 !! t'). }
  assert (RD : forall g0, fst (ether_detach_ph t' g0)
                 = match net_protocols g0 !! t' with
                   | Some _ => noErr | None => lapProtErr end).
  { intros g0. unfold ether_detach_ph. now destruct (net_protocols g0 !! t'). }
  split; [apply A |]. split; [exact D |].
  split; [now rewrite !RA, A |].
  split; [now rewrite !RA, D |].
  split; [now rewrite !RD, A |].
  split; [now rewrite !RD, D |].
  split; [| split; [| split; [| split]]].
  - unfold ether_attach_ph.
    destruct (net_protocols g !! t) eqn:E1, (net_protocols g !! t') eqn:E2;
      cbn [snd net_protocols set_net_protocols];
      rewrite ?E1, ?E2, ?lookup_insert_ne, ?E1, ?E2 by congruence;
      cbn [snd net_protocols set_net_protocols]; try reflexivity.
    rewrite !set_net_protocols_twice. f_equal. apply insert_insert_ne. congruence.
  - unfold ether_attach_ph, ether_detach_ph.
    destruct (net_protocols g !! t) eqn:E1, (net_protocols g !! t') eqn:E2;
      cbn [snd net_protocols set_net_protocols];
      rewrite ?E1, ?E2, ?lookup_insert_ne, ?lookup_delete_ne, ?E1, ?E2 by congruence;
      cbn [snd net_protocols set_net_protocols]; try reflexivity.
    rewrite !set_net_protocols_twice. f_equal. apply delete_insert_ne. congruence.
  - unfold ether_detach_ph.
    destruct (net_protocols g !! t) eqn:E1, (net_protocols g !! t') eqn:E2;
      cbn [snd net_protocols set_net_protocols];
      rewrite ?E1, ?E2, ?lookup_delete_ne, ?E1, ?E2 by congruence;
      cbn [snd net_protocols set_net_protocols]; try reflexivity.
    rewrite !set_net_protocols_twice. f_equal. apply delete_delete.
  - unfold ether_attach_ph. destruct (net_protocols g !! t); cbn [snd];
      rewrite ?set_net_protocols_twice; apply set_net_protocols_id.
  - unfold ether_detach_ph. destruct (net_protocols g !! t); cbn [snd];
      rewrite ?set_net_protocols_twice; apply set_net_protocols_id.
Qed.

Lemma attach_detach_round_trip_witness :
  snd (ether_detach_ph 2054 (snd (ether_attach_ph 2054 16384 globals_with_handlers)))
  = globals_with_handlers.
Proof.
  apply (attach_detach_round_trip 2054 16384 globals_with_handlers). reflexivity.
Defined.

Lemma attach_detach_other_types_witness :
  (2048 : Z) <> 2054 /\
  net_protocols (snd (ether_detach_ph 2048 globals_with_handlers)) !! 2054
  = net_protocols globals_with_handlers !! 2054.
Proof.
  assert (H : (2048 : Z) <> 2054) by discriminate.
  split; [exact H |].
  apply (attach_detach_other_types 2048 2054 0 0 globals_with_handlers H).
Defined.

(** ** Dispatch and the read loop *)

Lemma ReadMacInt8_range (buf : frame) (off : nat) : 0 <= ReadMacInt8 buf off <= 255.
Proof.
  unfold ReadMacInt8.
  pose proof (Byte.to_N_bounded (nth off buf Byte.x00)). lia.
Qed.

Lemma ReadMacInt16_range (buf : frame) (off : nat) : 0 <= ReadMacInt16 buf off < 65536.
Proof.
  unfold ReadMacInt16.
  pose proof (ReadMacInt8_range buf off) as H1.
  pose proof (ReadMacInt8_range buf (S off)) as H2.
  rewrite Z.shiftl_mul_pow2 by lia.
  pose proof (Z.add_lor_land (ReadMacInt8 buf off * 2 ^ 8) (ReadMacInt8 buf (S off))) as E.
  assert (0 <= Z.land (ReadMacInt8 buf off * 2 ^ 8) (ReadMacInt8 buf (S off)))
    by (apply Z.land_nonneg; lia).
  assert (0 <= Z.lor (ReadMacInt8 buf off * 2 ^ 8) (ReadMacInt8 buf (S off)))
    by (apply Z.lor_nonneg; lia).
  lia.
Qed.

Lemma dispatch_event_shape
    (ether_data ed_RHA ed_ReadPacket : Z) (g : ether_globals) (buf : frame)
    (p length : Z) (e : event) :
  In e (ether_dispatch_packet ether_data ed_RHA ed_ReadPacket g buf p length) ->
  exists handler r,
    e = Execute68k handler r (firstn 14 buf) /\ handler <> 0 /\
    net_protocols g !! search_type (ReadMacInt16 buf 12) = Some handler /\
    r_d0 r = ReadMacInt16 buf 12 /\
    r_d1 r = uint32 (length - 14) /\ r_a0 r = uint32 (p + 14).
Proof.
  unfold ether_dispatch_packet. intros He.
  destruct (net_protocols g !! _) as [h|] eqn:E; [| destruct He].
  destruct (Z.eqb_spec h 0) as [->|Hh]; [destruct He |].
  destruct He as [<-|[]].
  eexists h, _. repeat split; [exact Hh].
Qed.

(** [ether_dispatch_packet] calls at most one handler.  A handler it calls
    is not 0 and is the one stored under key 0 or under a key above 1500
    that is the type field of the frame; register d0 holds the type field, a
    16-bit value, and the header copy is the first 14 bytes.  So an entry
    under a key from 1 to 1500 is never used: with no entry under key 0 or
    above 1500 no frame reaches a handler. *)
Theorem dispatch_handler_origin
    (ether_data ed_RHA ed_ReadPacket : Z) (g : ether_globals) (buf : frame)
    (p length : Z) :
  (List.length (ether_dispatch_packet ether_data ed_RHA ed_ReadPacket g buf p length)
   <= 1)%nat /\
  (forall e,
     In e (ether_dispatch_packet ether_data ed_RHA ed_ReadPacket g buf p length) ->
     exists handler r key,
       e = Execute68k handler r (firstn 14 buf) /\
       handler <> 0 /\
       net_protocols g !! key = Some handler /\
       (key = 0 /\ r_d0 r <= 1500 \/ 1500 < key /\ key = r_d0 r) /\
       r_d0 r = ReadMacInt16 buf 12 /\ 0 <= r_d0 r < 65536 /\
       r_d1 r = uint32 (length - 14) /\ r_a0 r = uint32 (p + 14)) /\
  ((forall key, key = 0 \/ 1500 < key -> net_protocols g !! key = None) ->
   ether_dispatch_packet ether_data ed_RHA ed_ReadPacket g buf p length = []).
Proof.
  unfold ether_dispatch_packet.
  pose proof (ReadMacInt16_range buf 12) as Hr.
  assert (Hk : search_type (ReadMacInt16 buf 12) = 0 /\ ReadMacInt16 buf 12 <= 1500
               \/ 1500 < search_type (ReadMacInt16 buf 12)
                  /\ search_type (ReadMacInt16 buf 12) = ReadMacInt16 buf 12).
  { unfold search_type. destruct (Z.leb_spec (ReadMacInt16 buf 12) 1500); lia. }
  split; [| split].
  - destruct (net_protocols g !! _) as [h|]; [| cbn; lia].
    destruct (h =? 0); cbn; lia.
  - intros e He.
    destruct (dispatch_event_shape ether_data ed_RHA ed_ReadPacket g buf p length e He)
      as (h & r & -> & Hh & E & Hd0 & Hd1 & Ha0).
    exists h, r, (search_type (ReadMacInt16 buf 12)).
    rewrite Hd0. repeat split; try assumption; try lia.
  - intros Hnone. rewrite Hnone; [reflexivity |].
    destruct Hk as [[-> _]|[H _]]; [left; reflexivity | right; exact H].
Qed.

Section ReadLoopProperties.

Variable packet : Z.
Variable ether_data : Z.
Variable ed_RHA : Z.
Variable ed_ReadPacket : Z.

(** Whatever is pending, an event of [ether_do_interrupt] is a handler call
    on a device that is not a UDP tunnel, with a remaining length from 0 to
    1500 in d1, the packet address plus 14 in a0 and a header copy of 14
    bytes, or the hand-over of a packet of 14 to 1514 bytes to the UDP path
    on a tunnel; the loop itself raises no warning. *)
Theorem ether_do_interrupt_event_bounds (g : ether_globals) (pending : list frame)
    (e : event) :
  In e (fst (ether_do_interrupt packet ether_data ed_RHA ed_ReadPacket g pending)) ->
  match e with
  | Execute68k handler r rha =>
      udp_tunnel g = false /\ handler <> 0 /\
      0 <= r_d1 r <= 1500 /\ r_a0 r = uint32 (packet + 14) /\
      List.length rha = 14%nat
  | ether_udp_read data =>
      udp_tunnel g = true /\ (14 <= List.length data <= 1514)%nat
  | WarningAlert _ => False
  end.
Proof.
  intros He.
  destruct (do_interrupt_event_origin _ _ _ _ _ _ _ He) as (f & _ & Hlen & Hin).
  assert (Hl : (14 <= List.length (firstn 1514 f) <= 1514)%nat)
    by (rewrite length_firstn; lia).
  unfold frame_events in Hin.
  destruct (udp_tunnel g) eqn:Hudp.
  - destruct Hin as [<-|[]]. split; [reflexivity | exact Hl].
  - destruct (dispatch_event_shape ether_data ed_RHA ed_ReadPacket g
                (firstn 1514 f) packet (Z.of_nat (List.length (firstn 1514 f)))
                e Hin)
      as (h & r & -> & Hh & _ & _ & Hd1 & Ha0).
    split; [reflexivity |]. split; [exact Hh |].
    rewrite Hd1, Ha0. unfold uint32 at 1 2.
    rewrite Z.mod_small by lia.
    split; [lia |]. split; [reflexivity |].
    rewrite firstn_firstn, length_firstn. lia.
Qed.

(** One call of [ether_do_interrupt] takes a number of pending reads from
    the front and leaves the others untouched; it takes at least one when
    something is pending, and everything when no pending frame is shorter
    than 14 bytes. *)
Theorem ether_do_interrupt_consumes (g : ether_globals) (pending : list frame) :
  (exists consumed,
     pending = consumed ++
               snd (ether_do_interrupt packet ether_data ed_RHA ed_ReadPacket g pending)
     /\ (pending <> [] -> consumed <> [])) /\
  (Forall (fun f : frame => (14 <= List.length f)%nat) pending ->
   snd (ether_do_interrupt packet ether_data ed_RHA ed_ReadPacket g pending) = []).
Proof.
  rewrite do_interrupt_events. cbn [snd]. split.
  - induction pending as [|f rest IH].
    + exists []. split; [reflexivity | congruence].
    + cbn [after_short_read]. destruct (14 <=? List.length f)%nat.
      * destruct IH as (c & Hc & _). exists (f :: c). split; [| discriminate].
        cbn. now rewrite <- Hc.
      * exists [f]. split; [reflexivity | discriminate].
  - induction 1 as [|f rest Hf _ IH]; [reflexivity |].
    cbn [after_short_read]. destruct (Nat.leb_spec 14 (List.length f)); [exact IH | lia].
Qed.

End ReadLoopProperties.

Lemma ether_do_interrupt_event_bounds_witness :
  let e := Execute68k 8192
             {| r_d0 := 2048; r_d1 := 46; r_a0 := 65550; r_a3 := 131342;
                r_a4 := 131584 |}
             (firstn 14 (frame_of_type 2048 46)) in
  In e (fst (ether_do_interrupt 65536 131072 256 512 globals_with_handlers
               [frame_of_type 2048 46])) /\
  0 <= 46 <= 1500.
Proof.
  intros e.
  assert (H : In e (fst (ether_do_interrupt 65536 131072 256 512
                           globals_with_handlers [frame_of_type 2048 46])))
    by (left; reflexivity).
  split; [exact H |].
  exact (proj1 (proj2 (proj2 (ether_do_interrupt_event_bounds 65536 131072 256 512
                                globals_with_handlers [frame_of_type 2048 46] e H)))).
Defined.

(** ** Runs of the reception thread *)

Section RunProperties.

Variable packet : Z.
Variable ether_data : Z.
Variable ed_RHA : Z.
Variable ed_ReadPacket : Z.

Local Abbreviation step := (step packet ether_data ed_RHA ed_ReadPacket).
Local Abbreviation exec := (exec packet ether_data ed_RHA ed_ReadPacket).

Lemma exec_snoc_inv g pending tr l s :
  exec g pending (tr ++ [l]) s -> exists s0, exec g pending tr s0 /\ step s0 l s.
Proof.
  intros H. inversion H as [E | tr0 s0 l0 s' Hexec Hstep E].
  - destruct tr; discriminate.
  - apply app_inj_tail in E as [-> ->]. eauto.
Qed.

Lemma step_from_exited s l s' :
  sys_pc s = Exited -> step s l s' ->
  sys_pc s' = Exited /\ is_trigger l = false /\ is_wait l = false.
Proof.
  intros Hpc Hst.
  inversion Hst; subst;
    try match goal with
        | H : guest_enters_interrupt _ = Some _ |- _ =>
            apply guest_enters_interrupt_Some in H as (_ & _ & ->)
        end;
    cbn [sys_pc with_globals is_trigger is_wait]; try congruence; auto.
Qed.

Lemma step_exit s l s' : is_exit l = true -> step s l s' -> sys_pc s' = Exited.
Proof.
  intros Hl Hst. inversion Hst; subst; try discriminate; reflexivity.
Qed.

(** Once [receive_func] has left its loop, because [poll] failed, or has
    been cancelled, no interrupt is raised any more and no wait returns,
    whatever frames arrive afterwards. *)
Theorem no_interrupt_after_exit g pending t1 l t2 s :
  exec g pending (t1 ++ l :: t2) s -> is_exit l = true ->
  sys_pc s = Exited /\ interrupts_raised t2 = 0%nat /\ count is_wait t2 = 0%nat.
Proof.
  intros Hexec Hl. revert s Hexec.
  induction t2 as [|x t2 IH] using rev_ind; intros s Hexec.
  - apply exec_snoc_inv in Hexec as (s0 & _ & Hst).
    split; [eapply step_exit; eassumption | split; reflexivity].
  - change (t1 ++ l :: t2 ++ [x]) with (t1 ++ (l :: t2) ++ [x]) in Hexec.
    rewrite app_assoc in Hexec.
    apply exec_snoc_inv in Hexec as (s0 & Hex0 & Hst).
    destruct (IH s0 Hex0) as (Hpc & Ht & Hw).
    destruct (step_from_exited _ _ _ Hpc Hst) as (Hpc' & Hxt & Hxw).
    unfold interrupts_raised in *.
    rewrite !count_app, !count_cons, !count_nil, Hxt, Hxw, Ht, Hw.
    split; [exact Hpc' | split; reflexivity].
Qed.

Lemma step_preserves_waiting tr s l s' :
  bridge_invariant tr s -> waiting_invariant tr s -> step s l s' ->
  waiting_invariant (tr ++ [l]) s'.
Proof.
  intros (Hsem & Hraised & Hone & Hpoll) Hw Hstep. unfold waiting_invariant in *.
  inversion Hstep; subst;
    try match goal with
        | H : guest_enters_interrupt _ = Some _ |- _ =>
            apply guest_enters_interrupt_Some in H as (_ & _ & ->)
        end;
    cbn [sys_pc with_globals] in *;
    rewrite !count_app, !count_cons, !count_nil;
    cbn [is_trigger is_wait b2n]; intros Hpc; try discriminate;
    try (specialize (Hw Hpc); lia).
  (* trigger *)
  match goal with H : sys_pc s = AtPoll |- _ =>
    destruct (Hpoll H) as (Hf & Hi & Ha) end.
  rewrite Hf, Hi, Ha in *. cbn in *. lia.
Qed.

Lemma exec_waiting g pending tr s : exec g pending tr s -> waiting_invariant tr s.
Proof.
  induction 1 as [|tr s l s' Hexec IH Hstep].
  - intros Hpc. discriminate.
  - eapply step_preserves_waiting; try eassumption.
    eapply exec_invariant; eassumption.
Qed.

(** In every run the semaphore [int_ack] is 0 or 1.  Whenever the thread is
    waiting on it, the interrupt it raised is pending, in service or already
    acknowledged, so that the guest completing [EtherInterrupt] brings the
    thread back to [poll] in at most three steps: the wake-up is never
    lost. *)
Theorem waiting_thread_resumes g pending tr s :
  exec g pending tr s ->
  (sys_int_ack s <= 1)%nat /\
  (sys_pc s = AtWait ->
   exists tr' s',
     exec g pending (tr ++ tr') s' /\ sys_pc s' = AtPoll /\
     Forall (fun l => is_resume l = true) tr' /\ (List.length tr' <= 3)%nat).
Proof.
  intros Hexec.
  pose proof (exec_invariant _ _ _ _ _ _ _ _ Hexec) as (Hsem & Hraised & Hone & Hpoll).
  pose proof (exec_waiting _ _ _ _ Hexec) as Hw.
  split; [lia |].
  intros Hpc. specialize (Hw Hpc).
  assert (Hsum : (b2n (sys_intflag s) + b2n (sys_in_irq s) + sys_int_ack s = 1)%nat)
    by lia.
  (* the wait returns once the semaphore is 1 *)
  assert (Wait : forall tr1 s1, exec g pending tr1 s1 -> sys_pc s1 = AtWait ->
            sys_int_ack s1 = 1%nat ->
            exists s2, exec g pending (tr1 ++ [L_wait]) s2 /\ sys_pc s2 = AtPoll).
  { intros tr1 s1 H1 Hpc1 Ha1. eexists. split.
    - eapply exec_step; [exact H1 | eapply step_wait; eassumption].
    - reflexivity. }
  (* the guest completes the handler *)
  assert (Done : forall tr1 s1, exec g pending tr1 s1 -> sys_pc s1 = AtWait ->
            sys_in_irq s1 = true -> sys_int_ack s1 = 0%nat ->
            exists evs s2, exec g pending (tr1 ++ [L_irq_done evs]) s2 /\
                           sys_pc s2 = AtWait /\ sys_int_ack s2 = 1%nat).
  { intros tr1 s1 H1 Hpc1 Hi1 Ha1.
    destruct (ether_do_interrupt packet ether_data ed_RHA ed_ReadPacket
                (sys_globals s1) (sys_pending s1)) as [evs rest] eqn:E.
    exists evs. eexists. split; [| split].
    - eapply exec_step; [exact H1 | eapply step_irq_done; eassumption].
    - exact Hpc1.
    - cbn. now rewrite Ha1. }
  destruct (sys_intflag s) eqn:Hf, (sys_in_irq s) eqn:Hi; cbn in Hsum; try lia.
  - (* pending *)
    assert (H1 : exists s1, exec g pending (tr ++ [L_irq_enter]) s1 /\
                   sys_pc s1 = AtWait /\ sys_in_irq s1 = true /\
                   sys_int_ack s1 = 0%nat).
    { eexists. split; [| split; [| split]].
      - eapply exec_step; [exact Hexec |].
        apply step_irq_enter. unfold guest_enters_interrupt. rewrite Hf, Hi.
        reflexivity.
      - exact Hpc.
      - reflexivity.
      - cbn. lia. }
    destruct H1 as (s1 & He1 & Hpc1 & Hi1 & Ha1).
    destruct (Done _ _ He1 Hpc1 Hi1 Ha1) as (evs & s2 & He2 & Hpc2 & Ha2).
    destruct (Wait _ _ He2 Hpc2 Ha2) as (s3 & He3 & Hpc3).
    exists [L_irq_enter; L_irq_done evs; L_wait], s3.
    split; [| split; [exact Hpc3 | split; [repeat constructor | cbn; lia]]].
    rewrite <- !app_assoc in He3. exact He3.
  - (* in service *)
    assert (Ha : sys_int_ack s = 0%nat) by lia.
    destruct (Done _ _ Hexec Hpc Hi Ha) as (evs & s2 & He2 & Hpc2 & Ha2).
    destruct (Wait _ _ He2 Hpc2 Ha2) as (s3 & He3 & Hpc3).
    exists [L_irq_done evs; L_wait], s3.
    split; [| split; [exact Hpc3 | split; [repeat constructor | cbn; lia]]].
    rewrite <- !app_assoc in He3. exact He3.
  - (* acknowledged *)
    assert (Ha : sys_int_ack s = 1%nat) by lia.
    destruct (Wait _ _ Hexec Hpc Ha) as (s3 & He3 & Hpc3).
    exists [L_wait], s3.
    split; [exact He3 | split; [exact Hpc3 | split; [repeat constructor | cbn; lia]]].
Qed.

End RunProperties.

(** ** Transmit path and the pipes of the slirp device *)

Lemma ether_do_write_raw_witness :
  net_if_type globals_with_handlers <> NET_IF_SLIRP /\
  ether_do_write failing_write globals_with_handlers (frame_of_type 2048 46)
    = excessCollsns.
Proof.
  assert (H : net_if_type globals_with_handlers <> NET_IF_SLIRP) by discriminate.
  split; [exact H |].
  apply (ether_do_write_raw failing_write globals_with_handlers
           (frame_of_type 2048 46) H).
  reflexivity.
Defined.

Lemma byte_of_N_to_N (z : Z) :
  0 <= z < 256 -> Z.of_N (Byte.to_N (default Byte.x00 (Byte.of_N (Z.to_N z)))) = z.
Proof.
  intros Hz. destruct (Byte.of_N (Z.to_N z)) as [b|] eqn:E.
  - apply Byte.to_of_N in E. simpl. rewrite E. lia.
  - apply Byte.of_N_None_iff in E. lia.
Qed.

Lemma length_int_bytes len : List.length (int_bytes len) = 4%nat.
Proof. reflexivity. Qed.

(** The four bytes written for a length are read back as that length. *)
Lemma int_of_bytes_int_bytes (len : Z) :
  -2147483648 <= len < 2147483648 -> int_of_bytes (int_bytes len) = len.
Proof.
  intros Hlen. unfold int_of_bytes, int_bytes. cbn [map fold_right].
  assert (Hu : 0 <= uint32 len < 4294967296)
    by (unfold uint32; apply Z.mod_pos_bound; lia).
  rewrite !byte_of_N_to_N by (apply Z.mod_pos_bound; lia).
  change (2 ^ (8 * 0)) with 1. change (2 ^ (8 * 1)) with 256.
  change (2 ^ (8 * 2)) with 65536. change (2 ^ (8 * 3)) with 16777216.
  assert (E : uint32 len / 1 mod 256
              + 256 * (uint32 len / 256 mod 256
                       + 256 * (uint32 len / 65536 mod 256
                                + 256 * (uint32 len / 16777216 mod 256 + 256 * 0)))
              = uint32 len).
  { Z.div_mod_to_equations. lia. }
  rewrite E. unfold int32, uint32.
  Z.div_mod_to_equations. lia.
Qed.

Lemma pipe_after_slirp_write g pkt pipe :
  net_if_type g = NET_IF_SLIRP ->
  pipe_after_writes (snd (slirp_input_fds g)) (ether_do_write_calls g pkt) pipe
  = pipe ++ int_bytes (Z.of_nat (List.length pkt)) ++ pkt.
Proof.
  intros Hif. unfold ether_do_write_calls. rewrite Hif.
  change (NET_IF_SLIRP =? NET_IF_SLIRP) with true. cbv iota.
  unfold pipe_after_writes. cbn [fold_left fst snd].
  rewrite !Z.eqb_refl. unfold pipe_write. now rewrite <- app_assoc.
Qed.

Lemma firstn_app_exact {A} (n : nat) (l k : list A) :
  List.length l = n -> firstn n (l ++ k) = l.
Proof.
  intros <-. rewrite firstn_app, Nat.sub_diag, firstn_all. cbn.
  now rewrite app_nil_r.
Qed.

Lemma skipn_app_exact {A} (n : nat) (l k : list A) :
  List.length l = n -> skipn n (l ++ k) = k.
Proof.
  intros <-. rewrite skipn_app, Nat.sub_diag, skipn_all. reflexivity.
Qed.

Lemma slirp_receive_input_framed len0 stack (pkt more : list Byte.byte) :
  (List.length pkt <= 1516)%nat ->
  slirp_receive_input len0 stack (int_bytes (Z.of_nat (List.length pkt)) ++ pkt ++ more)
  = slirp_input pkt more.
Proof.
  intros Hlen.
  set (n := Z.of_nat (List.length pkt)).
  assert (Hn : int_of_bytes (int_bytes n) = n)
    by (apply int_of_bytes_int_bytes; subst n; lia).
  unfold slirp_receive_input.
  change (int_bytes n ++ pkt ++ more)
    with (nth 0 (int_bytes n) Byte.x00
          :: (skipn 1 (int_bytes n) ++ pkt ++ more)).
  cbv beta iota.
  change (nth 0 (int_bytes n) Byte.x00 :: skipn 1 (int_bytes n) ++ pkt ++ more)
    with (int_bytes n ++ pkt ++ more).
  unfold pipe_read.
  rewrite firstn_app_exact by apply length_int_bytes.
  rewrite skipn_app_exact by apply length_int_bytes.
  rewrite firstn_app_exact by apply length_int_bytes. rewrite Hn.
  destruct (Z.leb_spec 0 n); [| subst n; lia].
  destruct (Z.leb_spec n 1516); [| subst n; lia]. cbn [andb].
  subst n. rewrite Nat2Z.id.
  destruct (pkt ++ more) as [|b rest] eqn:E.
  - apply app_eq_nil in E as [-> ->]. reflexivity.
  - rewrite <- E.
    rewrite (firstn_app_exact (List.length pkt) pkt more) by reflexivity.
    rewrite (skipn_app_exact (List.length pkt) pkt more) by reflexivity.
    rewrite firstn_app_exact by reflexivity. reflexivity.
Qed.

(** On the slirp device the writes of [ether_do_write] put the length of the
    packet and then the packet into the slirp input pipe, and one turn of
    [slirp_receive_func] hands exactly that packet to [slirp_input] and
    leaves what follows it in the pipe.  So packets transmitted one after the
    other reach the slirp library unchanged and in order. *)
Theorem slirp_transmit_round_trip (g : ether_globals)
    (pkts : list (list Byte.byte)) (len0 stack : list Byte.byte) :
  net_if_type g = NET_IF_SLIRP ->
  Forall (fun pkt => (List.length pkt <= 1516)%nat) pkts ->
  let wfd := snd (slirp_input_fds g) in
  let pipe :=
    fold_left (fun pipe pkt => pipe_after_writes wfd (ether_do_write_calls g pkt) pipe)
              pkts [] in
  pipe = flat_map (fun pkt => int_bytes (Z.of_nat (List.length pkt)) ++ pkt) pkts /\
  slirp_receive_inputs (List.length pkts) len0 stack pipe = (pkts, []) /\
  (forall pkt more, (List.length pkt <= 1516)%nat ->
     slirp_receive_input len0 stack
       (pipe_after_writes wfd (ether_do_write_calls g pkt) [] ++ more)
     = slirp_input pkt more).
Proof.
  intros Hif Hall wfd pipe.
  assert (P : forall acc,
             fold_left (fun pipe pkt =>
                          pipe_after_writes wfd (ether_do_write_calls g pkt) pipe)
                       pkts acc
             = acc ++ flat_map (fun pkt => int_bytes (Z.of_nat (List.length pkt)) ++ pkt)
                               pkts).
  { clear Hall pipe. induction pkts as [|pkt pkts IH]; intros acc.
    - cbn. now rewrite app_nil_r.
    - cbn [fold_left flat_map]. rewrite IH. subst wfd.
      rewrite pipe_after_slirp_write by exact Hif.
      now rewrite <- !app_assoc. }
  assert (Hpipe : pipe = flat_map (fun pkt => int_bytes (Z.of_nat (List.length pkt))
                                              ++ pkt) pkts)
    by (subst pipe; now rewrite P).
  split; [exact Hpipe |]. split.
  - rewrite Hpipe. clear P Hpipe pipe.
    induction Hall as [|pkt pkts Hlen _ IH]; [reflexivity |].
    cbn [List.length flat_map slirp_receive_inputs].
    rewrite <- app_assoc, slirp_receive_input_framed by exact Hlen.
    now rewrite IH.
  - intros pkt more Hlen. subst wfd.
    rewrite pipe_after_slirp_write by exact Hif. cbn [app].
    rewrite <- app_assoc. now apply slirp_receive_input_framed.
Qed.

Lemma slirp_transmit_round_trip_witness :
  let pkts := [frame_of_type 2048 46; frame_of_type 2054 28] in
  net_if_type globals_slirp = NET_IF_SLIRP /\
  slirp_receive_inputs 2 [] []
    (fold_left (fun pipe pkt =>
                  pipe_after_writes 8 (ether_do_write_calls globals_slirp pkt) pipe)
               pkts [])
  = (pkts, []).
Proof.
  intros pkts. split; [reflexivity |].
  apply (slirp_transmit_round_trip globals_slirp pkts [] [] eq_refl).
  repeat constructor; vm_compute; lia.
Defined.

Lemma pipe_reads_nil n count : pipe_reads n count [] = [].
Proof. destruct n; reflexivity. Qed.

Lemma fold_slirp_output (fs : list frame) (pipe : list Byte.byte) :
  fold_left slirp_output fs pipe = pipe ++ concat fs.
Proof.
  revert pipe. induction fs as [|f fs IH]; intros pipe; cbn [fold_left concat].
  - now rewrite app_nil_r.
  - rewrite IH. unfold slirp_output, pipe_write. now rewrite <- app_assoc.
Qed.

(** Frames that the slirp library puts out go into the slirp output pipe one
    after the other, with nothing between them, and [ether_do_interrupt]
    reads up to 1514 bytes of the pipe at a time.  When the frames put out
    since the last interrupt are 14 to 1514 bytes together, the interrupt
    handles them as one packet: a single frame put out alone is received as
    it is, several are received joined. *)
Theorem slirp_output_received (packet ether_data ed_RHA ed_ReadPacket : Z)
    (g : ether_globals) (fs : list frame) :
  (14 <= List.length (concat fs) <= 1514)%nat ->
  let pipe := fold_left slirp_output fs [] in
  pipe = concat fs /\
  slirp_pending pipe = [concat fs] /\
  ether_do_interrupt packet ether_data ed_RHA ed_ReadPacket g (slirp_pending pipe)
  = (frame_events packet ether_data ed_RHA ed_ReadPacket g (concat fs), []).
Proof.
  intros Hlen pipe.
  assert (Hpipe : pipe = concat fs) by (subst pipe; apply fold_slirp_output).
  assert (Hpend : slirp_pending pipe = [concat fs]).
  { rewrite Hpipe. unfold slirp_pending.
    destruct (concat fs) as [|b rest] eqn:E; [cbn in Hlen; lia |].
    cbn [List.length pipe_reads]. unfold pipe_read.
    rewrite firstn_all2 by lia. rewrite skipn_all2 by lia.
    now rewrite pipe_reads_nil. }
  split; [exact Hpipe |]. split; [exact Hpend |].
  rewrite Hpend, do_interrupt_long by lia.
  cbn [ether_do_interrupt fst snd]. rewrite app_nil_r.
  now rewrite firstn_all2 by lia.
Qed.

Lemma slirp_output_received_witness :
  let f1 := frame_of_type 2048 46 in
  let f2 := frame_of_type 2054 28 in
  (14 <= List.length (concat [f1; f2]) <= 1514)%nat /\
  dispatched
    (fst (ether_do_interrupt 65536 131072 256 512 globals_with_handlers
            (slirp_pending (fold_left slirp_output [f1; f2] [])))) = 1%nat.
Proof.
  intros f1 f2.
  assert (H : (14 <= List.length (concat [f1; f2]) <= 1514)%nat)
    by (vm_compute; lia).
  split; [exact H |].
  destruct (slirp_output_received 65536 131072 256 512 globals_with_handlers
              [f1; f2] H) as (_ & _ & E).
  rewrite E. reflexivity.
Defined.

(** ** Multicast addresses *)

(** Adding a multicast address fails, with [eMultiErr], only on the
    sheep_net device when the [ioctl] fails; on the ethertap device a failed
    [ioctl] still gives [noErr].  Removing one fails on both devices when the
    [ioctl] fails.  On every other device both give [noErr] whatever the
    host would answer. *)
Theorem multicast_results (sys_ioctl : Z -> ioctl_request -> list Byte.byte -> Z)
    (g : ether_globals) (addr : list Byte.byte) :
  (ether_add_multicast sys_ioctl g addr = eMultiErr <->
   net_if_type g = NET_IF_SHEEPNET /\ sys_ioctl (fd g) SIOCADDMULTI addr < 0) /\
  (ether_add_multicast sys_ioctl g addr <> eMultiErr ->
   ether_add_multicast sys_ioctl g addr = noErr) /\
  (ether_del_multicast sys_ioctl g addr = eMultiErr <->
   (net_if_type g = NET_IF_ETHERTAP \/ net_if_type g = NET_IF_SHEEPNET) /\
   sys_ioctl (fd g) SIOCDELMULTI addr < 0) /\
  (ether_del_multicast sys_ioctl g addr <> eMultiErr ->
   ether_del_multicast sys_ioctl g addr = noErr) /\
  (net_if_type g <> NET_IF_ETHERTAP -> net_if_type g <> NET_IF_SHEEPNET ->
   forall other_ioctl,
     ether_add_multicast other_ioctl g addr = noErr /\
     ether_del_multicast other_ioctl g addr = noErr).
Proof.
  unfold ether_add_multicast, ether_del_multicast, ether_do_add_multicast,
    ether_do_del_multicast, NET_IF_ETHERTAP, NET_IF_SHEEPNET, eMultiErr, noErr.
  destruct (Z.eqb_spec (net_if_type g) 1) as [E1|E1];
    destruct (Z.eqb_spec (net_if_type g) 0) as [E0|E0]; cbn [orb];
    destruct (Z.ltb_spec (sys_ioctl (fd g) SIOCADDMULTI addr) 0);
    destruct (Z.ltb_spec (sys_ioctl (fd g) SIOCDELMULTI addr) 0);
    repeat split; intros; try lia; try discriminate; try tauto;
    try (destruct (Z.eqb_spec (net_if_type g) 1); [lia |]);
    try (destruct (Z.eqb_spec (net_if_type g) 0); [lia |]);
    try reflexivity; try lia.
Qed.

(** ** Port forwarding rules *)

Section RuleTextProperties.

Local Open Scope string_scope.

Lemma strchr_split_app (a b : string) (sep : ascii) :
  no_char sep a = true -> strchr_split (a ++ String sep b) sep = Some (a, b).
Proof.
  unfold no_char. induction a as [|c a IH]; intros H.
  - change ("" ++ String sep b) with (String sep b).
    cbn [strchr_split]. now rewrite Ascii.eqb_refl.
  - change (String c a ++ String sep b) with (String c (a ++ String sep b)).
    cbn [strchr_split] in H |- *.
    destruct (Ascii.eqb c sep); [discriminate |].
    destruct (strchr_split a sep) as [[? ?]|]; [discriminate |].
    now rewrite IH.
Qed.

Lemma strchr_split_Some (s a b : string) (sep : ascii) :
  strchr_split s sep = Some (a, b) ->
  s = a ++ String sep b /\ no_char sep a = true.
Proof.
  unfold no_char. revert a. induction s as [|c s IH]; cbn [strchr_split]; intros a H.
  - discriminate.
  - destruct (Ascii.eqb_spec c sep) as [->|Hne].
    + inversion H; subst. split; reflexivity.
    + destruct (strchr_split s sep) as [[a' b']|] eqn:E; [| discriminate].
      inversion H; subst. destruct (IH a' eq_refl) as (-> & Hn).
      split; [reflexivity |]. cbn [strchr_split].
      destruct (Ascii.eqb_spec c sep); [contradiction |].
      destruct (strchr_split a' sep) as [[? ?]|]; [discriminate | reflexivity].
Qed.

Lemma substring_0_all (n : nat) (a : string) :
  (String.length a <= n)%nat -> substring 0 n a = a.
Proof.
  revert n. induction a as [|c a IH]; intros n H.
  - destruct n; reflexivity.
  - destruct n as [|n]; [cbn in H; lia |]. cbn. f_equal. apply IH. cbn in H. lia.
Qed.

Lemma length_substring_0 (n : nat) (a : string) :
  String.length (substring 0 n a) = Nat.min n (String.length a).
Proof.
  revert n. induction a as [|c a IH]; intros n.
  - destruct n; reflexivity.
  - destruct n as [|n]; [reflexivity |]. cbn. now rewrite IH.
Qed.

Lemma get_str_sep_found (buf : string) (buf_size : nat) (a b : string) (sep : ascii) :
  no_char sep a = true ->
  get_str_sep buf buf_size (a ++ String sep b) sep
  = (0%Z,
     if (0 <? buf_size)%nat
     then substring 0 (Nat.min (String.length a) (buf_size - 1)) a else buf,
     b).
Proof.
  intros Ha. unfold get_str_sep. rewrite strchr_split_app by exact Ha.
  destruct (Nat.ltb_spec 0 buf_size); [| reflexivity].
  destruct (Nat.ltb_spec (buf_size - 1) (String.length a)).
  - now rewrite Nat.min_r by lia.
  - now rewrite Nat.min_l by lia.
Qed.

Lemma get_str_sep_not_found (buf : string) (buf_size : nat) (p : string) (sep : ascii) :
  strchr_split p sep = None -> get_str_sep buf buf_size p sep = (-1, buf, p)%Z.
Proof. intros E. unfold get_str_sep. now rewrite E. Qed.


End RuleTextProperties.

Section DecimalProperties.

Local Open Scope string_scope.

Lemma digit_cases (d : Z) :
  (0 <= d < 10)%Z ->
  In d [0; 1; 2; 3; 4; 5; 6; 7; 8; 9]%Z.
Proof. intros H. cbn. lia. Qed.

Lemma digit_value_decimal_digit (d : Z) :
  (0 <= d < 10)%Z -> digit_value (decimal_digit d) = Some d.
Proof.
  intros H. apply digit_cases in H. cbn in H.
  repeat (destruct H as [<-|H]; [reflexivity |]). destruct H.
Qed.

Lemma decimal_digit_not_colon (d : Z) :
  (0 <= d < 10)%Z -> Ascii.eqb (decimal_digit d) ":" = false.
Proof.
  intros H. apply digit_cases in H. cbn in H.
  repeat (destruct H as [<-|H]; [reflexivity |]). destruct H.
Qed.

Lemma strtol_digits_decimal (fuel : nat) :
  forall (n : Z) (acc : string) (any : bool),
    (1 <= fuel)%nat -> (0 <= n < 10 ^ Z.of_nat fuel)%Z ->
    strtol_digits 10 0 any (decimal_digits fuel n acc) = strtol_digits 10 n true acc.
Proof.
  induction fuel as [|fuel IH]; intros n acc any Hf Hn; [lia |].
  assert (Hd : (0 <= n mod 10 < 10)%Z) by (apply Z.mod_pos_bound; lia).
  assert (Step : forall a b,
             strtol_digits 10 a b (String (decimal_digit (n mod 10)) acc)
             = strtol_digits 10 (a * 10 + n mod 10) true acc).
  { intros a b. cbn [strtol_digits]. rewrite digit_value_decimal_digit by exact Hd.
    destruct (Z.ltb_spec (n mod 10) 10); [reflexivity | lia]. }
  cbn [decimal_digits].
  destruct (Z.eqb_spec (n / 10) 0) as [E|E].
  - rewrite Step. f_equal. Z.div_mod_to_equations. lia.
  - assert (Hq : (1 <= n / 10 < 10 ^ Z.of_nat fuel)%Z).
    { rewrite Nat2Z.inj_succ, Z.pow_succ_r in Hn by lia.
      Z.div_mod_to_equations. lia. }
    assert (Hfuel : (1 <= fuel)%nat).
    { destruct fuel; [cbn in Hq; lia | lia]. }
    rewrite IH by (try exact Hfuel; lia).
    rewrite Step. f_equal. Z.div_mod_to_equations. lia.
Qed.

Lemma decimal_digits_head (fuel : nat) :
  forall (n : Z) (acc : string),
    (1 <= n < 10 ^ Z.of_nat fuel)%Z ->
    exists d rest, (1 <= d <= 9)%Z /\
                   decimal_digits fuel n acc = String (decimal_digit d) rest.
Proof.
  induction fuel as [|fuel IH]; intros n acc Hn; [cbn in Hn; lia |].
  cbn [decimal_digits].
  destruct (Z.eqb_spec (n / 10) 0) as [E|E].
  - exists (n mod 10), acc. split; [| reflexivity]. Z.div_mod_to_equations. lia.
  - apply IH. rewrite Nat2Z.inj_succ, Z.pow_succ_r in Hn by lia.
    Z.div_mod_to_equations. lia.
Qed.

Lemma no_char_decimal_digits (fuel : nat) :
  forall (n : Z) (acc : string),
    no_char ":" acc = true -> no_char ":" (decimal_digits fuel n acc) = true.
Proof.
  induction fuel as [|fuel IH]; intros n acc Hacc; [exact Hacc |].
  assert (Hd : (0 <= n mod 10 < 10)%Z) by (apply Z.mod_pos_bound; lia).
  assert (Hacc' : no_char ":" (String (decimal_digit (n mod 10)) acc) = true).
  { unfold no_char in *. cbn [strchr_split].
    rewrite decimal_digit_not_colon by exact Hd.
    destruct (strchr_split acc ":") as [[? ?]|]; [discriminate | reflexivity]. }
  cbn [decimal_digits]. destruct (n / 10 =? 0)%Z; [exact Hacc' | now apply IH].
Qed.

Lemma length_decimal_digits (fuel : nat) :
  forall (n : Z) (acc : string),
    (String.length (decimal_digits fuel n acc) <= fuel + String.length acc)%nat.
Proof.
  induction fuel as [|fuel IH]; intros n acc; [cbn; lia |].
  cbn [decimal_digits]. destruct (n / 10 =? 0)%Z.
  - cbn. lia.
  - etransitivity; [apply IH |]. cbn. lia.
Qed.

Lemma strtol_leading_digit (d : Z) (rest : string) :
  (1 <= d <= 9)%Z ->
  strtol (String (decimal_digit d) rest)
  = let '(acc, any, r) := strtol_digits 10 0 false (String (decimal_digit d) rest) in
    if any then (Z.max LONG_MIN (Z.min LONG_MAX acc), r)
    else (0%Z, String (decimal_digit d) rest).
Proof.
  intros H.
  assert (H' : In d [1; 2; 3; 4; 5; 6; 7; 8; 9]%Z) by (cbn; lia).
  cbn in H'. repeat (destruct H' as [<-|H']; [reflexivity |]). destruct H'.
Qed.

(** A port written in decimal is read back by [strtol] as the same number,
    to the end of the text. *)
Lemma strtol_decimal (n : Z) :
  (1 <= n <= 65535)%Z -> strtol (decimal n) = (n, "").
Proof.
  intros Hn. unfold decimal.
  assert (Hb : (1 <= n < 10 ^ Z.of_nat 20)%Z)
    by (change (10 ^ Z.of_nat 20)%Z with 100000000000000000000%Z; lia).
  destruct (decimal_digits_head 20 n "" Hb) as (d & rest & Hd & E).
  rewrite E, strtol_leading_digit by exact Hd. rewrite <- E.
  rewrite strtol_digits_decimal by lia. cbn [strtol_digits].
  unfold LONG_MAX, LONG_MIN. f_equal. lia.
Qed.

End DecimalProperties.

Section RuleProperties.

Local Open Scope string_scope.

Variable CTL_LOCAL : string.
Variable inet_aton : string -> option Z.
Variable slirp_state : Type.
Variable slirp_redir : slirp_state -> Z -> Z -> Z -> Z -> Z * slirp_state.

Lemma get_str_sep_split (buf a b : string) :
  no_char ":" a = true -> (String.length a < 256)%nat ->
  get_str_sep buf 256 (a ++ String ":" b) ":" = (0%Z, a, b).
Proof.
  intros Ha Hl. rewrite get_str_sep_found by exact Ha.
  change (0 <? 256)%nat with true. cbv iota.
  rewrite Nat.min_l by lia. now rewrite substring_0_all.
Qed.

Lemma int32_small (v : Z) : (-2147483648 <= v < 2147483648)%Z -> int32 v = v.
Proof. intros H. unfold int32. rewrite Z.mod_small by lia. lia. Qed.

Lemma port_text (buf : string) (n : Z) (b : string) :
  (1 <= n <= 65535)%Z ->
  get_str_sep buf 256 (decimal n ++ String ":" b) ":" = (0%Z, decimal n, b) /\
  strtol (decimal n) = (n, "") /\ int32 n = n /\
  (n <? 1)%Z = false /\ (n >? 65535)%Z = false.
Proof.
  intros Hn. split; [| split; [| split; [| split]]].
  - apply get_str_sep_split.
    + now apply no_char_decimal_digits.
    + pose proof (length_decimal_digits 20 n ""). unfold decimal. cbn in *. lia.
  - now apply strtol_decimal.
  - apply int32_small. lia.
  - lia.
  - lia.
Qed.

(** A rule written as [<proto>:<host_port>:<guest_address>:<guest_port>]
    with the protocol [tcp], [udp] or empty, both ports from 1 to 65535 in
    decimal, and a guest address without a colon, shorter than 256
    characters, that [inet_aton] accepts (for an empty address: that it
    accepts [CTL_LOCAL]) is parsed into exactly these values; the protocol
    is udp only for [udp]. *)
Theorem redir_text_parsed (proto addr : string) (hp gp a : Z) :
  proto = "tcp" \/ proto = "udp" \/ proto = "" ->
  (1 <= hp <= 65535)%Z -> (1 <= gp <= 65535)%Z ->
  no_char ":" addr = true -> (String.length addr < 256)%nat ->
  (if String.eqb addr "" then inet_aton CTL_LOCAL else inet_aton addr) = Some a ->
  redir_parse CTL_LOCAL inet_aton (redir_text proto hp addr gp)
  = Some {| is_udp := if String.eqb proto "udp" then 1 else 0;
            host_port := hp; guest_addr := a; guest_port := gp |}.
Proof.
  intros Hproto Hhp Hgp Hc Hl Ha.
  destruct (port_text proto hp (addr ++ String ":" (decimal gp)) Hhp)
    as (G2 & S2 & I2 & L2 & U2).
  destruct (port_text "" gp "" Hgp) as (_ & S4 & I4 & L4 & U4).
  pose proof (get_str_sep_split (decimal hp) addr (decimal gp) Hc Hl) as G3.
  assert (G1 : get_str_sep "" 256 (redir_text proto hp addr gp) ":"
               = (0%Z, proto, decimal hp ++ String ":" (addr ++ String ":" (decimal gp)))).
  { change (redir_text proto hp addr gp)
      with (proto ++ String ":" (decimal hp ++ String ":" (addr ++ String ":" (decimal gp)))).
    apply get_str_sep_split;
      destruct Hproto as [->|[->| ->]]; try reflexivity; cbn; lia. }
  unfold redir_parse. rewrite G1. cbv beta iota zeta.
  change (0 <? 0)%Z with false. cbv iota.
  assert (U : (if String.eqb proto "tcp" || String.eqb proto ""
               then Some 0%Z
               else if String.eqb proto "udp" then Some 1%Z else None)
              = Some (if String.eqb proto "udp" then 1 else 0)%Z)
    by (destruct Hproto as [->|[->| ->]]; reflexivity).
  rewrite U. rewrite G2. cbv beta iota zeta.
  change (0 <? 0)%Z with false. cbv iota.
  rewrite S2. cbv beta iota zeta. rewrite I2, L2, U2.
  change (negb (String.eqb "" "")) with false. cbv iota. cbn [orb].
  rewrite G3. cbv beta iota zeta.
  change (0 <? 0)%Z with false. cbv iota.
  rewrite Ha. rewrite S4. cbv beta iota zeta. rewrite I4, L4, U4.
  change (negb (String.eqb "" "")) with false. cbn [orb]. reflexivity.
Qed.

Lemma get_str_sep_inv (buf p b p' : string) (r : Z) :
  get_str_sep buf 256 p ":" = (r, b, p') -> (r <? 0)%Z = false ->
  exists a, p = a ++ String ":" p' /\ no_char ":" a = true /\
            b = substring 0 255 a.
Proof.
  intros G Hr.
  destruct (strchr_split p ":") as [[a q]|] eqn:E.
  - apply strchr_split_Some in E as (-> & Ha).
    rewrite get_str_sep_found in G by exact Ha. inversion G; subst.
    exists a. split; [reflexivity |]. split; [exact Ha |].
    change (0 <? 256)%nat with true. cbv iota.
    destruct (Nat.le_ge_cases (String.length a) 255).
    + rewrite Nat.min_l by lia. now rewrite !substring_0_all by lia.
    + now rewrite Nat.min_r by lia.
  - rewrite get_str_sep_not_found in G by exact E. inversion G; subst.
    discriminate.
Qed.

Lemma substring_255_short (a s : string) :
  substring 0 255 a = s -> (String.length s < 255)%nat -> a = s.
Proof.
  intros E Hl. pose proof (length_substring_0 255 a) as Hlen.
  rewrite E in Hlen. rewrite <- E. symmetry. apply substring_0_all. lia.
Qed.

(** A rule that is accepted has at least three colons; the text before the
    first is [tcp], [udp] or empty and decides the protocol.  The host port
    is what [strtol] reads from the second field cut to its first 255
    characters, reduced to the 32 bits of an [int]; the guest port is what
    [strtol] reads from the text after the third colon, reduced likewise;
    in both cases [strtol] reads the text to its end, and the port is from
    1 to 65535.  The guest address is what [inet_aton] gives for the third
    field cut to its first 255 characters, or for [CTL_LOCAL] when that
    field is empty. *)
Theorem redir_parse_sound (redir_str : string) (r : redir_rule) :
  redir_parse CTL_LOCAL inet_aton redir_str = Some r ->
  (1 <= host_port r <= 65535)%Z /\ (1 <= guest_port r <= 65535)%Z /\
  exists proto hp addr gp : string,
    redir_str = proto ++ String ":" (hp ++ String ":" (addr ++ String ":" gp)) /\
    no_char ":" proto = true /\ no_char ":" hp = true /\ no_char ":" addr = true /\
    ((proto = "tcp" \/ proto = "") /\ is_udp r = 0%Z \/
     proto = "udp" /\ is_udp r = 1%Z) /\
    strtol (substring 0 255 hp) = (fst (strtol (substring 0 255 hp)), "") /\
    int32 (fst (strtol (substring 0 255 hp))) = host_port r /\
    strtol gp = (fst (strtol gp), "") /\
    int32 (fst (strtol gp)) = guest_port r /\
    inet_aton (if String.eqb addr "" then CTL_LOCAL else substring 0 255 addr)
    = Some (guest_addr r).
Proof.
  intros H. unfold redir_parse in H.
  destruct (get_str_sep "" 256 redir_str ":") as [[r1 b1] p1] eqn:G1.
  destruct (r1 <? 0)%Z eqn:R1; [discriminate |].
  destruct (get_str_sep_inv _ _ _ _ _ G1 R1) as (proto & -> & Hproto & Hb1).
  destruct (if String.eqb b1 "tcp" || String.eqb b1 ""
            then Some 0%Z else if String.eqb b1 "udp" then Some 1%Z else None)
    as [u|] eqn:U; [| discriminate].
  destruct (get_str_sep b1 256 p1 ":") as [[r2 b2] p2] eqn:G2.
  destruct (r2 <? 0)%Z eqn:R2; [discriminate |].
  destruct (get_str_sep_inv _ _ _ _ _ G2 R2) as (hp & -> & Hhp & Hb2).
  destruct (strtol b2) as [v2 e2] eqn:S2.
  destruct (negb (String.eqb e2 "") || (int32 v2 <? 1)%Z || (int32 v2 >? 65535)%Z)
    eqn:C2; [discriminate |].
  destruct (get_str_sep b2 256 p2 ":") as [[r3 b3] p3] eqn:G3.
  destruct (r3 <? 0)%Z eqn:R3; [discriminate |].
  destruct (get_str_sep_inv _ _ _ _ _ G3 R3) as (addr & -> & Haddr & Hb3).
  destruct (if String.eqb b3 "" then inet_aton CTL_LOCAL else inet_aton b3)
    as [ga|] eqn:A; [| discriminate].
  destruct (strtol p3) as [v4 e4] eqn:S4.
  destruct (negb (String.eqb e4 "") || (int32 v4 <? 1)%Z || (int32 v4 >? 65535)%Z)
    eqn:C4; [discriminate |].
  inversion H; subst r; clear H. cbn [is_udp host_port guest_port guest_addr].
  apply orb_false_elim in C2 as (C2 & C2c). apply orb_false_elim in C2 as (C2a & C2b).
  apply orb_false_elim in C4 as (C4 & C4c). apply orb_false_elim in C4 as (C4a & C4b).
  apply negb_false_iff, String.eqb_eq in C2a, C4a. subst e2 e4.
  split; [lia |]. split; [lia |].
  exists proto, hp, addr, p3.
  split; [reflexivity |]. split; [exact Hproto |]. split; [exact Hhp |].
  split; [exact Haddr |].
  split.
  { destruct (String.eqb_spec b1 "tcp") as [E|_].
    - inversion U; subst u. left. split; [| reflexivity]. left.
      apply substring_255_short; [congruence | cbn; lia].
    - destruct (String.eqb_spec b1 "") as [E|_].
      + inversion U; subst u. left. split; [| reflexivity]. right.
        apply substring_255_short; [congruence | cbn; lia].
      + destruct (String.eqb_spec b1 "udp") as [E|_]; [| discriminate].
        inversion U; subst u. right. split; [| reflexivity].
        apply substring_255_short; [congruence | cbn; lia]. }
  rewrite <- Hb2, S2, S4. cbn [fst].
  split; [reflexivity |]. split; [reflexivity |].
  split; [reflexivity |]. split; [reflexivity |].
  rewrite <- A, Hb3.
  destruct (String.eqb_spec (substring 0 255 addr) "") as [E|E].
  - assert (addr = "") as -> by (apply substring_255_short; [exact E | cbn; lia]).
    reflexivity.
  - destruct (String.eqb_spec addr "") as [->|_]; [exfalso; now apply E | reflexivity].
Qed.

Lemma slirp_add_redir_events (str : string) (sl : slirp_state) (res : Z)
    (evs : list event) (sl' : slirp_state) :
  slirp_add_redir CTL_LOCAL inet_aton slirp_state slirp_redir str sl
  = Some (res, evs, sl') ->
  res = 0%Z /\ evs = [] \/
  res = (-1)%Z /\
  exists text, evs = [WarningAlert text] /\ (String.length text < 256)%nat.
Proof.
  unfold slirp_add_redir, sprintf.
  destruct (redir_parse CTL_LOCAL inet_aton str) as [r|].
  - destruct (slirp_redir sl _ _ _ _) as [res0 sl0].
    destruct (res0 <? 0)%Z.
    + destruct (Nat.ltb_spec (String.length
                  ("could not set up host forwarding rule '" ++ str ++ "'")) 256);
        [| discriminate].
      intros [= <- <- _]. right. split; [reflexivity |]. eauto.
    + intros [= <- <- _]. left. split; reflexivity.
  - destruct (Nat.ltb_spec (String.length
                ("invalid host forwarding rule '" ++ str ++ "'")) 256);
      [| discriminate].
    intros [= <- <- _]. right. split; [reflexivity |]. eauto.
Qed.

Lemma slirp_add_redir_defined (str : string) (sl : slirp_state) :
  (String.length str < 216)%nat ->
  is_Some (slirp_add_redir CTL_LOCAL inet_aton slirp_state slirp_redir str sl).
Proof.
  intros Hl. unfold slirp_add_redir.
  rewrite sprintf_invalid_rule, sprintf_could_not_set_up.
  destruct (Nat.ltb_spec (String.length str) 225); [| lia].
  destruct (Nat.ltb_spec (String.length str) 216); [| lia].
  destruct (redir_parse CTL_LOCAL inet_aton str) as [r|]; [| eauto].
  destruct (slirp_redir sl _ _ _ _) as [res0 sl0].
  destruct (res0 <? 0)%Z; eauto.
Qed.

Lemma slirp_add_redirs_defined (redirs : list string) (sl : slirp_state) :
  Forall (fun s => (String.length s < 216)%nat) redirs ->
  is_Some (slirp_add_redirs CTL_LOCAL inet_aton slirp_state slirp_redir redirs sl).
Proof.
  intros H. revert sl. induction H as [|str rest Hs _ IH]; intros sl.
  - cbn. eauto.
  - rewrite slirp_add_redirs_cons.
    destruct (slirp_add_redir_defined str sl Hs) as [[[res evs] sl'] ->].
    destruct (IH sl') as [[evs' sl''] ->]. eauto.
Qed.

Lemma slirp_add_redirs_events (redirs : list string) (sl : slirp_state)
    (evs : list event) (sl' : slirp_state) :
  slirp_add_redirs CTL_LOCAL inet_aton slirp_state slirp_redir redirs sl
  = Some (evs, sl') ->
  (List.length evs <= List.length redirs)%nat /\
  Forall (fun e => exists text,
            e = WarningAlert text /\ (String.length text < 256)%nat) evs.
Proof.
  revert sl evs sl'. induction redirs as [|str rest IH]; intros sl evs sl'.
  - intros [= <- _]. split; [cbn; lia | constructor].
  - rewrite slirp_add_redirs_cons.
    destruct (slirp_add_redir CTL_LOCAL inet_aton slirp_state slirp_redir str sl)
      as [[[res evs1] sl1]|] eqn:E1; [| discriminate].
    destruct (slirp_add_redirs CTL_LOCAL inet_aton slirp_state slirp_redir rest sl1)
      as [[evs2 sl2]|] eqn:E2; [| discriminate].
    intros [= <- _]. destruct (IH _ _ _ E2) as (Hlen & Hall).
    rewrite length_app. cbn [List.length].
    destruct (slirp_add_redir_events _ _ _ _ _ E1)
      as [(_ & ->)|(_ & text & -> & Ht)].
    + split; [cbn; lia | exact Hall].
    + split; [cbn; lia |]. constructor; [eauto | exact Hall].
Qed.

(** [slirp_add_redir] has a defined result unless its warning does not fit
    [char str[256]], which is exactly for a rule of 225 characters or more
    that does not parse and for a rule of 216 characters or more that parses
    and is refused by [slirp_redir].  When it returns, it returns 0 without
    a warning or -1 with exactly one, of fewer than 256 characters; it
    returns 0 exactly when the rule parses and [slirp_redir] does not fail
    on it; a rule that does not parse leaves the slirp library untouched.
    [slirp_add_redirs] returns for every list of rules shorter than 216
    characters, and when it returns it has raised warnings only, at most one
    for each rule. *)
Theorem slirp_add_redir_outcome (redir_str : string) (sl : slirp_state) :
  let out := slirp_add_redir CTL_LOCAL inet_aton slirp_state slirp_redir redir_str sl in
  let refused r :=
    (fst (slirp_redir sl (is_udp r) (host_port r) (guest_addr r) (guest_port r))
       <? 0)%Z in
  (out = None <->
   redir_parse CTL_LOCAL inet_aton redir_str = None /\
   (225 <= String.length redir_str)%nat \/
   exists r, redir_parse CTL_LOCAL inet_aton redir_str = Some r /\
             refused r = true /\ (216 <= String.length redir_str)%nat) /\
  (forall res evs sl', out = Some (res, evs, sl') ->
     (res = 0%Z /\ evs = [] \/
      res = (-1)%Z /\
      exists text, evs = [WarningAlert text] /\ (String.length text < 256)%nat) /\
     (res = 0%Z <->
      exists r, redir_parse CTL_LOCAL inet_aton redir_str = Some r /\
                refused r = false) /\
     (redir_parse CTL_LOCAL inet_aton redir_str = None -> sl' = sl)) /\
  (forall redirs sl0,
     let run := slirp_add_redirs CTL_LOCAL inet_aton slirp_state slirp_redir in
     (Forall (fun s => (String.length s < 216)%nat) redirs ->
      is_Some (run redirs sl0)) /\
     (forall evs sl', run redirs sl0 = Some (evs, sl') ->
        (List.length evs <= List.length redirs)%nat /\
        Forall (fun e => exists text,
                  e = WarningAlert text /\ (String.length text < 256)%nat) evs)).
Proof.
  cbv zeta. split; [| split].
  - unfold slirp_add_redir.
    rewrite sprintf_invalid_rule, sprintf_could_not_set_up.
    destruct (redir_parse CTL_LOCAL inet_aton redir_str) as [r|].
    + destruct (slirp_redir sl (is_udp r) (host_port r) (guest_addr r) (guest_port r))
        as [res0 sl0] eqn:E.
      destruct (res0 <? 0)%Z eqn:R.
      * destruct (Nat.ltb_spec (String.length redir_str) 216); split.
        -- discriminate.
        -- intros [(Hn & _)|(r' & _ & _ & Hl)]; [discriminate | lia].
        -- intros _. right. exists r. rewrite E. cbn [fst]. repeat split; assumption.
        -- reflexivity.
      * split; [discriminate |].
        intros [(Hn & _)|(r' & [= <-] & Hr & _)]; [discriminate |].
        rewrite E in Hr. cbn [fst] in Hr. congruence.
    + destruct (Nat.ltb_spec (String.length redir_str) 225); split.
      * discriminate.
      * intros [(_ & Hl)|(r' & Hn & _)]; [lia | discriminate].
      * intros _. left. split; [reflexivity | assumption].
      * reflexivity.
  - intros res evs sl' Hout.
    split; [exact (slirp_add_redir_events _ _ _ _ _ Hout) |].
    split.
    + unfold slirp_add_redir in Hout.
      destruct (redir_parse CTL_LOCAL inet_aton redir_str) as [r|].
      * destruct (slirp_redir sl (is_udp r) (host_port r) (guest_addr r) (guest_port r))
          as [res0 sl0] eqn:E.
        destruct (res0 <? 0)%Z eqn:R.
        -- destruct (sprintf 256 _ redir_str _); [| discriminate].
           injection Hout as <- _ _. split; [discriminate |].
           intros (r' & [= <-] & Hr). rewrite E in Hr. cbn [fst] in Hr. congruence.
        -- injection Hout as <- _ _. split; [| reflexivity].
           intros _. exists r. rewrite E. split; [reflexivity | exact R].
      * destruct (sprintf 256 _ redir_str _); [| discriminate].
        injection Hout as <- _ _. split; [discriminate |].
        intros (r' & Hn & _). discriminate.
    + intros Hn.
      exact (slirp_add_redir_unparsed _ _ _ _ _ _ _ _ _ Hn Hout).
  - intros redirs sl0. split.
    + apply slirp_add_redirs_defined.
    + intros evs sl'. apply slirp_add_redirs_events.
Qed.

(** [slirp_add_redirs] handles every rule of the list.  A malformed rule of
    up to 224 characters anywhere in the list gives its warning and nothing
    else: the rules before it and after it are handled as if it were not
    there, the slirp library ends up having been given every rule of the
    list that parses, in order, and the loop returns when the other rules
    are shorter than 216 characters. *)
Theorem slirp_add_redirs_skips_malformed (l1 l2 : list string) (bad : string)
    (sl : slirp_state) :
  redir_parse CTL_LOCAL inet_aton bad = None -> (String.length bad < 225)%nat ->
  let run := slirp_add_redirs CTL_LOCAL inet_aton slirp_state slirp_redir in
  let parsed := omap (redir_parse CTL_LOCAL inet_aton) in
  let installed := fold_left (install slirp_state slirp_redir) in
  run (l1 ++ bad :: l2)%list sl =
    match run l1 sl with
    | Some (evs1, sl1) =>
        match run l2 sl1 with
        | Some (evs2, sl2) =>
            Some ((evs1 ++ [invalid_rule_warning bad] ++ evs2)%list, sl2)
        | None => None
        end
    | None => None
    end /\
  snd <$> run (l1 ++ bad :: l2)%list sl = snd <$> run (l1 ++ l2)%list sl /\
  (forall evs sl', run (l1 ++ bad :: l2)%list sl = Some (evs, sl') ->
     sl' = installed (parsed (l1 ++ l2)%list) sl) /\
  (Forall (fun s => (String.length s < 216)%nat) (l1 ++ l2)%list ->
   is_Some (run (l1 ++ bad :: l2)%list sl)).
Proof.
  intros Hbad Hlen run parsed installed. subst run parsed installed.
  assert (A : slirp_add_redirs CTL_LOCAL inet_aton slirp_state slirp_redir
                (l1 ++ bad :: l2)%list sl =
    match slirp_add_redirs CTL_LOCAL inet_aton slirp_state slirp_redir l1 sl with
    | Some (evs1, sl1) =>
        match slirp_add_redirs CTL_LOCAL inet_aton slirp_state slirp_redir l2 sl1 with
        | Some (evs2, sl2) =>
            Some ((evs1 ++ [invalid_rule_warning bad] ++ evs2)%list, sl2)
        | None => None
        end
    | None => None
    end).
  { rewrite slirp_add_redirs_app.
    destruct (slirp_add_redirs _ _ _ _ l1 sl) as [[evs1 sl1]|]; [| reflexivity].
    rewrite slirp_add_redirs_cons.
    rewrite (slirp_add_redir_malformed _ _ _ _ bad sl1 Hbad Hlen).
    now destruct (slirp_add_redirs _ _ _ _ l2 sl1) as [[evs2 sl2]|]. }
  assert (B : snd <$> slirp_add_redirs CTL_LOCAL inet_aton slirp_state slirp_redir
                        (l1 ++ bad :: l2)%list sl
              = snd <$> slirp_add_redirs CTL_LOCAL inet_aton slirp_state slirp_redir
                          (l1 ++ l2)%list sl).
  { rewrite A, slirp_add_redirs_app.
    destruct (slirp_add_redirs _ _ _ _ l1 sl) as [[evs1 sl1]|]; [| reflexivity].
    now destruct (slirp_add_redirs _ _ _ _ l2 sl1) as [[evs2 sl2]|]. }
  split; [exact A |]. split; [exact B |]. split.
  - intros evs sl' E. rewrite E in B. cbn in B.
    destruct (slirp_add_redirs _ _ _ _ (l1 ++ l2)%list sl) as [[evs0 sl0]|] eqn:E0;
      [| discriminate].
    cbn in B. injection B as ->.
    exact (slirp_add_redirs_state _ _ _ _ _ _ _ _ E0).
  - intros Hall.
    destruct (slirp_add_redirs_defined (l1 ++ l2)%list sl Hall) as [[evs0 sl0] E0].
    rewrite E0 in B. cbn in B.
    destruct (slirp_add_redirs _ _ _ _ (l1 ++ bad :: l2)%list sl) as [x|];
      [eauto | discriminate].
Qed.


End RuleProperties.

Lemma slirp_add_redirs_skips_malformed_witness :
  redir_parse "10.0.2.15"%string inet_aton_dotted "bogus"%string = None /\
  (String.length "bogus" < 225)%nat /\
  snd <$> slirp_add_redirs "10.0.2.15" inet_aton_dotted (list redir_rule)
            recording_redir
            (["tcp:8080::80"%string] ++ "bogus"%string :: ["udp:5353:10.0.2.3:53"%string])
            []
  = snd <$> slirp_add_redirs "10.0.2.15" inet_aton_dotted (list redir_rule)
              recording_redir
              (["tcp:8080::80"%string] ++ ["udp:5353:10.0.2.3:53"%string]) [].
Proof.
  assert (Hl : (String.length "bogus" < 225)%nat) by (cbn; lia).
  split; [reflexivity |]. split; [exact Hl |].
  apply (slirp_add_redirs_skips_malformed "10.0.2.15" inet_aton_dotted
           (list redir_rule) recording_redir
           ["tcp:8080::80"%string] ["udp:5353:10.0.2.3:53"%string] "bogus" []
           eq_refl Hl).
Defined.


Lemma redir_text_parsed_witness :
  redir_parse "10.0.2.15" inet_aton_dotted
    (redir_text "udp" 5353 "10.0.2.3" 53)
  = Some {| is_udp := 1; host_port := 5353; guest_addr := 167772675;
            guest_port := 53 |}.
Proof.
  apply (redir_text_parsed "10.0.2.15" inet_aton_dotted "udp" "10.0.2.3"
           5353 53 167772675);
    first [reflexivity | lia | (right; left; reflexivity) | (cbn; lia)].
Defined.

Lemma redir_parse_sound_witness :
  let r := {| is_udp := 0; host_port := 8080; guest_addr := 167772687;
              guest_port := 80 |} in
  redir_parse "10.0.2.15" inet_aton_dotted "tcp:8080::80" = Some r /\
  (1 <= host_port r <= 65535) /\ (1 <= guest_port r <= 65535).
Proof.
  intros r.
  assert (H : redir_parse "10.0.2.15" inet_aton_dotted "tcp:8080::80" = Some r)
    by reflexivity.
  split; [exact H |].
  destruct (redir_parse_sound "10.0.2.15" inet_aton_dotted "tcp:8080::80" r H)
    as (H1 & H2 & _).
  split; assumption.
Defined.

(** ** Threads, initialization and deinitialization *)

Section LifecycleProperties.

Import Lifecycle.

(** [stop_thread] joins each thread that is marked active, once, the slirp
    thread first, and releases the semaphore when the reception thread was
    active; afterwards no thread is marked active, nothing else has changed,
    and a second [stop_thread] does nothing at all. *)
Theorem stop_thread_idempotent (g : ether_globals) :
  let g1 := fst (stop_thread g) in
  thread_active g1 = false /\ slirp_thread_active g1 = false /\
  set_threads g1 (thread_active g) (slirp_thread_active g) = g /\
  joined_threads (snd (stop_thread g))
  = (if slirp_thread_active g then [slirp_thread] else [])
    ++ (if thread_active g then [ether_thread] else []) /\
  (In dispatch_release (snd (stop_thread g)) <-> thread_active g = true) /\
  closed_fds (snd (stop_thread g)) = [] /\
  stop_thread g1 = (g1, []).
Proof.
  destruct g as [f ta ut nt sta so si ea np].
  destruct ta, sta; cbn; repeat split; try reflexivity; try tauto;
    try discriminate; intros H;
    repeat (destruct H as [H|H]; try discriminate); try contradiction; auto.
Qed.

(** [start_thread] returns true exactly when the semaphore and the reception
    thread could be created and, on the slirp device, the slirp thread too,
    and then the threads it created are marked active.  When the semaphore
    cannot be created nothing is changed and no thread is created.  When only
    the slirp thread cannot be created, it returns false with the reception
    thread running and marked active. *)
Theorem start_thread_result (h : host) (g : ether_globals) :
  let out := start_thread h g in
  let g1 := snd (fst out) in
  (fst (fst out) = true <->
   semaphore_created h = true /\ ether_thread_created h = true /\
   (net_if_type g = NET_IF_SLIRP -> slirp_thread_created h = true)) /\
  (fst (fst out) = true ->
   thread_active g1 = true /\
   (net_if_type g = NET_IF_SLIRP -> slirp_thread_active g1 = true)) /\
  (semaphore_created h = false -> out = (false, g, [dispatch_semaphore_create])) /\
  (semaphore_created h = true -> ether_thread_created h = true ->
   net_if_type g = NET_IF_SLIRP -> slirp_thread_created h = false ->
   fst (fst out) = false /\ thread_active g1 = true /\
   slirp_thread_active g1 = false) /\
  set_threads g1 (thread_active g) (slirp_thread_active g) = g /\
  closed_fds (snd out) = [] /\ joined_threads (snd out) = [].
Proof.
  destruct g as [f ta ut nt sta so si ea np].
  unfold start_thread. cbn [net_if_type thread_active slirp_thread_active set_threads].
  destruct (semaphore_created h), (ether_thread_created h),
    (slirp_thread_created h), (Z.eqb_spec nt NET_IF_SLIRP);
    cbn; repeat split; try reflexivity; try tauto; try discriminate;
    try congruence; intros; try tauto; try congruence;
    repeat match goal with H : _ /\ _ |- _ => destruct H end;
    try discriminate; try tauto; auto.
Qed.

(** [ether_stop_udp_thread] after [ether_start_udp_thread]: the socket is
    stored in [fd] and the tunnel flag set before the threads are started;
    stopping joins the threads that are marked active and sets [fd] to -1,
    but the tunnel flag stays set, and the protocol table is not touched. *)
Theorem udp_thread_start_stop (h : host) (socket_fd : Z) (g : ether_globals) :
  let out := ether_start_udp_thread h socket_fd g in
  let g1 := snd (fst out) in
  let g2 := fst (ether_stop_udp_thread g1) in
  fd g1 = socket_fd /\ udp_tunnel g1 = true /\
  fst (fst out) = fst (fst (start_thread h g)) /\
  fd g2 = -1 /\ udp_tunnel g2 = true /\
  thread_active g2 = false /\ slirp_thread_active g2 = false /\
  net_protocols g2 = net_protocols g /\
  closed_fds (snd (ether_stop_udp_thread g1)) = [].
Proof.
  destruct g as [f ta ut nt sta so si ea np].
  unfold ether_start_udp_thread, ether_stop_udp_thread, start_thread, stop_thread.
  cbn [net_if_type thread_active slirp_thread_active set_threads set_fds set_device
       fd udp_tunnel slirp_output_fd slirp_input_fds ether_addr net_protocols].
  destruct (semaphore_created h), (ether_thread_created h),
    (slirp_thread_created h), (nt =? NET_IF_SLIRP), sta, ta; cbn;
    repeat split; reflexivity.
Qed.

(** [ether_exit] stops the threads and closes the two ends of the slirp
    input pipe when they are not negative and the slirp output descriptor
    when it is positive, and nothing else: [fd] is not closed.  It leaves
    all descriptor variables as they are, so a second [ether_exit] closes the
    same descriptor numbers again. *)
Theorem ether_exit_closes (g : ether_globals) :
  let g1 := fst (ether_exit g) in
  closed_fds (snd (ether_exit g))
  = (if 0 <=? fst (slirp_input_fds g) then [fst (slirp_input_fds g)] else [])
    ++ (if 0 <=? snd (slirp_input_fds g) then [snd (slirp_input_fds g)] else [])
    ++ (if 0 <? slirp_output_fd g then [slirp_output_fd g] else []) /\
  fd g1 = fd g /\ slirp_input_fds g1 = slirp_input_fds g /\
  slirp_output_fd g1 = slirp_output_fd g /\
  thread_active g1 = false /\ slirp_thread_active g1 = false /\
  closed_fds (snd (ether_exit g1)) = closed_fds (snd (ether_exit g)) /\
  snd (ether_exit g1)
  = map sys_close (closed_fds (snd (ether_exit g))).
Proof.
  destruct g as [f ta ut nt sta so [i0 i1] ea np].
  unfold ether_exit, stop_thread.
  cbn [net_if_type thread_active slirp_thread_active set_threads
       fd slirp_output_fd slirp_input_fds fst snd].
  destruct ta, sta; cbn;
    destruct (0 <=? i0), (0 <=? i1), (0 <? so); cbn;
    repeat split; reflexivity.
Qed.

End LifecycleProperties.

Section InitProperties.

Import Lifecycle.

Local Open Scope string_scope.

Variable CTL_LOCAL : string.
Variable inet_aton : string -> option Z.
Variable slirp_state : Type.
Variable slirp_redir : slirp_state -> Z -> Z -> Z -> Z -> Z * slirp_state.

Local Abbreviation init := (ether_init CTL_LOCAL inet_aton slirp_state slirp_redir).

Lemma closed_fds_app (c1 c2 : list host_call) :
  closed_fds (c1 ++ c2) = (closed_fds c1 ++ closed_fds c2)%list.
Proof. unfold closed_fds. apply omap_app. Qed.

Lemma joined_threads_app (c1 c2 : list host_call) :
  joined_threads (c1 ++ c2) = (joined_threads c1 ++ joined_threads c2)%list.
Proof. unfold joined_threads. apply omap_app. Qed.

Lemma alerts_close_nothing (evs : list event) :
  closed_fds (omap alert_of_event evs) = [] /\
  joined_threads (omap alert_of_event evs) = [].
Proof. induction evs as [|[] evs [IH1 IH2]]; cbn; auto. Qed.

(** What the part after [open_error] does, field by field. *)
Lemma open_error_facts (g : ether_globals) :
  let g' := fst (open_error g) in
  thread_active g' = false /\ slirp_thread_active g' = false /\
  net_protocols g' = net_protocols g /\ net_if_type g' = net_if_type g /\
  udp_tunnel g' = udp_tunnel g /\
  fd g' = (if 0 <? fd g then -1 else fd g)%Z /\
  slirp_output_fd g'
  = (if 0 <=? slirp_output_fd g then -1 else slirp_output_fd g)%Z /\
  slirp_input_fds g'
  = ((if 0 <=? fst (slirp_input_fds g) then -1 else fst (slirp_input_fds g)),
     (if 0 <=? snd (slirp_input_fds g) then -1 else snd (slirp_input_fds g)))%Z /\
  closed_fds (snd (open_error g))
  = ((if 0 <? fd g then [fd g] else [])
     ++ (if 0 <=? fst (slirp_input_fds g) then [fst (slirp_input_fds g)] else [])
     ++ (if 0 <=? snd (slirp_input_fds g) then [snd (slirp_input_fds g)] else [])
     ++ (if 0 <=? slirp_output_fd g then [slirp_output_fd g] else []))%Z%list.
Proof.
  destruct g as [f ta ut nt sta so [i0 i1] ea np].
  unfold open_error, stop_thread.
  destruct ta, sta; cbn;
    destruct (0 <? f)%Z, (0 <=? i0)%Z, (0 <=? i1)%Z, (0 <=? so)%Z; cbn;
    repeat split; reflexivity.
Qed.

(** What [start_thread] changes and what its success means. *)
Lemma start_thread_facts (h : host) (g : ether_globals) :
  let st := start_thread h g in
  let g' := snd (fst st) in
  fd g' = fd g /\ net_if_type g' = net_if_type g /\ udp_tunnel g' = udp_tunnel g /\
  ether_addr g' = ether_addr g /\ net_protocols g' = net_protocols g /\
  slirp_output_fd g' = slirp_output_fd g /\ slirp_input_fds g' = slirp_input_fds g /\
  closed_fds (snd st) = [] /\ joined_threads (snd st) = [] /\
  (fst (fst st) = true ->
   thread_active g' = true /\ semaphore_created h = true /\
   ether_thread_created h = true /\
   (net_if_type g = NET_IF_SLIRP -> slirp_thread_active g' = true) /\
   (net_if_type g <> NET_IF_SLIRP -> slirp_thread_active g' = slirp_thread_active g)).
Proof.
  destruct g as [f ta ut nt sta so si ea np].
  unfold start_thread.
  cbn [net_if_type thread_active slirp_thread_active set_threads].
  destruct (semaphore_created h), (ether_thread_created h),
    (slirp_thread_created h), (Z.eqb_spec nt NET_IF_SLIRP);
    cbn; repeat split; try reflexivity; try discriminate; intros;
    try contradiction; try reflexivity.
Qed.

(** [ether_init_device] with the two ways out written with projections. *)
Lemma ether_init_device_eq (h : host) (name : string) (g : ether_globals)
    (calls : list host_call) :
  ether_init_device h name g calls =
  let dev := dev_name (net_if_type g) name in
  let slirp := (net_if_type g =? NET_IF_SLIRP)%Z in
  let g1 := if slirp then g
            else set_fds g (open_result h) (slirp_output_fd g) (slirp_input_fds g) in
  let fail (g0 : ether_globals) (cs : list host_call) :=
    (false, fst (open_error g0), (cs ++ snd (open_error g0))%list) in
  if negb slirp && (open_result h <? 0)%Z
  then fail g1 (calls ++ [sys_open dev; alert (no_driver_text h dev)])%list
  else
    let calls1 := if slirp then calls else (calls ++ [sys_open dev])%list in
    if negb (nonblocking_set h)
    then fail g1 (calls1 ++ [alert (blocking_text h)])%list
    else
      let addr := if slirp then slirp_ether_addr
                  else default (ether_addr g) (if_addr h) in
      let st := start_thread h (set_device g1 (net_if_type g) (udp_tunnel g) addr) in
      if fst (fst st) then (true, snd (fst st), (calls1 ++ snd st)%list)
      else fail (snd (fst st)) (calls1 ++ snd st)%list.
Proof.
  unfold ether_init_device. cbv zeta.
  destruct (net_if_type g =? NET_IF_SLIRP)%Z eqn:Es; cbn [negb andb].
  - destruct (nonblocking_set h); cbn [negb].
    + rewrite Es.
      destruct (start_thread h _) as [[ok g'] cs]. cbn [fst snd].
      destruct ok; [reflexivity |]. now destruct (open_error g').
    + now destruct (open_error g).
  - cbn [fd set_fds]. destruct (open_result h <? 0)%Z; cbn [negb].
    + now destruct (open_error _).
    + destruct (nonblocking_set h); cbn [negb].
      * cbn [net_if_type set_fds udp_tunnel]. rewrite Es.
        destruct (start_thread h _) as [[ok g'] cs]. cbn [fst snd].
        destruct ok; [reflexivity |]. now destruct (open_error g').
      * now destruct (open_error _).
Qed.

Lemma Z_eqb_slirp (t : Z) : (t =? NET_IF_SLIRP)%Z = true -> t = NET_IF_SLIRP.
Proof. apply Z.eqb_eq. Qed.

(** The successful way out of [ether_init_device]. *)
Lemma ether_init_device_true (h : host) (name : string) (g : ether_globals)
    (calls : list host_call) :
  let out := ether_init_device h name g calls in
  let g' := snd (fst out) in
  fst (fst out) = true ->
  nonblocking_set h = true /\ semaphore_created h = true /\
  ether_thread_created h = true /\ thread_active g' = true /\
  net_protocols g' = net_protocols g /\ udp_tunnel g' = udp_tunnel g /\
  net_if_type g' = net_if_type g /\
  slirp_output_fd g' = slirp_output_fd g /\
  slirp_input_fds g' = slirp_input_fds g /\
  closed_fds (snd out) = closed_fds calls /\
  joined_threads (snd out) = joined_threads calls /\
  (net_if_type g = NET_IF_SLIRP ->
   fd g' = fd g /\ slirp_thread_active g' = true /\
   ether_addr g' = slirp_ether_addr) /\
  (net_if_type g <> NET_IF_SLIRP ->
   fd g' = open_result h /\ (0 <= open_result h)%Z /\
   In (sys_open (dev_name (net_if_type g) name)) (snd out) /\
   ether_addr g' = default (ether_addr g) (if_addr h) /\
   slirp_thread_active g' = slirp_thread_active g).
Proof.
  cbv zeta. rewrite ether_init_device_eq. cbv zeta.
  destruct (Z.eqb_spec (net_if_type g) NET_IF_SLIRP) as [Es|Es]; cbn [negb andb].
  - destruct (nonblocking_set h); cbn [negb]; [| discriminate].
    pose proof (start_thread_facts h
                  (set_device g (net_if_type g) (udp_tunnel g) slirp_ether_addr)) as F.
    cbv zeta in F.
    destruct F as (F1 & F2 & F3 & F4 & F5 & F6 & F7 & F8 & F9 & F10).
    destruct (fst (fst (start_thread h _))); [| discriminate].
    intros _. destruct (F10 eq_refl) as (T1 & T2 & T3 & T4 & _).
    cbn [fst snd]. rewrite closed_fds_app, joined_threads_app, F8, F9, !app_nil_r.
    repeat split; try assumption; try reflexivity; try contradiction.
    apply T4. exact Es.
  - destruct (Z.ltb_spec (open_result h) 0) as [Hlt|Hge]; [discriminate |].
    destruct (nonblocking_set h); cbn [negb]; [| discriminate].
    pose proof (start_thread_facts h
                  (set_device (set_fds g (open_result h) (slirp_output_fd g)
                                 (slirp_input_fds g))
                     (net_if_type g) (udp_tunnel g)
                     (default (ether_addr g) (if_addr h)))) as F.
    cbv zeta in F.
    destruct F as (F1 & F2 & F3 & F4 & F5 & F6 & F7 & F8 & F9 & F10).
    destruct (fst (fst (start_thread h _))); [| discriminate].
    intros _. destruct (F10 eq_refl) as (T1 & T2 & T3 & _ & T5).
    cbn [fst snd].
    rewrite !closed_fds_app, !joined_threads_app, F8, F9, !app_nil_r.
    repeat split; try assumption; try reflexivity; try contradiction.
    + apply in_or_app. left. apply in_or_app. right. left. reflexivity.
    + apply T5. exact Es.
Qed.

(** The failing way out of [ether_init_device]: it goes through
    [open_error], from globals that hold the descriptors in use. *)
Lemma ether_init_device_false (h : host) (name : string) (g : ether_globals)
    (calls : list host_call) :
  let out := ether_init_device h name g calls in
  fst (fst out) = false ->
  exists g0 cs,
    out = (false, fst (open_error g0), (cs ++ snd (open_error g0))%list) /\
    fd g0 = (if (net_if_type g =? NET_IF_SLIRP)%Z then fd g else open_result h) /\
    slirp_output_fd g0 = slirp_output_fd g /\
    slirp_input_fds g0 = slirp_input_fds g /\
    net_protocols g0 = net_protocols g /\ net_if_type g0 = net_if_type g /\
    closed_fds cs = closed_fds calls /\
    (net_if_type g <> NET_IF_SLIRP -> (open_result h < 0)%Z ->
     In (alert (no_driver_text h (dev_name (net_if_type g) name))) cs).
Proof.
  cbv zeta. rewrite ether_init_device_eq. cbv zeta.
  destruct (Z.eqb_spec (net_if_type g) NET_IF_SLIRP) as [Es|Es]; cbn [negb andb].
  - destruct (nonblocking_set h); cbn [negb].
    + pose proof (start_thread_facts h
                    (set_device g (net_if_type g) (udp_tunnel g) slirp_ether_addr)) as F.
      cbv zeta in F.
      destruct F as (F1 & F2 & F3 & F4 & F5 & F6 & F7 & F8 & F9 & _).
      destruct (fst (fst (start_thread h _))); [discriminate |]. intros _.
      eexists _, _. split; [reflexivity |].
      rewrite closed_fds_app, F8, app_nil_r.
      repeat split; try assumption; try reflexivity; contradiction.
    + intros _. eexists _, _. split; [reflexivity |].
      rewrite closed_fds_app, app_nil_r.
      repeat split; try reflexivity; contradiction.
  - destruct (Z.ltb_spec (open_result h) 0) as [Hlt|Hge].
    + intros _. eexists _, _. split; [reflexivity |].
      rewrite closed_fds_app, app_nil_r.
      repeat split; try reflexivity.
      intros _ _. apply in_or_app. right. right. left. reflexivity.
    + destruct (nonblocking_set h); cbn [negb].
      * pose proof (start_thread_facts h
                      (set_device (set_fds g (open_result h) (slirp_output_fd g)
                                     (slirp_input_fds g))
                         (net_if_type g) (udp_tunnel g)
                         (default (ether_addr g) (if_addr h)))) as F.
        cbv zeta in F.
        destruct F as (F1 & F2 & F3 & F4 & F5 & F6 & F7 & F8 & F9 & _).
        destruct (fst (fst (start_thread h _))); [discriminate |]. intros _.
        eexists _, _. split; [reflexivity |].
        rewrite !closed_fds_app, F8, !app_nil_r.
        repeat split; try assumption; try reflexivity. intros; lia.
      * intros _. eexists _, _. split; [reflexivity |].
        rewrite !closed_fds_app, !app_nil_r.
        repeat split; try reflexivity. intros; lia.
Qed.

(** When [ether_init] returns true, a device name was configured, the
    device is the slirp device for the name [slirp] and the sheep_net device
    for every other name, the reception thread is marked active, nothing was
    closed and no thread joined, and the protocol table and the tunnel flag
    are as before.  On the slirp device the slirp thread is active too, the
    address is 52:54:00:12:34:56, [fd] is the read end of the first pipe and
    the rules were handed to the slirp library; on the sheep_net device [fd]
    is the descriptor [open] gave for [/dev/sheep_net] and the slirp library
    was not touched. *)
Theorem ether_init_success (h : host) (sl : slirp_state) (g : ether_globals)
    (out : bool * ether_globals * list host_call * slirp_state) :
  init h sl g = Some out ->
  let g' := snd (fst (fst out)) in
  let calls := snd (fst out) in
  fst (fst (fst out)) = true ->
  exists name, pref_ether h = Some name /\
    thread_active g' = true /\
    semaphore_created h = true /\ ether_thread_created h = true /\
    nonblocking_set h = true /\
    closed_fds calls = [] /\ joined_threads calls = [] /\
    net_protocols g' = net_protocols g /\ udp_tunnel g' = udp_tunnel g /\
    (name = "slirp" /\ net_if_type g' = NET_IF_SLIRP /\
     slirp_thread_active g' = true /\ ether_addr g' = slirp_ether_addr /\
     (0 <= slirp_init h)%Z /\
     pipe_output h = Some (fd g', slirp_output_fd g') /\
     pipe_input h = Some (slirp_input_fds g') /\
     snd <$> slirp_add_redirs CTL_LOCAL inet_aton slirp_state slirp_redir
               (pref_redir h) sl = Some (snd out)
     \/
     name <> "slirp" /\ net_if_type g' = NET_IF_SHEEPNET /\
     fd g' = open_result h /\ (0 <= fd g')%Z /\
     In (sys_open "/dev/sheep_net") calls /\
     ether_addr g' = default (ether_addr g) (if_addr h) /\
     slirp_input_fds g' = slirp_input_fds g /\
     slirp_output_fd g' = slirp_output_fd g /\
     slirp_thread_active g' = slirp_thread_active g /\
     snd out = sl).
Proof.
  unfold ether_init. intros Hout. cbv zeta.
  destruct (pref_ether h) as [name|].
  2:{ injection Hout as <-. discriminate. }
  intros H. exists name. split; [reflexivity |].
  destruct (String.eqb_spec name "slirp") as [En|En].
  - cbn [net_if_type set_device] in Hout.
    change (NET_IF_SLIRP =? NET_IF_SLIRP)%Z with true in Hout. cbv iota in Hout.
    destruct (Z.ltb_spec (slirp_init h) 0) as [|Hinit].
    { injection Hout as <-. discriminate. }
    destruct (pipe_output h) as [[r w]|].
    2:{ injection Hout as <-. discriminate. }
    destruct (pipe_input h) as [[r2 w2]|].
    2:{ injection Hout as <-. discriminate. }
    destruct (slirp_add_redirs CTL_LOCAL inet_aton slirp_state slirp_redir
                (pref_redir h) sl) as [[evs sl']|]; [| discriminate].
    injection Hout as <-.
    cbn [fst snd] in *.
    destruct (ether_init_device_true _ _ _ _ H)
      as (D1 & D2 & D3 & D4 & D5 & D6 & D7 & D8 & D9 & D10 & D11 & D12 & _).
    destruct (D12 eq_refl) as (E1 & E2 & E3).
    destruct (alerts_close_nothing evs) as (A1 & A2).
    assert (C1 : closed_fds ([sys_pipe; sys_pipe] ++ omap alert_of_event evs) = [])
      by (rewrite closed_fds_app, A1; reflexivity).
    assert (C2 : joined_threads ([sys_pipe; sys_pipe] ++ omap alert_of_event evs) = [])
      by (rewrite joined_threads_app, A2; reflexivity).
    cbn [app] in C1, C2, D10, D11. rewrite C1 in D10. rewrite C2 in D11.
    repeat (split; [assumption |]).
    left. rewrite E1, D8, D9. repeat split; try assumption; try reflexivity.
  - cbn [net_if_type set_device] in Hout.
    change (NET_IF_SHEEPNET =? NET_IF_SLIRP)%Z with false in Hout. cbv iota in Hout.
    injection Hout as <-.
    cbn [fst snd] in *.
    destruct (ether_init_device_true _ _ _ _ H)
      as (D1 & D2 & D3 & D4 & D5 & D6 & D7 & D8 & D9 & D10 & D11 & _ & D13).
    destruct (D13 ltac:(discriminate)) as (E1 & E2 & E3 & E4 & E5).
    repeat (split; [assumption |]).
    right. rewrite E1. repeat split; try assumption; try reflexivity.
Qed.

(** When [ether_init] fails on the slirp device after both pipes were
    created (the non-blocking mode cannot be set, or a thread cannot be
    started) and the descriptors of the pipes are positive, it returns false
    with no thread marked active, each of the four pipe descriptors closed
    exactly once and all descriptor variables set to -1. *)
Theorem ether_init_slirp_failure_cleanup (h : host) (sl : slirp_state)
    (g : ether_globals) (r w r2 w2 : Z)
    (out : bool * ether_globals * list host_call * slirp_state) :
  init h sl g = Some out ->
  let g' := snd (fst (fst out)) in
  pref_ether h = Some "slirp" -> (0 <= slirp_init h)%Z ->
  pipe_output h = Some (r, w) -> pipe_input h = Some (r2, w2) ->
  (0 < r)%Z -> (0 <= w)%Z -> (0 <= r2)%Z -> (0 <= w2)%Z ->
  fst (fst (fst out)) = false ->
  thread_active g' = false /\ slirp_thread_active g' = false /\
  closed_fds (snd (fst out)) = [r; r2; w2; w] /\
  fd g' = (-1)%Z /\ slirp_output_fd g' = (-1)%Z /\
  slirp_input_fds g' = (-1, -1)%Z /\
  net_protocols g' = net_protocols g.
Proof.
  unfold ether_init. intros Hout. cbv zeta.
  intros Hname Hinit Hp1 Hp2 Hr Hw Hr2 Hw2.
  rewrite Hname, Hp1, Hp2 in Hout.
  change (String.eqb "slirp" "slirp") with true in Hout. cbv iota in Hout.
  cbn [net_if_type set_device] in Hout.
  change (NET_IF_SLIRP =? NET_IF_SLIRP)%Z with true in Hout. cbv iota in Hout.
  destruct (Z.ltb_spec (slirp_init h) 0) as [Hlt|_]; [lia |].
  destruct (slirp_add_redirs CTL_LOCAL inet_aton slirp_state slirp_redir
              (pref_redir h) sl) as [[evs sl']|]; [| discriminate].
  injection Hout as <-.
  cbn [fst snd]. intros H.
  destruct (ether_init_device_false _ _ _ _ H)
    as (g0 & cs & -> & F1 & F2 & F3 & F4 & F5 & F6 & _).
  cbn [fst snd net_if_type set_fds set_device fd slirp_output_fd slirp_input_fds
       net_protocols] in F1, F2, F3, F4, F5.
  change (NET_IF_SLIRP =? NET_IF_SLIRP)%Z with true in F1. cbv iota in F1.
  destruct (alerts_close_nothing evs) as (A1 & _).
  assert (C1 : closed_fds ([sys_pipe; sys_pipe] ++ omap alert_of_event evs) = [])
    by (rewrite closed_fds_app, A1; reflexivity).
  cbn [app] in C1, F6. rewrite C1 in F6.
  pose proof (open_error_facts g0) as O. cbv zeta in O.
  destruct O as (O1 & O2 & O3 & O4 & O5 & O6 & O7 & O8 & O9).
  rewrite F1, F2, F3 in *. cbn [fst snd] in *.
  assert (Er : (0 <? r)%Z = true) by (apply Z.ltb_lt; lia).
  assert (Ew : (0 <=? w)%Z = true) by (apply Z.leb_le; lia).
  assert (Er2 : (0 <=? r2)%Z = true) by (apply Z.leb_le; lia).
  assert (Ew2 : (0 <=? w2)%Z = true) by (apply Z.leb_le; lia).
  rewrite Er, Ew, Er2, Ew2 in *.
  rewrite closed_fds_app, F6, O9.
  repeat split; try assumption; try reflexivity. congruence.
Qed.

(** When [ether_init] cannot create the slirp library or one of the pipes,
    it returns false at once and closes nothing: after a failure of the
    second [pipe] the two descriptors of the first pipe are left open, in
    [fd] and [slirp_output_fd].  The slirp library has not been given any
    rule, and the device type stays set to slirp. *)
Theorem ether_init_slirp_early_failure (h : host) (sl : slirp_state)
    (g : ether_globals) :
  pref_ether h = Some "slirp" ->
  (slirp_init h < 0)%Z \/ pipe_output h = None \/ pipe_input h = None ->
  exists g' calls,
    init h sl g = Some (false, g', calls, sl) /\
    closed_fds calls = [] /\ joined_threads calls = [] /\
    net_if_type g' = NET_IF_SLIRP /\
    thread_active g' = thread_active g /\
    slirp_input_fds g' = slirp_input_fds g /\
    (forall r w, (0 <= slirp_init h)%Z -> pipe_output h = Some (r, w) ->
       fd g' = r /\ slirp_output_fd g' = w) /\
    ((slirp_init h < 0)%Z ->
     calls = [alert (slirp_no_dns_text h)] /\ fd g' = fd g).
Proof.
  unfold ether_init. intros Hname Hfail. rewrite Hname.
  change (String.eqb "slirp" "slirp") with true. cbv iota.
  cbn [net_if_type set_device].
  change (NET_IF_SLIRP =? NET_IF_SLIRP)%Z with true. cbv iota.
  destruct (Z.ltb_spec (slirp_init h) 0) as [Hlt|Hge].
  - eexists _, _. split; [reflexivity |].
    cbn. repeat split; try reflexivity; intros; lia.
  - destruct (pipe_output h) as [[r w]|] eqn:Hp1.
    + destruct (pipe_input h) as [[r2 w2]|] eqn:Hp2.
      * destruct Hfail as [Hfail|[Hfail|Hfail]]; [lia | discriminate | discriminate].
      * eexists _, _. split; [reflexivity |].
        cbn. repeat split; try reflexivity; intros; try lia; congruence.
    + eexists _, _. split; [reflexivity |].
      cbn. repeat split; try reflexivity; intros; try lia; discriminate.
Qed.

(** On the sheep_net device [ether_init] always returns, with the slirp
    library untouched.  When it returns false, no thread is marked active
    afterwards, and the slirp descriptors that were not negative in the
    globals before the call (left there by an earlier session on the slirp
    device; none of them at the first call) are closed and set to -1.
    Besides these: when [/dev/sheep_net] cannot be opened, the warning for
    that device name is raised and nothing else is closed; when the failure
    comes after the device was opened with a positive descriptor, that
    descriptor is closed first and [fd] set to -1, while a descriptor 0 is
    left open. *)
Theorem ether_init_device_failure (h : host) (sl : slirp_state)
    (g : ether_globals) (name : string) :
  pref_ether h = Some name -> name <> "slirp" ->
  exists out,
    init h sl g = Some out /\
    let g' := snd (fst (fst out)) in
    let calls := snd (fst out) in
    snd out = sl /\ net_if_type g' = NET_IF_SHEEPNET /\
    (fst (fst (fst out)) = false ->
     thread_active g' = false /\ slirp_thread_active g' = false /\
     slirp_input_fds g'
     = ((if 0 <=? fst (slirp_input_fds g) then -1 else fst (slirp_input_fds g)),
        (if 0 <=? snd (slirp_input_fds g) then -1 else snd (slirp_input_fds g)))%Z /\
     slirp_output_fd g'
     = (if 0 <=? slirp_output_fd g then -1 else slirp_output_fd g)%Z /\
     slirp_fds_in_use g' = [] /\
     ((open_result h < 0)%Z ->
      closed_fds calls = slirp_fds_in_use g /\ fd g' = open_result h /\
      In (alert (no_driver_text h "/dev/sheep_net")) calls) /\
     ((0 < open_result h)%Z ->
      closed_fds calls = open_result h :: slirp_fds_in_use g /\ fd g' = (-1)%Z) /\
     (open_result h = 0%Z ->
      closed_fds calls = slirp_fds_in_use g /\ fd g' = 0%Z) /\
     (slirp_input_fds g = (-1, -1)%Z -> slirp_output_fd g = (-1)%Z ->
      slirp_fds_in_use g = [] /\
      slirp_input_fds g' = (-1, -1)%Z /\ slirp_output_fd g' = (-1)%Z)).
Proof.
  unfold ether_init. intros Hname Hne. rewrite Hname.
  destruct (String.eqb_spec name "slirp") as [E|_]; [contradiction |].
  cbn [net_if_type set_device].
  change (NET_IF_SHEEPNET =? NET_IF_SLIRP)%Z with false. cbv iota.
  eexists. split; [reflexivity |]. cbv zeta. cbn [fst snd].
  split; [reflexivity |].
  assert (T : net_if_type (snd (fst (ether_init_device h name
                (set_device g NET_IF_SHEEPNET (udp_tunnel g) (ether_addr g)) [])))
              = NET_IF_SHEEPNET).
  { destruct (fst (fst (ether_init_device h name
                (set_device g NET_IF_SHEEPNET (udp_tunnel g) (ether_addr g)) [])))
      eqn:R.
    - destruct (ether_init_device_true _ _ _ _ R)
        as (_ & _ & _ & _ & _ & _ & D7 & _). exact D7.
    - destruct (ether_init_device_false _ _ _ _ R)
        as (g0 & cs & Eq & _ & _ & _ & _ & F5 & _).
      rewrite Eq. cbn [fst snd].
      pose proof (open_error_facts g0) as O. cbv zeta in O.
      destruct O as (_ & _ & _ & O4 & _). now rewrite O4, F5. }
  split; [exact T |]. intros H.
  destruct (ether_init_device_false _ _ _ _ H)
    as (g0 & cs & -> & F1 & F2 & F3 & F4 & F5 & F6 & F7).
  cbn [fst snd net_if_type set_fds set_device fd slirp_output_fd slirp_input_fds
       net_protocols] in F1, F2, F3, F4, F5, F7.
  change (NET_IF_SHEEPNET =? NET_IF_SLIRP)%Z with false in F1. cbv iota in F1.
  pose proof (open_error_facts g0) as O. cbv zeta in O.
  destruct O as (O1 & O2 & O3 & O4 & O5 & O6 & O7 & O8 & O9).
  cbn [fst snd].
  assert (C : closed_fds (cs ++ snd (open_error g0))
              = ((if (0 <? open_result h)%Z then [open_result h] else [])
                 ++ slirp_fds_in_use g)%list).
  { rewrite closed_fds_app, F6, O9, F1, F2, F3. reflexivity. }
  assert (U : slirp_fds_in_use (fst (open_error g0)) = []).
  { unfold slirp_fds_in_use. rewrite O7, O8. cbn [fst snd].
    destruct (Z.leb_spec 0 (fst (slirp_input_fds g0))),
      (Z.leb_spec 0 (snd (slirp_input_fds g0))),
      (Z.leb_spec 0 (slirp_output_fd g0)); cbn;
      repeat match goal with
             | |- context [(0 <=? ?x)%Z] =>
                 destruct (Z.leb_spec 0 x); try lia
             end; reflexivity. }
  split; [assumption |]. split; [assumption |].
  split; [now rewrite O8, F3 |]. split; [now rewrite O7, F2 |].
  split; [exact U |].
  rewrite C, O6, F1.
  split; [| split; [| split]].
  - intros Hcase. destruct (Z.ltb_spec 0 (open_result h)); [lia |].
    split; [reflexivity |]. split; [reflexivity |].
    apply in_or_app. left. apply F7; [discriminate | exact Hcase].
  - intros Hcase. destruct (Z.ltb_spec 0 (open_result h)); [| lia].
    split; reflexivity.
  - intros Hcase. rewrite Hcase. split; reflexivity.
  - intros Hin Hout. rewrite O7, O8, F2, F3. unfold slirp_fds_in_use.
    rewrite Hin, Hout. repeat split.
Qed.

End InitProperties.

(** ** Concrete runs of the further properties *)

Lemma no_interrupt_after_exit_witness :
  let f := frame_of_type 2048 46 in
  exists s,
    exec 65536 131072 256 512 globals_with_handlers []
      ([] ++ L_poll_fail :: [L_arrive f]) s /\
    sys_pc s = Exited /\ interrupts_raised [L_arrive f] = 0%nat.
Proof.
  intros f.
  assert (Hexec : exists s, exec 65536 131072 256 512 globals_with_handlers []
                              ([] ++ L_poll_fail :: [L_arrive f]) s).
  { eexists. subst f. cbn [app]. run_trace. }
  destruct Hexec as [s Hexec]. exists s. split; [exact Hexec |].
  destruct (no_interrupt_after_exit 65536 131072 256 512 globals_with_handlers []
              [] L_poll_fail [L_arrive f] s Hexec eq_refl) as (H1 & H2 & _).
  split; assumption.
Defined.

Lemma waiting_thread_resumes_witness :
  let f := frame_of_type 2048 46 in
  exists s,
    exec 65536 131072 256 512 globals_with_handlers [f] [L_trigger] s /\
    (sys_int_ack s <= 1)%nat.
Proof.
  intros f.
  assert (Hexec : exists s, exec 65536 131072 256 512 globals_with_handlers [f]
                              [L_trigger] s).
  { eexists. subst f. run_trace. }
  destruct Hexec as [s Hexec]. exists s. split; [exact Hexec |].
  exact (proj1 (waiting_thread_resumes 65536 131072 256 512 globals_with_handlers
                  [f] [L_trigger] s Hexec)).
Defined.

Lemma ether_init_success_witness :
  exists out,
    Lifecycle.ether_init "10.0.2.15" inet_aton_dotted (list redir_rule)
      recording_redir (example_host "slirp" true true true) [] initial_globals
    = Some out /\
    fst (fst (fst out)) = true /\
    exists name, Lifecycle.pref_ether (example_host "slirp" true true true) = Some name /\
                 thread_active (snd (fst (fst out))) = true.
Proof.
  eexists. split; [vm_compute; reflexivity |].
  split; [reflexivity |].
  destruct (ether_init_success "10.0.2.15" inet_aton_dotted (list redir_rule)
              recording_redir (example_host "slirp" true true true) []
              initial_globals _ eq_refl eq_refl) as (name & Hn & Ht & _).
  exists name. split; assumption.
Defined.

Lemma ether_init_slirp_failure_cleanup_witness :
  exists out,
    Lifecycle.ether_init "10.0.2.15" inet_aton_dotted (list redir_rule)
      recording_redir (example_host "slirp" true true false) [] initial_globals
    = Some out /\
    fst (fst (fst out)) = false /\
    Lifecycle.closed_fds (snd (fst out)) = [4; 6; 7; 5].
Proof.
  eexists. split; [vm_compute; reflexivity |].
  split; [reflexivity |].
  refine (proj1 (proj2 (proj2
    (ether_init_slirp_failure_cleanup "10.0.2.15" inet_aton_dotted
       (list redir_rule) recording_redir (example_host "slirp" true true false) []
       initial_globals 4 5 6 7 _ eq_refl eq_refl _ eq_refl eq_refl _ _ _ _ eq_refl))));
    cbn; lia.
Defined.

Lemma ether_init_slirp_early_failure_witness :
  exists g' calls,
    Lifecycle.ether_init "10.0.2.15" inet_aton_dotted (list redir_rule)
      recording_redir (example_host "slirp" false true true) [] initial_globals
    = Some (false, g', calls, []) /\
    Lifecycle.closed_fds calls = [] /\ fd g' = 4.
Proof.
  destruct (ether_init_slirp_early_failure "10.0.2.15" inet_aton_dotted
              (list redir_rule) recording_redir
              (example_host "slirp" false true true) [] initial_globals
              eq_refl (or_intror (or_intror eq_refl)))
    as (g' & calls & Hout & Hc & _ & _ & _ & _ & Hfd & _).
  exists g', calls. split; [exact Hout |]. split; [exact Hc |].
  apply (Hfd 4 5); [cbn; lia | reflexivity].
Defined.

Lemma ether_init_device_failure_witness :
  exists out,
    Lifecycle.ether_init "10.0.2.15" inet_aton_dotted (list redir_rule)
      recording_redir (example_host "sheep_net" true false true) [] globals_slirp
    = Some out /\
    fst (fst (fst out)) = false /\
    thread_active (snd (fst (fst out))) = false /\
    Lifecycle.closed_fds (snd (fst out)) = [7; 8; 6].
Proof.
  destruct (ether_init_device_failure "10.0.2.15" inet_aton_dotted
              (list redir_rule) recording_redir
              (example_host "sheep_net" true false true) [] globals_slirp
              "sheep_net" eq_refl ltac:(discriminate))
    as (out & Hout & _ & _ & H).
  exists out. split; [exact Hout |].
  assert (R : fst (fst (fst out)) = false).
  { vm_compute in Hout. injection Hout as <-. reflexivity. }
  split; [exact R |].
  destruct (H R) as (H1 & _ & _ & _ & _ & H4 & _).
  split; [exact H1 |].
  apply H4. cbn. lia.
Defined.
